(** * cq_warehouse.fastener: a shallow embedding and its checked properties

    The development follows [src/cq_warehouse/fastener.py].

    Conventions of the embedding:
    - Python [float]s are idealised as real numbers ([R]); rounding and the
      exceptions of float arithmetic are outside the model, and [/] is the
      total division of the reals.
    - Python exceptions are values of type [exn]; a computation that may
      raise returns [result A].
    - Python objects that are compared by identity (fastener instances) live
      in a store ([heap]) and are handled through references ([ref]).
    - The CadQuery geometry kernel is not executed: solids and sketches are
      symbolic terms ([shape]) recording the kernel calls, and the few kernel
      queries the code makes are fields of the class [External], together
      with the CSV-loaded tables and the helpers of [cq_warehouse.thread]. *)

From Stdlib Require Import Reals Lra Lia Ascii.
From stdpp Require Import base gmap list strings pretty.

Set Warnings "-register-all".

(** ** Python values, exceptions and results *)

Module Py.

(** A value found in a dimension table after [evaluate_parameter_dict]:
    [metric_str_to_float] leaves a string it cannot evaluate unchanged. *)
Inductive value :=
  | VFloat (x : R)
  | VStr (s : string).

(** The f-string built at each [raise] site of the module.  Messages are kept
    structured: their float and collection arguments have no canonical
    rendering in the model. *)
Inductive message :=
  (* f"{size_parts} invalid, must be formatted as size-pitch or size-TPI" *)
  | MsgSizeFormat (size_parts : list string)
  (* f"{fastener_type} invalid, must be one of {self.types()}" *)
  | MsgInvalidType (fastener_type : string) (types : gset string)
  (* f"{hand} invalid, must be one of 'left' or 'right'" *)
  | MsgInvalidHand (hand : option string)
  (* f"{size} invalid, must be one of {self.sizes(self.fastener_type)}" *)
  | MsgInvalidSize (size : string) (sizes : list string)
  (* f"Screw length {self.length} is <= countersunk screw head {length_offset}" *)
  | MsgScrewLength (length length_offset : R)
  (* f"{key} invalid, must be one of {list(hole_diameters.keys())}" *)
  | MsgInvalidKey (key : option string) (keys : list string)
  (* f"No clearance hole data for size {self.size}" *)
  | MsgNoClearanceData (size : string)
  (* f"No tap hole data for size {self.size}" *)
  | MsgNoTapData (size : string)
  (* f"{size} is an invalid cross size {widths}" *)
  | MsgInvalidCross (size : string) (widths : list (string * R))
  (* f"{size} is an invalid square size {widths}" *)
  | MsgInvalidSquare (size : string) (widths : list (string * R))
  (* f"{size} is an invalid hexalobular size" *)
  | MsgInvalidHexalobular (size : string)
  (* f"Recess data missing from screw_data{self.screw_data}" *)
  | MsgRecessDataMissing (screw_data : list (string * value))
  (* a message built outside this module (float(), eval, kernel) *)
  | MsgExternal (text : string).

Inductive exn :=
  | ValueError (m : message)
  | KeyError (key : option string)
  | TypeError (what : string)
  | IndexError
  | AttributeError (attribute : string).

Inductive result (A : Type) :=
  | Ok (a : A)
  | Raise (e : exn).
Arguments Ok {A} a.
Arguments Raise {A} e.

Definition bind {A B} (m : result A) (k : A → result B) : result B :=
  match m with
  | Ok a => k a
  | Raise e => Raise e
  end.

(** [try: m except KeyError: raise h] *)
Definition except_KeyError {A} (m : result A) (h : exn) : result A :=
  match m with
  | Raise (KeyError _) => Raise h
  | r => r
  end.

(** [try: m except KeyError: handler], for a handler that computes *)
Definition except_KeyError_do {A} (m : result A) (handler : result A) : result A :=
  match m with
  | Raise (KeyError _) => handler
  | r => r
  end.

Definition returns {A} (m : result A) : Prop :=
  match m with Ok _ => True | Raise _ => False end.

(** Arithmetic and ordering on a table value raise [TypeError] on a string. *)
Definition as_float (v : value) : result R :=
  match v with
  | VFloat x => Ok x
  | VStr _ => Raise (TypeError "unsupported operand type(s): 'str'")
  end.

(** An attribute of a Python object: absent, bound to [None], or bound to a
    value ([hasattr] tells the first from the other two). *)
Inductive attr (A : Type) :=
  | Absent
  | IsNone
  | Bound (a : A).
Arguments Absent {A}.
Arguments IsNone {A}.
Arguments Bound {A} a.

End Py.
Export Py.

#[global] Instance result_bind : MBind result := λ A B k m, bind m k.
#[global] Instance result_ret : MRet result := λ A a, Ok a.
#[global] Instance result_fmap : FMap result :=
  λ A B f m, match m with Ok a => Ok (f a) | Raise e => Raise e end.

(** ** Insertion-ordered dictionaries with string keys

    The CSV-derived tables are Python [dict]s whose iteration order is
    observable ([list(d.values())[0]], [list(d.keys())] in messages). *)

Module Dict.

Definition dict (V : Type) := list (string * V).

Fixpoint get {V} (d : dict V) (k : string) : option V :=
  match d with
  | [] => None
  | (k', v) :: d' => if decide (k' = k) then Some v else get d' k
  end.

(** [d[k]] *)
Definition item {V} (d : dict V) (k : string) : result V :=
  match get d k with
  | Some v => Ok v
  | None => Raise (KeyError (Some k))
  end.

(** [d[k]] for a key that may be [None]: tables have string keys only. *)
Definition item_opt {V} (d : dict V) (k : option string) : result V :=
  match k with
  | Some k => item d k
  | None => Raise (KeyError None)
  end.

(** [d[k] = v]: overwrite in place, or append. *)
Fixpoint set {V} (d : dict V) (k : string) (v : V) : dict V :=
  match d with
  | [] => [(k, v)]
  | (k', v') :: d' =>
      if decide (k' = k) then (k, v) :: d' else (k', v') :: set d' k v
  end.

Definition keys {V} (d : dict V) : list string := d.*1.
Definition values {V} (d : dict V) : list V := d.*2.

(** [(d[p] for p in ps)], consumed in full by a tuple assignment *)
Fixpoint items {V} (d : dict V) (ps : list string) : result (list V) :=
  match ps with
  | [] => Ok []
  | p :: ps' => v ← item d p; vs ← items d ps'; Ok (v :: vs)
  end.

End Dict.
Abbreviation dict := Dict.dict.

(** ** Python strings *)

Module PyStr.

(** [s.split(sep)] for a one-character separator: one more part than there
    are separators, empty parts kept. *)
Fixpoint split (sep : Ascii.ascii) (s : string) : list string :=
  match s with
  | EmptyString => [EmptyString]
  | String c s' =>
      if Ascii.eqb c sep then EmptyString :: split sep s'
      else match split sep s' with
           | [] => [String c EmptyString]
           | p :: ps => String c p :: ps
           end
  end.

(** Whitespace as [str.isspace] sees it on the ASCII range: tab, line feed,
    vertical tab, form feed, carriage return, the separators 28 to 31, and
    the space. *)
Definition isspace (c : Ascii.ascii) : bool :=
  let n := Ascii.nat_of_ascii c in
  ((9 <=? n) && (n <=? 13)) || ((28 <=? n) && (n <=? 32)).

Fixpoint lstrip (s : string) : string :=
  match s with
  | EmptyString => EmptyString
  | String c s' => if isspace c then lstrip s' else s
  end.

Definition rstrip (s : string) : string := String.rev (lstrip (String.rev s)).

(** [s.strip()] *)
Definition strip (s : string) : string := rstrip (lstrip s).

(** [s[0]], which raises [IndexError] on the empty string. *)
Definition first (s : string) : result Ascii.ascii :=
  match s with
  | EmptyString => Raise IndexError
  | String c _ => Ok c
  end.

(** [s[1:]] *)
Definition tail (s : string) : string :=
  match s with
  | EmptyString => EmptyString
  | String _ s' => s'
  end.

(** [l[i]] on a Python list *)
Definition index {A} (l : list A) (i : nat) : result A :=
  match l !! i with
  | Some a => Ok a
  | None => Raise IndexError
  end.

End PyStr.

(** ** The geometry kernel, symbolically *)

Module Cq.

Local Open Scope R_scope.

#[global] Instance Rlt_decision (x y : R) : Decision (x < y) := Rlt_dec x y.
#[global] Instance Rle_decision (x y : R) : Decision (x <= y) := Rle_dec x y.
#[global] Instance Rge_decision (x y : R) : Decision (x >= y) := Rge_dec x y.

(** [math.radians] *)
Definition radians (deg : R) : R := deg * PI / 180.

(** [cq.Vector]; [Vector2 x y] is [cq.Vector(x, y)]. *)
Record Vector := mkVector { vX : R; vY : R; vZ : R }.

Definition Vector2 (x y : R) : Vector := mkVector x y 0.

Definition vadd (a b : Vector) : Vector :=
  mkVector (vX a + vX b) (vY a + vY b) (vZ a + vZ b).
Definition vsub (a b : Vector) : Vector :=
  mkVector (vX a - vX b) (vY a - vY b) (vZ a - vZ b).
Definition vscale (a : Vector) (k : R) : Vector :=
  mkVector (vX a * k) (vY a * k) (vZ a * k).
Definition Length (a : Vector) : R :=
  sqrt (vX a * vX a + vY a * vY a + vZ a * vZ a).
Definition normalized (a : Vector) : Vector := vscale a (/ Length a).

(** [cq.Location]: a placement, or the product of two placements. *)
Inductive Location :=
  | Location_of (translation : Vector)
  | Location_mul (a b : Location).

(** The drawing calls of a [cq.Workplane] chain. *)
Inductive step :=
  | moveTo (x y : R)
  | hLineTo (x : R)
  | vLineTo (y : R)
  | lineTo (x y : R)
  | polarLine (distance angle : R)
  | radiusArc (endPoint : Vector) (radius : R)
  | close
  | mirrorX
  | mirrorY
  | rect (xLen yLen : R) (centered : bool)
  | polygon (nSides : Z) (diameter : R)
  | circle (radius : R)
  | consolidateWires.

(** Sketches and solids, as the calls that build them. *)
Inductive shape :=
  | cq_Workplane (plane : string) (steps : list step)
  | cq_fillet2D (radius : R) (vertices : list Vector) (s : shape)
  | cq_rotate (s : shape) (angleDegrees : Z)
  | cq_assembleEdges (wires : list shape)
  | cq_revolve (s : shape)
  | cq_translate (s : shape) (v : Vector)
  | cq_moved (s : shape) (loc : Location)
  | cq_fuse (a b : shape)
  | cq_cut (a b : shape)
  | cq_union (a b : shape)
  | cq_makeCylinder (radius height : R) (pnt dir : Vector)
  | cq_makeCone (radius1 radius2 height : R) (pnt dir : Vector)
  | cq_thread (major_diameter pitch length : R) (external : bool)
      (hand : string) (end_finishes : option (string * string))
  | cq_extrude (s : shape) (distance : R)
  | cq_clean (s : shape)
  (* a solid built by a method whose kernel calls the model does not expand *)
  | cq_built (by_method : string).

(** The vertices of a drawn chain: both ends of every edge, the corners of a
    rectangle or polygon and the seam vertex of a circle placed at the
    current point, and their images under [mirrorX] (reflection in the X
    axis) and [mirrorY] (reflection in the Y axis), which add the mirrored
    wire to the chain. *)
Definition draw (st : Vector * list Vector) (c : step) : Vector * list Vector :=
  let '(p, vs) := st in
  let edge_to q := (q, vs ++ [p; q]) in
  match c with
  | moveTo x y => (Vector2 x y, vs)
  | hLineTo x => edge_to (Vector2 x (vY p))
  | vLineTo y => edge_to (Vector2 (vX p) y)
  | lineTo x y => edge_to (Vector2 x y)
  | polarLine d a =>
      edge_to (Vector2 (vX p + d * cos (radians a)) (vY p + d * sin (radians a)))
  | radiusArc q _ => edge_to q
  | mirrorX => (p, vs ++ map (λ v, mkVector (vX v) (- vY v) (vZ v)) vs)
  | mirrorY => (p, vs ++ map (λ v, mkVector (- vX v) (vY v) (vZ v)) vs)
  | rect xLen yLen centered =>
      let x0 := if centered then vX p - xLen / 2 else vX p in
      let y0 := if centered then vY p - yLen / 2 else vY p in
      (p, vs ++ [Vector2 x0 y0; Vector2 (x0 + xLen) y0;
                 Vector2 (x0 + xLen) (y0 + yLen); Vector2 x0 (y0 + yLen)])
  | polygon nSides diameter =>
      (p, vs ++ map (λ i, Vector2
                            (vX p + diameter / 2
                                    * cos (2 * PI * INR i / IZR nSides))
                            (vY p + diameter / 2
                                    * sin (2 * PI * INR i / IZR nSides)))
                    (seq 0 (Z.to_nat nSides)))
  | circle radius => (p, vs ++ [Vector2 (vX p + radius) (vY p)])
  | close | consolidateWires => (p, vs)
  end.

Definition chain_vertices (steps : list step) : list Vector :=
  (foldl draw (Vector2 0 0, []) steps).2.

(** [cq.selectors.BoxSelector(p0, p1)] keeps an object when its centre is
    inside the box; each coordinate is tested with
    [(c < c0) ^ (c < c1)]. *)
Definition isInsideBox (p0 p1 p : Vector) : bool :=
  xorb (bool_decide (vX p < vX p0)) (bool_decide (vX p < vX p1))
  && xorb (bool_decide (vY p < vY p0)) (bool_decide (vY p < vY p1))
  && xorb (bool_decide (vZ p < vZ p0)) (bool_decide (vZ p < vZ p1)).

Definition BoxSelector (p0 p1 : Vector) (objects : list Vector) : list Vector :=
  filter (λ p, isInsideBox p0 p1 p = true) objects.

End Cq.
Export Cq.

(** ** What the module takes from outside

    CSV files read through [pkg_resources], the helpers imported from
    [cq_warehouse.thread], the builtins [float] and [eval], and the kernel
    queries made on solids. *)

Class External := {
  (* read_fastener_parameters_from_csv(filename) *)
  read_fastener_parameters_from_csv : string → dict (dict string);
  (* cq_warehouse.thread.is_safe *)
  is_safe : string → bool;
  (* eval(measure) on a string that passed is_safe *)
  py_eval : string → result value;
  (* cq_warehouse.thread.imperial_str_to_float *)
  imperial_str_to_float : string → result value;
  (* float(s) *)
  py_float : string → result R;
  (* lookup_drill_diameters(read_fastener_parameters_from_csv(filename)),
     evaluated once when the classes are defined *)
  drill_hole_diameters : string → dict (dict value);
  (* shape.vertices(">Z").val().Z *)
  top_Z : shape → R;
  (* workplane.largestDimension() *)
  largestDimension : shape → R;
  (* IsoThread(major_diameter, pitch, ...).min_radius *)
  thread_min_radius : R → R → R;
  (* Screw.make_head of the base class, from the class name and screw_data *)
  build_head : string → dict value → result shape;
  (* SetScrew.make_setscrew, from screw_data, thread_diameter, thread_pitch,
     length and hand *)
  make_setscrew : dict value → value → R → R → string → result shape;
  (* Nut.make_nut, from the class name, nut_data, thread_diameter,
     thread_pitch, hand and simple *)
  make_nut : string → dict value → value → R → string → bool → result shape;
  (* str(x) for a float, as an f-string renders it *)
  py_str_float : R → string;
  (* str(uuid1()), the name cq.Assembly gives to the n-th unnamed child
     created by the process *)
  uuid : nat → string;
  (* the order in which a set built from a list is iterated *)
  set_iteration : list positive → list positive;
  set_iteration_spec :
    ∀ l, set_iteration l ≡ₚ elements (list_to_set l : gset positive);
}.

(** ** Table evaluation and recess solvers *)

Module Recess.

Local Open Scope R_scope.

Section WithExternal.
Context `{External}.

(** [polygon_diagonal(width, num_sides)] *)
Definition polygon_diagonal (width : R) (num_sides : Z) : R :=
  width / cos (PI / IZR num_sides).

Definition metric_str_to_float (measure : string) : result value :=
  if is_safe measure then py_eval measure else Ok (VStr measure).

Fixpoint evaluate_parameter_dict (parameters : dict string) (is_metric : bool)
  : result (dict value) :=
  match parameters with
  | [] => Ok []
  | (params, v) :: rest =>
      x ← (if is_metric then metric_str_to_float v else imperial_str_to_float v);
      measurements ← evaluate_parameter_dict rest is_metric;
      Ok ((params, x) :: measurements)
  end.

Fixpoint evaluate_parameter_dict_of_dict (parameters : dict (dict string))
    (is_metric : bool) : result (dict (dict value)) :=
  match parameters with
  | [] => Ok []
  | (key, v) :: rest =>
      x ← evaluate_parameter_dict v is_metric;
      measurements ← evaluate_parameter_dict_of_dict rest is_metric;
      Ok ((key, x) :: measurements)
  end.

Definition widths : dict R :=
  [("PH0", 1.9); ("PH1", 3.1); ("PH2", 5.3); ("PH3", 6.8); ("PH4", 10.0)]%string.
Definition depths : dict R :=
  [("PH0", 1.1); ("PH1", 2.0); ("PH2", 3.27); ("PH3", 3.53); ("PH4", 5.88)]%string.

(** The chain drawn by [cross_recess] for a width [m]. *)
Definition cross_chain (m : R) : list step :=
  [moveTo (m / 2) 0; vLineTo (m / 12); hLineTo (m / 12); vLineTo (m / 2);
   hLineTo 0; mirrorX; mirrorY].

(** The vertices [cross_recess] passes to [fillet2D]. *)
Definition cross_fillet_vertices (m : R) : list Vector :=
  BoxSelector (mkVector (- m / 3) (- m / 3) (- m / 3))
              (mkVector (m / 3) (m / 3) (m / 3))
              (chain_vertices (cross_chain m)).

(** Where the vertices of the cruciform lie: the four re-entrant corners at
    (+-m/12, +-m/12), and the blade tips and blade-end midpoints, which have
    one coordinate of magnitude m/2. *)
Definition cross_vertex_kind (m : R) (v : Vector) : Prop :=
  vZ v = 0
  ∧ ((Rabs (vX v) = m / 12 ∧ Rabs (vY v) = m / 12)
     ∨ (Rabs (vX v) = m / 2 ∧ Rabs (vY v) <= m / 12)
     ∨ (Rabs (vX v) <= m / 12 ∧ Rabs (vY v) = m / 2)).

Definition cross_recess (size : string) : result (shape * R) :=
  m ← except_KeyError (Dict.item widths size)
        (ValueError (MsgInvalidCross size widths));
  let recess := cq_Workplane "XY" (cross_chain m) in
  let vertices := cross_fillet_vertices m in
  depth ← Dict.item depths size;
  Ok (cq_fillet2D (m / 3) vertices recess, depth).

(** [hex_recess(size)] *)
Definition hex_recess (size : R) : shape :=
  cq_Workplane "XY" [polygon 6 (polygon_diagonal size 6)].

(** The internal radius computed by [hexalobular_recess]. *)
Definition hexalobular_Ri (A B Re : R) : R :=
  let sqrt_3 := sqrt 3 in
  (A ^ 2 - sqrt_3 * A * B - 4 * A * Re + B ^ 2 + 2 * sqrt_3 * B * Re)
  / (2 * (sqrt_3 * A - 2 * B - 2 * sqrt_3 * Re + 4 * Re)).

(** The plan built by [hexalobular_recess] from [A], [B], [Re] and [Ri]. *)
Definition hexalobular_plan (A B Re Ri : R) : shape :=
  let sqrt_3 := sqrt 3 in
  let center_external_arc0 := Vector2 0 (A / 2 - Re) in
  let center_external_arc1 :=
    Vector2 (sqrt_3 * (A / 2 - Re) / 2) (A / 4 - Re / 2) in
  let center_internal_arc :=
    Vector2 (B / 4 + Ri / 2) (sqrt_3 * (B / 2 + Ri) / 2) in
  let tangent_point0 :=
    vadd center_external_arc0
      (vscale (normalized (vsub center_internal_arc center_external_arc0)) Re) in
  let tangent_point1 :=
    vadd center_external_arc1
      (vscale (normalized (vsub center_internal_arc center_external_arc1)) Re) in
  let one_sixth_plan :=
    cq_Workplane "XY"
      [moveTo 0 (A / 2);
       radiusArc tangent_point0 Re;
       radiusArc tangent_point1 (- Ri);
       radiusArc (Vector2 (sqrt_3 * A / 4) (A / 4)) Re;
       consolidateWires] in
  let plan_wires :=
    map (cq_rotate one_sixth_plan) [0; -60; -120; -180; -240; -300]%Z in
  cq_assembleEdges plan_wires.

Definition hexalobular_recess (size : string) : result (shape * R) :=
  screw_data ←
    except_KeyError
      (table ← evaluate_parameter_dict_of_dict
                 (read_fastener_parameters_from_csv "iso10664def.csv") true;
       Dict.item table size)
      (ValueError (MsgInvalidHexalobular size));
  vs ← Dict.items screw_data ["A"; "B"; "Re"]%string;
  match vs with
  | [a; b; re] =>
      A ← as_float a; B ← as_float b; Re ← as_float re;
      let Ri := hexalobular_Ri A B Re in
      Ok (hexalobular_plan A B Re Ri, 0.6 * A)
  | _ => Raise (TypeError "cannot unpack")
  end.

(** [slot_recess(width, length)] *)
Definition slot_recess (width length : R) : shape :=
  cq_Workplane "XY" [rect width length true].

Definition square_widths : dict R :=
  [("R00", 1.80); ("R0", 2.31); ("R1", 2.86); ("R2", 3.38); ("R3", 4.85)]%string.
Definition square_depths : dict R :=
  [("R00", 1.85); ("R0", 2.87); ("R1", 3.56); ("R2", 4.19); ("R3", 5.11)]%string.

(** [square_recess(size)] *)
Definition square_recess (size : string) : result (shape * R) :=
  m ← except_KeyError (Dict.item square_widths size)
        (ValueError (MsgInvalidSquare size square_widths));
  depth ← Dict.item square_depths size;
  Ok (cq_Workplane "XY" [rect m m true], depth).

End WithExternal.

End Recess.
Export Recess.

(** ** Fastener classes, their tables and constructors *)

Module Fastener.

Local Open Scope R_scope.

Definition MM : R := 1.
Definition IN : R := 25.4 * MM.

Inductive screw_class :=
  | ButtonHeadScrew | ButtonHeadWithCollarScrew | CheeseHeadScrew
  | CounterSunkScrew | HexHeadScrew | HexHeadWithFlangeScrew | PanHeadScrew
  | PanHeadWithCollarScrew | RaisedCheeseHeadScrew
  | RaisedCounterSunkOvalHeadScrew | SetScrew | SocketHeadCapScrew.

Inductive nut_class :=
  | DomedCapNut | HexNut | HexNutWithFlange | UnchamferedHexagonNut | SquareNut.

Inductive washer_class :=
  | PlainWasher | ChamferedWasher | CheeseHeadWasher.

Inductive fastener_class :=
  | ScrewClass (c : screw_class)
  | NutClass (c : nut_class)
  | WasherClass (c : washer_class).

(** [type(self).__name__] *)
Definition class_name (c : fastener_class) : string :=
  match c with
  | ScrewClass ButtonHeadScrew => "ButtonHeadScrew"
  | ScrewClass ButtonHeadWithCollarScrew => "ButtonHeadWithCollarScrew"
  | ScrewClass CheeseHeadScrew => "CheeseHeadScrew"
  | ScrewClass CounterSunkScrew => "CounterSunkScrew"
  | ScrewClass HexHeadScrew => "HexHeadScrew"
  | ScrewClass HexHeadWithFlangeScrew => "HexHeadWithFlangeScrew"
  | ScrewClass PanHeadScrew => "PanHeadScrew"
  | ScrewClass PanHeadWithCollarScrew => "PanHeadWithCollarScrew"
  | ScrewClass RaisedCheeseHeadScrew => "RaisedCheeseHeadScrew"
  | ScrewClass RaisedCounterSunkOvalHeadScrew => "RaisedCounterSunkOvalHeadScrew"
  | ScrewClass SetScrew => "SetScrew"
  | ScrewClass SocketHeadCapScrew => "SocketHeadCapScrew"
  | NutClass DomedCapNut => "DomedCapNut"
  | NutClass HexNut => "HexNut"
  | NutClass HexNutWithFlange => "HexNutWithFlange"
  | NutClass UnchamferedHexagonNut => "UnchamferedHexagonNut"
  | NutClass SquareNut => "SquareNut"
  | WasherClass PlainWasher => "PlainWasher"
  | WasherClass ChamferedWasher => "ChamferedWasher"
  | WasherClass CheeseHeadWasher => "CheeseHeadWasher"
  end.

(** The file behind each class attribute [fastener_data]. *)
Definition fastener_data_file (c : fastener_class) : string :=
  match c with
  | ScrewClass ButtonHeadScrew => "button_head_parameters.csv"
  | ScrewClass ButtonHeadWithCollarScrew => "button_head_with_collar_parameters.csv"
  | ScrewClass CheeseHeadScrew => "cheese_head_parameters.csv"
  | ScrewClass CounterSunkScrew => "countersunk_head_parameters.csv"
  | ScrewClass HexHeadScrew => "hex_head_parameters.csv"
  | ScrewClass HexHeadWithFlangeScrew => "hex_head_with_flange_parameters.csv"
  | ScrewClass PanHeadScrew => "pan_head_parameters.csv"
  | ScrewClass PanHeadWithCollarScrew => "pan_head_with_collar_parameters.csv"
  | ScrewClass RaisedCheeseHeadScrew => "raised_cheese_head_parameters.csv"
  | ScrewClass RaisedCounterSunkOvalHeadScrew =>
      "raised_countersunk_oval_head_parameters.csv"
  | ScrewClass SetScrew => "setscrew_parameters.csv"
  | ScrewClass SocketHeadCapScrew => "socket_head_cap_parameters.csv"
  | NutClass DomedCapNut => "domed_cap_nut_parameters.csv"
  | NutClass HexNut => "hex_nut_parameters.csv"
  | NutClass HexNutWithFlange => "hex_nut_with_flange_parameters.csv"
  | NutClass UnchamferedHexagonNut => "unchamfered_hex_nut_parameters.csv"
  | NutClass SquareNut => "square_nut_parameters.csv"
  | WasherClass PlainWasher => "plain_washer_parameters.csv"
  | WasherClass ChamferedWasher => "chamfered_washer_parameters.csv"
  | WasherClass CheeseHeadWasher => "cheese_head_washer_parameters.csv"
  end.

(** Instance attributes, as [__init__] sets them. *)
Record Screw := {
  s_class : screw_class;
  s_size : string;
  s_is_metric : bool;
  s_thread_diameter : value;
  s_thread_pitch : R;
  s_length : R;
  s_fastener_type : string;
  s_hand : string;
  s_simple : bool;
  s_screw_data : dict value;
  s_socket_clearance : R;
  s_max_thread_length : R;
  s_thread_length : R;
  s__head : option shape;
  s__cq_object : option shape;
}.

Record Nut := {
  n_class : nut_class;
  n_size : string;
  n_is_metric : bool;
  n_thread_diameter : value;
  n_thread_pitch : R;
  n_fastener_type : string;
  n_hand : string;
  n_simple : bool;
  n_socket_clearance : R;
  n_nut_data : dict value;
  n__cq_object : shape;
}.

Record Washer := {
  w_class : washer_class;
  w_size : string;
  w_is_metric : bool;
  w_thread_diameter : value;
  w_fastener_type : string;
  w_washer_data : dict value;
  w__cq_object : shape;
}.

(** Objects of the store: fastener instances, and anything else a caller
    may have put into an assembly's metadata. *)
Inductive pyobj :=
  | OScrew (s : Screw)
  | ONut (n : Nut)
  | OWasher (w : Washer)
  | OOther (description : string).

Abbreviation ref := positive.
Abbreviation heap := (gmap positive pyobj).

(** Object creation: a reference no live object has. *)
Definition new (h : heap) (o : pyobj) : ref * heap :=
  let r := fresh (dom h) in (r, <[r := o]> h).

(** [isinstance(value, (Screw, Nut, Washer))] *)
Definition is_fastener (h : heap) (r : ref) : bool :=
  match h !! r with
  | Some (OScrew _) | Some (ONut _) | Some (OWasher _) => true
  | _ => false
  end.

End Fastener.
Export Fastener.

Module Construct.

Local Open Scope R_scope.

Section WithExternal.
Context `{External}.

(** The class attribute [fastener_data]. *)
Definition fastener_data (c : fastener_class) : dict (dict string) :=
  read_fastener_parameters_from_csv (fastener_data_file c).

(** [cls.types()]:
    [set(p.split(":")[0] for p in list(cls.fastener_data.values())[0].keys())] *)
Definition types (c : fastener_class) : result (gset string) :=
  first_row ← PyStr.index (Dict.values (fastener_data c)) 0;
  Ok (list_to_set
        ((λ p, default EmptyString (head (PyStr.split ":"%char p)))
           <$> Dict.keys first_row)).

(** The inner loop of [isolate_fastener_type], over the columns of a row. *)
Fixpoint isolate_columns (target_fastener : string) (parameters : dict string)
    (dimension_dict : dict string) : result (dict string) :=
  match parameters with
  | [] => Ok dimension_dict
  | (type_dimension, v) :: rest =>
      match PyStr.split ":"%char (PyStr.strip type_dimension) with
      | [fastener_name; dimension] =>
          isolate_columns target_fastener rest
            (if bool_decide (target_fastener = fastener_name)
                && negb (bool_decide (v = EmptyString))
             then Dict.set dimension_dict dimension v
             else dimension_dict)
      | _ => Raise (ValueError (MsgExternal "wrong number of values to unpack"))
      end
  end.

(** The outer loop of [isolate_fastener_type], over the sizes. *)
Fixpoint isolate_sizes (target_fastener : string)
    (fastener_data : dict (dict string)) (result_ : dict (dict string))
  : result (dict (dict string)) :=
  match fastener_data with
  | [] => Ok result_
  | (size, parameters) :: rest =>
      dimension_dict ← isolate_columns target_fastener parameters [];
      isolate_sizes target_fastener rest
        (if (0 <? List.length dimension_dict)%nat
         then Dict.set result_ size dimension_dict
         else result_)
  end.

Definition isolate_fastener_type (target_fastener : string)
    (fastener_data : dict (dict string)) : result (dict (dict string)) :=
  isolate_sizes target_fastener fastener_data [].

(** [cls.sizes(fastener_type)] *)
Definition sizes (c : fastener_class) (fastener_type : string)
  : result (list string) :=
  Dict.keys <$> isolate_fastener_type fastener_type (fastener_data c).

Definition imperial_numbered_sizes : dict R :=
  [("#0000", 0.0210 * IN); ("#000", 0.0340 * IN); ("#00", 0.0470 * IN);
   ("#0", 0.0600 * IN); ("#1", 0.0730 * IN); ("#2", 0.0860 * IN);
   ("#3", 0.0990 * IN); ("#4", 0.1120 * IN); ("#5", 0.1250 * IN);
   ("#6", 0.1380 * IN); ("#8", 0.1640 * IN); ("#10", 0.1900 * IN);
   ("#12", 0.2160 * IN)]%string.

Definition decode_imperial_size (size : string) : result (value * R) :=
  let sizes := PyStr.split "-"%char size in
  c ← PyStr.first size;
  major_diameter ←
    (if Ascii.eqb c "#"%char
     then s0 ← PyStr.index sizes 0; VFloat <$> Dict.item imperial_numbered_sizes s0
     else s0 ← PyStr.index sizes 0; imperial_str_to_float s0);
  s1 ← PyStr.index sizes 1;
  tpi ← imperial_str_to_float s1;
  tpi ← as_float tpi;
  Ok (major_diameter, IN / (tpi / IN)).

(** The dimension set of a size and type, as the [try] block of each
    [__init__] computes it; its [KeyError] becomes the invalid-size error. *)
Definition dimension_set (c : fastener_class) (size fastener_type : string)
    (is_metric : bool) : result (dict value) :=
  except_KeyError_do
    (table ← isolate_fastener_type fastener_type (fastener_data c);
     row ← Dict.item table size;
     evaluate_parameter_dict row is_metric)
    (valid ← sizes c fastener_type;
     Raise (ValueError (MsgInvalidSize size valid))).

(** [hand in ["left", "right"]] *)
Definition valid_hand (hand : option string) : option string :=
  match hand with
  | Some h => if bool_decide (h ∈ ["left"; "right"]%string) then Some h else None
  | None => None
  end.

(** [self.length_offset()]: the head height ["k"] for the two countersunk
    classes, which override the method; [0] otherwise. *)
Definition screw_length_offset (c : screw_class) (screw_data : dict value)
  : result value :=
  match c with
  | CounterSunkScrew | RaisedCounterSunkOvalHeadScrew => Dict.item screw_data "k"
  | _ => Ok (VFloat 0)
  end.

(** [self.make_head()]: [SetScrew] overrides it to return [None]. *)
Definition make_head (c : screw_class) (screw_data : dict value)
  : result (option shape) :=
  match c with
  | SetScrew => Ok None
  | _ => Some <$> build_head (class_name (ScrewClass c)) screw_data
  end.

(** The diameter and pitch, as both [Screw.__init__] and [Nut.__init__]
    read them from the size. *)
Definition thread_of_size (size : string) (size_parts : list string)
    (is_metric : bool) : result (value * R) :=
  if is_metric
  then p0 ← PyStr.index size_parts 0;
       d ← py_float (PyStr.tail p0);
       p1 ← PyStr.index size_parts 1;
       p ← py_float p1;
       Ok (VFloat d, p)
  else decode_imperial_size size.

(** [Screw.__init__] from the dimension lookup on: the length check, then
    the head, shank and thread. *)
Definition Screw_dimensioned (c : screw_class) (size : string) (length : R)
    (fastener_type hand : string) (simple : bool) (socket_clearance : R)
    (is_metric : bool) (thread_diameter : value) (thread_pitch : R)
  : result Screw :=
  screw_data ← dimension_set (ScrewClass c) size fastener_type is_metric;
  offset ← screw_length_offset c screw_data;
  length_offset ← as_float offset;
  if bool_decide (length_offset >= length)
  then Raise (ValueError (MsgScrewLength length length_offset))
  else
    let max_thread_length := length - length_offset in
    let thread_length := length - length_offset in
    head ← make_head c screw_data;
    '(_head, _cq_object) ←
      match head with
      | None => Ok (None, None)
      | Some head =>
          let _head := cq_translate head (mkVector 0 0 (- length_offset)) in
          major_diameter ← as_float thread_diameter;
          let thread :=
            cq_thread major_diameter thread_pitch thread_length true
              hand (Some ("fade", "raw")%string) in
          let shank :=
            cq_extrude
              (cq_Workplane "XY"
                 [circle (thread_min_radius major_diameter thread_pitch)])
              thread_length in
          let shank := if simple then shank else cq_fuse shank thread in
          Ok (Some _head,
              Some (cq_union _head
                      (cq_translate shank (mkVector 0 0 (- length)))))
      end;
    Ok {| s_class := c; s_size := size; s_is_metric := is_metric;
          s_thread_diameter := thread_diameter;
          s_thread_pitch := thread_pitch; s_length := length;
          s_fastener_type := fastener_type; s_hand := hand;
          s_simple := simple; s_screw_data := screw_data;
          s_socket_clearance := socket_clearance;
          s_max_thread_length := max_thread_length;
          s_thread_length := thread_length;
          s__head := _head; s__cq_object := _cq_object |}.

(** [Screw.__init__] *)
Definition Screw__init__ (c : screw_class) (size : string) (length : R)
    (fastener_type : string) (hand : option string) (simple : bool)
    (socket_clearance : R) : result Screw :=
  let size_parts := PyStr.split "-"%char (PyStr.strip size) in
  if negb (List.length size_parts =? 2)%nat
  then Raise (ValueError (MsgSizeFormat size_parts))
  else
    c0 ← PyStr.first size;
    let is_metric := Ascii.eqb c0 "M"%char in
    '(thread_diameter, thread_pitch) ← thread_of_size size size_parts is_metric;
    known ← types (ScrewClass c);
    if negb (bool_decide (fastener_type ∈ known))
    then Raise (ValueError (MsgInvalidType fastener_type known))
    else
      match valid_hand hand with
      | None => Raise (ValueError (MsgInvalidHand hand))
      | Some hand =>
          Screw_dimensioned c size length fastener_type hand simple
            socket_clearance is_metric thread_diameter thread_pitch
      end.

(** [Nut.__init__] from the dimension lookup on. *)
Definition Nut_dimensioned (c : nut_class) (size fastener_type hand : string)
    (simple : bool) (is_metric : bool) (thread_diameter : value)
    (thread_pitch : R) : result Nut :=
  let socket_clearance := 6 * MM in
  nut_data ← dimension_set (NutClass c) size fastener_type is_metric;
  _cq_object ←
    make_nut (class_name (NutClass c)) nut_data thread_diameter
      thread_pitch hand simple;
  Ok {| n_class := c; n_size := size; n_is_metric := is_metric;
        n_thread_diameter := thread_diameter;
        n_thread_pitch := thread_pitch;
        n_fastener_type := fastener_type; n_hand := hand;
        n_simple := simple; n_socket_clearance := socket_clearance;
        n_nut_data := nut_data; n__cq_object := _cq_object |}.

(** [Nut.__init__] *)
Definition Nut__init__ (c : nut_class) (size fastener_type : string)
    (hand : option string) (simple : bool) : result Nut :=
  let size_parts := PyStr.split "-"%char (PyStr.strip size) in
  if negb (List.length size_parts =? 2)%nat
  then Raise (ValueError (MsgSizeFormat size_parts))
  else
    c0 ← PyStr.first size;
    let is_metric := Ascii.eqb c0 "M"%char in
    '(thread_diameter, thread_pitch) ← thread_of_size size size_parts is_metric;
    known ← types (NutClass c);
    if negb (bool_decide (fastener_type ∈ known))
    then Raise (ValueError (MsgInvalidType fastener_type known))
    else
      match valid_hand hand with
      | None => Raise (ValueError (MsgInvalidHand hand))
      | Some hand =>
          Nut_dimensioned c size fastener_type hand simple is_metric
            thread_diameter thread_pitch
      end.

End WithExternal.

End Construct.
Export Construct.

(** ** Instance methods *)

Module Methods.

Local Open Scope R_scope.

Section WithExternal.
Context `{External}.

(** [(d[a], d[b]) = (self.data[p] for p in [a, b])], then used as numbers *)
Definition get2 (d : dict value) (a b : string) : result (R * R) :=
  vs ← Dict.items d [a; b];
  match vs with
  | [x; y] => x ← as_float x; y ← as_float y; Ok (x, y)
  | _ => Raise (TypeError "cannot unpack")
  end.

Definition get3 (d : dict value) (a b c : string) : result (R * R * R) :=
  vs ← Dict.items d [a; b; c];
  match vs with
  | [x; y; z] => x ← as_float x; y ← as_float y; z ← as_float z; Ok (x, y, z)
  | _ => Raise (TypeError "cannot unpack")
  end.

Definition get_float (d : dict value) (a : string) : result R :=
  v ← Dict.item d a; as_float v.

(** The three washer profiles. *)
Definition washer_profile (c : washer_class) (washer_data : dict value)
  : result shape :=
  '(d1, d2, h) ← get3 washer_data "d1" "d2" "h";
  Ok (cq_Workplane "XZ"
        match c with
        | PlainWasher =>
            [moveTo (d1 / 2) 0; hLineTo (d2 / 2); vLineTo h; hLineTo (d1 / 2);
             close]
        | ChamferedWasher =>
            [moveTo (d1 / 2) 0; hLineTo (d2 / 2); vLineTo (0.75 * h);
             lineTo (d2 / 2 - h * 0.25) h; hLineTo (d1 / 2); close]
        | CheeseHeadWasher =>
            [moveTo (d1 / 2 + h / 4) 0; hLineTo (d2 / 2); vLineTo h;
             hLineTo (d1 / 2 + h / 4); lineTo (d1 / 2) (0.75 * h);
             vLineTo (h / 4); close]
        end).

(** [self.make_washer()] *)
Definition make_washer (c : washer_class) (washer_data : dict value)
  : result shape :=
  cq_revolve <$> washer_profile c washer_data.

(** [Washer.__init__] *)
Definition Washer__init__ (c : washer_class) (size fastener_type : string)
  : result Washer :=
  c0 ← PyStr.first size;
  let is_metric := Ascii.eqb c0 "M"%char in
  thread_diameter ←
    (if is_metric then VFloat <$> py_float (PyStr.tail size)
     else imperial_str_to_float size);
  known ← types (WasherClass c);
  if negb (bool_decide (fastener_type ∈ known))
  then Raise (ValueError (MsgInvalidType fastener_type known))
  else
    washer_data ← dimension_set (WasherClass c) size fastener_type is_metric;
    _cq_object ← make_washer c washer_data;
    Ok {| w_class := c; w_size := size; w_is_metric := is_metric;
          w_thread_diameter := thread_diameter;
          w_fastener_type := fastener_type; w_washer_data := washer_data;
          w__cq_object := _cq_object |}.

(** Calling a class: a new object, initialised. *)
Definition new_Screw (h : heap) (c : screw_class) (size : string) (length : R)
    (fastener_type : string) (hand : option string) (simple : bool)
    (socket_clearance : R) : result (ref * heap) :=
  s ← Screw__init__ c size length fastener_type hand simple socket_clearance;
  Ok (new h (OScrew s)).

Definition new_Nut (h : heap) (c : nut_class) (size fastener_type : string)
    (hand : option string) (simple : bool) : result (ref * heap) :=
  n ← Nut__init__ c size fastener_type hand simple;
  Ok (new h (ONut n)).

Definition new_Washer (h : heap) (c : washer_class)
    (size fastener_type : string) : result (ref * heap) :=
  w ← Washer__init__ c size fastener_type;
  Ok (new h (OWasher w)).

(** The object behind a reference. *)
Definition deref (h : heap) (r : ref) : pyobj :=
  default (OOther EmptyString) (h !! r).

Definition clearance_hole_data : dict (dict value) :=
  drill_hole_diameters "clearance_hole_sizes.csv".
Definition tap_hole_data : dict (dict value) :=
  drill_hole_diameters "tap_hole_sizes.csv".

(** The property [clearance_hole_diameters] *)
Definition clearance_hole_diameters (size : string) : result (dict value) :=
  except_KeyError
    (p ← PyStr.index (PyStr.split "-"%char size) 0;
     Dict.item clearance_hole_data p)
    (ValueError (MsgNoClearanceData size)).

(** The property [tap_hole_diameters] *)
Definition tap_hole_diameters (size : string) : result (dict value) :=
  except_KeyError (Dict.item tap_hole_data size)
    (ValueError (MsgNoTapData size)).

(** [self.clearance_hole_diameters[fit]] inside its [try] block *)
Definition clearance_hole_diameter (size : string) (fit : option string)
  : result value :=
  except_KeyError_do
    (table ← clearance_hole_diameters size; Dict.item_opt table fit)
    (table ← clearance_hole_diameters size;
     Raise (ValueError (MsgInvalidKey fit (Dict.keys table)))).

Definition rect_profile (width height : R) : option shape :=
  Some (cq_Workplane "XZ" [rect (width / 2) height false]).

(** [Screw.countersink_profile(fit)], by class *)
Definition screw_countersink_profile (s : Screw) (fit : option string)
  : result (option shape) :=
  let data := s_screw_data s in
  match s_class s with
  | SetScrew => Ok None
  | CounterSunkScrew | RaisedCounterSunkOvalHeadScrew =>
      '(a, dk, k) ← get3 data "a" "dk" "k";
      let side_length := k / cos (radians (a / 2)) in
      Ok (Some (cq_Workplane "XZ"
                  [vLineTo k; hLineTo (dk / 2);
                   polarLine side_length (- 90 - a / 2); close]))
  | HexHeadScrew =>
      '(k, s') ← get2 data "k" "s";
      let e := polygon_diagonal s' 6 in
      let width := e + s_socket_clearance s + e in
      Ok (rect_profile width k)
  | HexHeadWithFlangeScrew =>
      chd ← clearance_hole_diameter (s_size s) fit;
      '(dc, s', k) ← get3 data "dc" "s" "k";
      chd ← as_float chd;
      td ← as_float (s_thread_diameter s);
      let shaft_clearance := chd - td in
      let width :=
        Rmax (dc + shaft_clearance)
             (polygon_diagonal s' 6 + s_socket_clearance s) in
      Ok (rect_profile width k)
  | ButtonHeadWithCollarScrew =>
      chd ← clearance_hole_diameter (s_size s) fit;
      chd ← as_float chd;
      td ← as_float (s_thread_diameter s);
      dc ← get_float data "dc";
      let width := chd - td + dc in
      k ← get_float data "k";
      Ok (rect_profile width k)
  | _ =>
      chd ← clearance_hole_diameter (s_size s) fit;
      chd ← as_float chd;
      td ← as_float (s_thread_diameter s);
      dk ← get_float data "dk";
      let width := chd - td + dk in
      k ← get_float data "k";
      Ok (rect_profile width k)
  end.

(** [Nut.countersink_profile(fit)], by class *)
Definition nut_countersink_profile (n : Nut) (fit : option string)
  : result (option shape) :=
  let data := n_nut_data n in
  match n_class n with
  | HexNut | UnchamferedHexagonNut =>
      '(m, s) ← get2 data "m" "s";
      let width := polygon_diagonal s 6 + n_socket_clearance n in
      Ok (rect_profile width m)
  | DomedCapNut =>
      '(dk, m, s) ← get3 data "dk" "m" "s";
      let width := polygon_diagonal s 6 + n_socket_clearance n in
      Ok (rect_profile width (m + dk / 2))
  | HexNutWithFlange =>
      chd ← clearance_hole_diameter (n_size n) fit;
      '(dc, s, m) ← get3 data "dc" "s" "m";
      chd ← as_float chd;
      td ← as_float (n_thread_diameter n);
      let clearance := chd - td in
      let width :=
        Rmax (dc + clearance) (polygon_diagonal s 6 + n_socket_clearance n) in
      Ok (rect_profile width m)
  | SquareNut =>
      '(m, s) ← get2 data "m" "s";
      let width := polygon_diagonal s 4 + n_socket_clearance n in
      Ok (rect_profile width m)
  end.

(** [fastener.countersink_profile(fit)] *)
Definition countersink_profile (o : pyobj) (fit : option string)
  : result (option shape) :=
  match o with
  | OScrew s => screw_countersink_profile s fit
  | ONut n => nut_countersink_profile n fit
  | _ => Raise (AttributeError "countersink_profile")
  end.

(** [fastener.length_offset()] *)
Definition length_offset (o : pyobj) : result value :=
  match o with
  | OScrew s => screw_length_offset (s_class s) (s_screw_data s)
  | ONut _ => Ok (VFloat 0)
  | _ => Raise (AttributeError "length_offset")
  end.

(** [fastener.thread_diameter] *)
Definition thread_diameter (o : pyobj) : result value :=
  match o with
  | OScrew s => Ok (s_thread_diameter s)
  | ONut n => Ok (n_thread_diameter n)
  | OWasher w => Ok (w_thread_diameter w)
  | OOther _ => Raise (AttributeError "thread_diameter")
  end.

(** [fastener.thread_pitch] *)
Definition thread_pitch (o : pyobj) : result R :=
  match o with
  | OScrew s => Ok (s_thread_pitch s)
  | ONut n => Ok (n_thread_pitch n)
  | _ => Raise (AttributeError "thread_pitch")
  end.

(** The property [cq_object]; [SetScrew] builds its solid on each access. *)
Definition cq_object (o : pyobj) : result (option shape) :=
  match o with
  | OScrew s =>
      match s_class s with
      | SetScrew =>
          Some <$> make_setscrew (s_screw_data s) (s_thread_diameter s)
                     (s_thread_pitch s) (s_length s) (s_hand s)
      | _ => Ok (s__cq_object s)
      end
  | ONut n => Ok (Some (n__cq_object n))
  | OWasher w => Ok (Some (w__cq_object w))
  | OOther _ => Raise (AttributeError "cq_object")
  end.

(** The property [washer_thickness] *)
Definition washer_thickness (o : pyobj) : result R :=
  match o with
  | OWasher w => Ok (top_Z (w__cq_object w))
  | _ => Raise (AttributeError "washer_thickness")
  end.

(** The property [info] of the three base classes *)
Definition info (o : pyobj) : result string :=
  match o with
  | OScrew s =>
      Ok (class_name (ScrewClass (s_class s)) +:+ "(" +:+ s_fastener_type s
          +:+ "): " +:+ s_size s +:+ "x" +:+ py_str_float (s_length s)
          +:+ (if bool_decide (s_hand s = "left"%string)
               then " left hand thread" else EmptyString))
  | ONut n =>
      Ok (class_name (NutClass (n_class n)) +:+ "(" +:+ n_fastener_type n
          +:+ "): " +:+ n_size n)
  | OWasher w =>
      Ok (class_name (WasherClass (w_class w)) +:+ "(" +:+ w_fastener_type w
          +:+ "): " +:+ w_size w)
  | OOther _ => Raise (AttributeError "info")
  end.

End WithExternal.

End Methods.
Export Methods.

(** ** Hole cutting and the bill of materials *)

Module Holes.

Local Open Scope R_scope.

(** [cq.Assembly]: the children added so far (name, object, location), and
    the attribute [metadata], which maps child names to objects. *)
Record Assembly := {
  children : list (string * option shape * Location);
  metadata : attr (gmap string ref);
}.

(** The [cq.Workplane] a hole method is called on: its solid and the
    locations on its stack. *)
Record Workplane := {
  wp_solid : shape;
  wp_stack : list Location;
}.


(** The objects recorded, one per record. *)
Definition recorded (md : gmap string ref) : list ref := (map_to_list md).*2.

(** What [fastener_quantities] returns. *)
Inductive quantities :=
  | QNone
  | QInfo (q : gmap string nat)
  | QObject (q : gmap ref nat).

Fixpoint foldM {A B} (f : B → A → result B) (b : B) (l : list A) : result B :=
  match l with
  | [] => Ok b
  | x :: l' => b' ← f b x; foldM f b' l'
  end.

(** [l.count(x)] on a list of objects, compared by identity *)
Definition count (x : ref) (l : list ref) : nat :=
  List.length (filter (λ y, y = x) l).

Section WithExternal.
Context `{External}.

Definition bore_direction : Vector := mkVector 0 0 (-1).
Definition origin : Vector := mkVector 0 0 0.

(** [baseAssembly.add(obj, loc=loc)]: a child is appended under the next
    generated name; [uuids] counts the names generated so far. *)
Definition Assembly_add (a : Assembly) (uuids : nat) (obj : option shape)
    (loc : Location) : Assembly * nat :=
  ({| children := children a ++ [(uuid uuids, obj, loc)];
      metadata := metadata a |},
   S uuids).



(** [baseAssembly.children[-1].name] *)
Definition last_child_name (a : Assembly) : result string :=
  match last (children a) with
  | Some (name, _, _) => Ok name
  | None => Raise IndexError
  end.

(** The [if hasattr(baseAssembly, "metadata")] statement that records an
    instance under the name of the child just added. *)
Definition record_placement (a : Assembly) (o : ref) : result Assembly :=
  name ← last_child_name a;
  match metadata a with
  | Bound md =>
      Ok {| children := children a; metadata := Bound (<[name := o]> md) |}
  | IsNone =>
      Raise (TypeError "'NoneType' object does not support item assignment")
  | Absent =>
      Ok {| children := children a; metadata := Bound {[name := o]} |}
  end.

(** The bore radius of [_fastenerHole]. *)
Definition resolve_hole_radius (fastener : pyobj) (hole_diameters : dict value)
    (fit material hand : option string) : result R :=
  let threaded_hole := bool_decide (hand ≠ None) in
  if threaded_hole
  then d ← thread_diameter fastener; d ← as_float d; Ok (d / 2)
  else
    let key := match material with None => fit | Some _ => material end in
    d ← except_KeyError (Dict.item_opt hole_diameters key)
          (ValueError (MsgInvalidKey key (Dict.keys hole_diameters)));
    d ← as_float d;
    Ok (d / 2).

(** One pass of the loop over [washers]. *)
Definition place_washer (h : heap) (fastener : pyobj) (head_offset : R)
    (hole_loc : Location) (st : Assembly * nat * R) (washer : ref)
  : result (Assembly * nat * R) :=
  let '(a, uuids, washer_thicknesses) := st in
  obj ← cq_object (deref h washer);
  offset ← length_offset fastener;
  offset ← as_float offset;
  let '(a, uuids) :=
    Assembly_add a uuids obj
      (Location_mul hole_loc
         (Location_of
            (vscale bore_direction (head_offset - offset - washer_thicknesses))))
  in
  thickness ← washer_thickness (deref h washer);
  a ← record_placement a washer;
  Ok (a, uuids, washer_thicknesses + thickness).

(** One pass of the loop over [hole_locations]. *)
Definition place_at (h : heap) (fastener : ref) (washers : option (list ref))
    (head_offset : R) (st : Assembly * nat) (hole_loc : Location)
  : result (Assembly * nat) :=
  let '(a, uuids) := st in
  '(a, uuids, washer_thicknesses) ←
    match washers with
    | Some washers =>
        foldM (place_washer h (deref h fastener) head_offset hole_loc)
          (a, uuids, 0) washers
    | None => Ok (a, uuids, 0)
    end;
  obj ← cq_object (deref h fastener);
  offset ← length_offset (deref h fastener);
  offset ← as_float offset;
  let '(a, uuids) :=
    Assembly_add a uuids obj
      (Location_mul hole_loc
         (Location_of
            (vscale bore_direction (head_offset - offset - washer_thicknesses))))
  in
  a ← record_placement a fastener;
  Ok (a, uuids).

(** The countersink branch: the profile is used when [counterSunk] holds and
    the profile is not [None]. *)
Definition countersink (counterSunk : bool) (countersink_profile : option shape)
  : option shape :=
  if counterSunk then countersink_profile else None.

(** [_fastenerHole]; returns the part, the base assembly as the call leaves
    it, and the count of generated names. *)
Definition _fastenerHole (h : heap) (self : Workplane)
    (hole_diameters : dict value) (fastener : ref) (depth : R)
    (washers : option (list ref)) (fit material : option string)
    (counterSunk : bool) (baseAssembly : option Assembly) (uuids : nat)
    (hand : option string) (simple clean : bool)
  : result (shape * option Assembly * nat) :=
  let threaded_hole := bool_decide (hand ≠ None) in
  profile ← countersink_profile (deref h fastener) fit;
  let head_offset :=
    match countersink counterSunk profile with
    | Some p => top_Z p
    | None => 0
    end in
  let countersink_cutter :=
    (λ p, cq_translate (cq_revolve p) (mkVector 0 0 (- head_offset)))
      <$> countersink counterSunk profile in
  hole_radius ←
    resolve_hole_radius (deref h fastener) hole_diameters fit material hand;
  let shank_hole := cq_makeCylinder hole_radius depth origin bore_direction in
  let fastener_hole :=
    match countersink_cutter with
    | Some cutter => cq_fuse cutter shank_hole
    | None => shank_hole
    end in
  let cskAngle := 82 in
  let h_ := hole_radius / tan (radians (cskAngle / 2.0)) in
  let drill_tip :=
    cq_makeCone hole_radius 0.0 h_ (vscale bore_direction depth) bore_direction in
  let fastener_hole := cq_fuse fastener_hole drill_tip in
  let hole_locations := wp_stack self in
  '(assembly, uuids) ←
    match baseAssembly with
    | Some a =>
        '(a, uuids) ←
          foldM (place_at h fastener washers head_offset) (a, uuids)
            hole_locations;
        Ok (Some a, uuids)
    | None => Ok (None, uuids)
    end;
  let part :=
    foldl (λ part loc, cq_cut part (cq_moved fastener_hole loc))
      (wp_solid self) hole_locations in
  part ←
    (if threaded_hole && negb simple
     then
       major_diameter ← thread_diameter (deref h fastener);
       major_diameter ← as_float major_diameter;
       pitch ← thread_pitch (deref h fastener);
       let thread :=
         cq_thread major_diameter pitch (depth - head_offset) false
           (default EmptyString hand) None in
       Ok (foldl
             (λ part hole_loc,
                cq_union part
                  (cq_moved thread
                     (Location_mul hole_loc
                        (Location_of (vscale bore_direction depth)))))
             part hole_locations)
     else Ok part);
  Ok (if clean then cq_clean part else part, assembly, uuids).

(** [fastener.clearance_hole_diameters] *)
Definition object_clearance_hole_diameters (o : pyobj) : result (dict value) :=
  match o with
  | OScrew s => clearance_hole_diameters (s_size s)
  | ONut n => clearance_hole_diameters (n_size n)
  | OWasher w => clearance_hole_diameters (w_size w)
  | OOther _ => Raise (AttributeError "clearance_hole_diameters")
  end.

(** [fastener.tap_hole_diameters] *)
Definition object_tap_hole_diameters (o : pyobj) : result (dict value) :=
  match o with
  | OScrew s => tap_hole_diameters (s_size s)
  | ONut n => tap_hole_diameters (n_size n)
  | _ => Raise (AttributeError "tap_hole_diameters")
  end.

(** [if depth is None: depth = self.largestDimension()] *)
Definition default_depth (self : Workplane) (depth : option R) : R :=
  match depth with
  | None => largestDimension (wp_solid self)
  | Some depth => depth
  end.

(** [_clearanceHole] *)
Definition _clearanceHole (h : heap) (self : Workplane) (fastener : ref)
    (washers : option (list ref)) (fit : option string) (depth : option R)
    (counterSunk : bool) (baseAssembly : option Assembly) (uuids : nat)
    (clean : bool) : result (shape * option Assembly * nat) :=
  let depth := default_depth self depth in
  hole_diameters ← object_clearance_hole_diameters (deref h fastener);
  _fastenerHole h self hole_diameters fastener depth washers fit None
    counterSunk baseAssembly uuids None false clean.

(** [_tapHole] *)
Definition _tapHole (h : heap) (self : Workplane) (fastener : ref)
    (washers : option (list ref)) (material : option string)
    (depth : option R) (counterSunk : bool) (fit : option string)
    (baseAssembly : option Assembly) (uuids : nat) (clean : bool)
  : result (shape * option Assembly * nat) :=
  let depth := default_depth self depth in
  hole_diameters ← object_tap_hole_diameters (deref h fastener);
  _fastenerHole h self hole_diameters fastener depth washers fit material
    counterSunk baseAssembly uuids None false clean.

(** [_threadedHole] *)
Definition _threadedHole (h : heap) (self : Workplane) (fastener : ref)
    (depth : R) (washers : option (list ref)) (hand : option string)
    (simple counterSunk : bool) (fit : option string)
    (baseAssembly : option Assembly) (uuids : nat) (clean : bool)
  : result (shape * option Assembly * nat) :=
  hole_diameters ← object_clearance_hole_diameters (deref h fastener);
  _fastenerHole h self hole_diameters fastener depth washers fit None
    counterSunk baseAssembly uuids hand simple clean.

(** [_fastener_quantities] *)
Definition _fastener_quantities (h : heap) (self : Assembly) (bom : bool)
  : result quantities :=
  match metadata self with
  | Absent => Raise (AttributeError "metadata")
  | IsNone => Ok QNone
  | Bound md =>
      let fasteners := filter (λ v, is_fastener h v = true) (recorded md) in
      let unique_fasteners := set_iteration fasteners in
      if bom
      then
        QInfo <$>
          foldM (λ q f, i ← info (deref h f); Ok (<[i := count f fasteners]> q))
            ∅ unique_fasteners
      else
        Ok (QObject
              (foldl (λ q f, <[f := count f fasteners]> q) ∅ unique_fasteners))
  end.

End WithExternal.

End Holes.
Export Holes.

(** ** Further string methods *)

Module PyText.

(** [s.upper()] on the ASCII range: the letters a to z move to A to Z. *)
Definition upper_char (c : Ascii.ascii) : Ascii.ascii :=
  let n := Ascii.nat_of_ascii c in
  if (97 <=? n) && (n <=? 122) then Ascii.ascii_of_nat (n - 32) else c.

Fixpoint upper (s : string) : string :=
  match s with
  | EmptyString => EmptyString
  | String c s' => String (upper_char c) (upper s')
  end.

(** [s.startswith(p)] *)
Definition startswith (s p : string) : bool := String.prefix p s.

End PyText.

(** ** The geometry of the hexalobular plan

    The points [hexalobular_recess] computes on its way to the plan, under
    the names it gives them. *)

Module Hexalobular.

Local Open Scope R_scope.

(** [center_external_arc[i]] *)
Definition center_external_arc (A Re : R) (i : nat) : Vector :=
  match i with
  | O => Vector2 0 (A / 2 - Re)
  | _ => Vector2 (sqrt 3 * (A / 2 - Re) / 2) (A / 4 - Re / 2)
  end.

Definition center_internal_arc (B Ri : R) : Vector :=
  Vector2 (B / 4 + Ri / 2) (sqrt 3 * (B / 2 + Ri) / 2).

(** [tangent_points[i]] *)
Definition tangent_points (A B Re Ri : R) (i : nat) : Vector :=
  vadd (center_external_arc A Re i)
    (vscale
       (normalized (vsub (center_internal_arc B Ri) (center_external_arc A Re i)))
       Re).

(** The chain of [one_sixth_plan]. *)
Definition one_sixth_plan (A B Re Ri : R) : list step :=
  [moveTo 0 (A / 2);
   radiusArc (tangent_points A B Re Ri 0) Re;
   radiusArc (tangent_points A B Re Ri 1) (- Ri);
   radiusArc (Vector2 (sqrt 3 * A / 4) (A / 4)) Re;
   consolidateWires].

(** The angles of [range(0, -360, -60)]. *)
Definition plan_angles : list Z := [0; -60; -120; -180; -240; -300]%Z.

(** [point.rotate((0, 0, 0), (0, 0, 1), angleDegrees)]: the image of a point
    under the rotation about the Z axis that [Shape.rotate] applies. *)
Definition rotate (v : Vector) (angleDegrees : R) : Vector :=
  mkVector (vX v * cos (radians angleDegrees) - vY v * sin (radians angleDegrees))
           (vX v * sin (radians angleDegrees) + vY v * cos (radians angleDegrees))
           (vZ v).

Definition distance (a b : Vector) : R := Length (vsub a b).

(** The first and the last point of a drawn chain. *)
Definition startPoint (steps : list step) : option Vector :=
  head (chain_vertices steps).
Definition endPoint (steps : list step) : option Vector :=
  last (chain_vertices steps).

End Hexalobular.

(** ** Columns of a dimension table *)

Module Columns.

(** A column of the target type that carries a value: its name is
    [type:dimension] once stripped, and its cell is not empty. *)
Definition column_of (target dimension : string) (column : string * string)
  : Prop :=
  PyStr.split ":"%char (PyStr.strip column.1) = [target; dimension]
  ∧ column.2 ≠ EmptyString.

(** The name of a column splits at [":"] into a type and a dimension. *)
Definition well_formed (column : string * string) : Prop :=
  List.length (PyStr.split ":"%char (PyStr.strip column.1)) = 2%nat.

End Columns.
Export Columns.

(** ** Drill tables *)

Module Tables.

Local Open Scope R_scope.

Section WithExternal.
Context `{External}.

(** The first loop of [lookup_drill_diameters], over the rows of
    [drill_sizes.csv]: [(row[fieldnames[0]], row[fieldnames[1]])]. *)
Fixpoint read_drill_sizes (rows : list (string * string)) (drill_sizes : dict R)
  : result (dict R) :=
  match rows with
  | [] => Ok drill_sizes
  | (name, inches) :: rest =>
      x ← py_float inches;
      read_drill_sizes rest (Dict.set drill_sizes name (x * IN))
  end.

(** The inner loop of [lookup_drill_diameters], over the fits of a size. *)
Fixpoint lookup_drill_fits (drill_sizes : dict R) (size : string)
    (drill_data : dict string) (hole_data : dict value) : result (dict value) :=
  match drill_data with
  | [] => Ok hole_data
  | (fit, drill) :: rest =>
      d ← except_KeyError_do
            (VFloat <$> Dict.item drill_sizes drill)
            (c ← PyStr.first size;
             if Ascii.eqb c "M"%char then VFloat <$> py_float drill
             else imperial_str_to_float drill);
      lookup_drill_fits drill_sizes size rest (Dict.set hole_data fit d)
  end.

(** The outer loop, over the sizes. *)
Fixpoint lookup_drill_sizes (drill_sizes : dict R)
    (drill_hole_sizes : dict (dict string))
    (drill_hole_diameters : dict (dict value)) : result (dict (dict value)) :=
  match drill_hole_sizes with
  | [] => Ok drill_hole_diameters
  | (size, drill_data) :: rest =>
      hole_data ← lookup_drill_fits drill_sizes size drill_data [];
      lookup_drill_sizes drill_sizes rest
        (Dict.set drill_hole_diameters size hole_data)
  end.

(** [lookup_drill_diameters(drill_hole_sizes)], with the rows of
    [drill_sizes.csv] as they were read. *)
Definition lookup_drill_diameters (rows : list (string * string))
    (drill_hole_sizes : dict (dict string)) : result (dict (dict value)) :=
  drill_sizes ← read_drill_sizes rows [];
  lookup_drill_sizes drill_sizes drill_hole_sizes [].

(** The property [clearance_drill_sizes] of [Screw] and [Nut] *)
Definition clearance_drill_sizes (size : string) : result (dict string) :=
  except_KeyError
    (p ← PyStr.index (PyStr.split "-"%char size) 0;
     Dict.item (read_fastener_parameters_from_csv "clearance_hole_sizes.csv") p)
    (ValueError (MsgNoClearanceData size)).

(** One row of [nominal_screw_lengths.csv] in [lookup_nominal_screw_lengths]:
    [[unit_factor * float(size) for size in row["Nominal_Sizes"].split(",")]] *)
Fixpoint nominal_sizes (unit_factor : R) (sizes : list string) : result (list R) :=
  match sizes with
  | [] => Ok []
  | size :: rest =>
      x ← py_float size;
      xs ← nominal_sizes unit_factor rest;
      Ok (unit_factor * x :: xs)
  end.

(** [lookup_nominal_screw_lengths()], over the rows as [csv.DictReader]
    yields them. *)
Fixpoint lookup_nominal_screw_rows (rows : list (dict string))
    (nominal_screw_lengths : dict (list R)) : result (dict (list R)) :=
  match rows with
  | [] => Ok nominal_screw_lengths
  | row :: rest =>
      unit ← Dict.item row "Unit";
      let unit_factor := if bool_decide (unit = "mm"%string) then MM else IN in
      cell ← Dict.item row "Nominal_Sizes";
      sizes ← nominal_sizes unit_factor (PyStr.split ","%char cell);
      screw_type ← Dict.item row "Screw_Type";
      lookup_nominal_screw_rows rest
        (Dict.set nominal_screw_lengths screw_type sizes)
  end.

Definition lookup_nominal_screw_lengths (rows : list (dict string))
  : result (dict (list R)) :=
  lookup_nominal_screw_rows rows [].

End WithExternal.

End Tables.

(** ** Further methods of the fastener classes *)

Module MoreMethods.

Local Open Scope R_scope.

(** What [default_head_recess] returns:
    [(recess_plan, recess_depth, recess_taper)]. *)
Inductive head_recess :=
  | RecessFound (recess_plan : shape) (recess_depth : value) (recess_taper : R).

(** The variables [recess_plan], [recess_depth] and [recess_taper] during
    [default_head_recess]: unset while [recess_plan] is [None]. *)
Definition recess_state : Type := option (shape * value * R).

(** [try: step except KeyError: pass], for a step that assigns the three
    variables at its end. *)
Definition try_recess (st : recess_state) (step : result recess_state)
  : result recess_state :=
  match step with
  | Raise (KeyError _) => Ok st
  | r => r
  end.

Section WithExternal.
Context `{External}.

(** [Screw.min_hole_depth(counter_sunk)] *)
Definition min_hole_depth (s : Screw) (counter_sunk : bool) : result R :=
  countersink_profile ← screw_countersink_profile s (Some "Loose"%string);
  match countersink_profile with
  | None => Raise (AttributeError "vertices")
  | Some profile =>
      let head_offset := top_Z profile in
      offset ← screw_length_offset (s_class s) (s_screw_data s);
      offset ← as_float offset;
      if counter_sunk
      then Ok (s_length s + head_offset - offset)
      else Ok (s_length s - offset)
  end.

(** The comprehension of [nominal_lengths]:
    [[size for size in sizes if range_min <= size <= range_max]], where the
    second comparison is made only when the first holds. *)
Fixpoint lengths_in_range (range_min range_max : value) (sizes : list R)
  : result (list R) :=
  match sizes with
  | [] => Ok []
  | size :: rest =>
      lo ← as_float range_min;
      keep ← (if bool_decide (lo <= size)
              then hi ← as_float range_max; Ok (bool_decide (size <= hi))
              else Ok false);
      kept ← lengths_in_range range_min range_max rest;
      Ok (if keep : bool then size :: kept else kept)
  end.

(** The property [Screw.nominal_lengths]; [nominal_length_range] is the class
    attribute of that name. *)
Definition nominal_lengths (nominal_length_range : dict (list R)) (s : Screw)
  : result (option (list R)) :=
  let range_min := Dict.get (s_screw_data s) "short" in
  let range_max := Dict.get (s_screw_data s) "long" in
  match range_min, range_max with
  | Some range_min, Some range_max =>
      match Dict.get nominal_length_range (s_fastener_type s) with
      | Some sizes => Some <$> lengths_in_range range_min range_max sizes
      | None => Ok None
      end
  | _, _ => Ok None
  end.

(** [str(v)] on a table value *)
Definition py_str (v : value) : string :=
  match v with
  | VStr s => s
  | VFloat x => py_str_float x
  end.

(** The slot step of [default_head_recess] *)
Definition slot_step (screw_data : dict value) : result recess_state :=
  vs ← Dict.items screw_data ["dk"; "n"; "t"]%string;
  match vs with
  | [dk; n; t] =>
      dk ← as_float dk; n ← as_float n;
      Ok (Some (slot_recess dk n, t, 0))
  | _ => Raise (TypeError "cannot unpack")
  end.

(** The hexagon step *)
Definition hex_step (screw_data : dict value) : result recess_state :=
  vs ← Dict.items screw_data ["s"; "t"]%string;
  match vs with
  | [s; t] => s ← as_float s; Ok (Some (hex_recess s, t, 0))
  | _ => Raise (TypeError "cannot unpack")
  end.

(** The step for a recess named by a code: Phillips, Torx or Robertson. *)
Definition coded_step (screw_data : dict value) (st : recess_state)
  : result recess_state :=
  recess ← Dict.item screw_data "recess";
  let recess := PyText.upper (py_str recess) in
  if PyText.startswith recess "PH"
  then '(recess_plan, recess_depth) ← cross_recess recess;
       Ok (Some (recess_plan, VFloat recess_depth, 30))
  else if PyText.startswith recess "T"
  then '(recess_plan, recess_depth) ← hexalobular_recess recess;
       Ok (Some (recess_plan, VFloat recess_depth, 0))
  else if PyText.startswith recess "R"
  then '(recess_plan, recess_depth) ← square_recess recess;
       Ok (Some (recess_plan, VFloat recess_depth, 0))
  else Ok st.

(** [Screw.default_head_recess()] *)
Definition default_head_recess (screw_data : dict value) : result head_recess :=
  st ← try_recess None (slot_step screw_data);
  st ← try_recess st (hex_step screw_data);
  st ← try_recess st (coded_step screw_data st);
  match st with
  | Some (recess_plan, recess_depth, recess_taper) =>
      Ok (RecessFound recess_plan recess_depth recess_taper)
  | None => Raise (ValueError (MsgRecessDataMissing screw_data))
  end.

(** [Washer.default_countersink_profile(fit)], which the three washer
    classes bind to [washer_countersink_profile]. *)
Definition washer_countersink_profile (w : Washer) (fit : option string)
  : result shape :=
  chd ← clearance_hole_diameter (w_size w) fit;
  chd ← as_float chd;
  td ← as_float (w_thread_diameter w);
  let gap := chd - td in
  '(d2, h) ← get2 (w_washer_data w) "d2" "h";
  Ok (cq_Workplane "XZ" [rect (d2 / 2 + gap) h false]).

(** The number of sides of the plan of a nut class. *)
Definition nut_sides (c : nut_class) : Z :=
  match c with
  | SquareNut => 4
  | _ => 6
  end.

(** [nut_profile()], by class *)
Definition nut_profile (c : nut_class) (nut_data : dict value)
  : result shape :=
  match c with
  | HexNut | HexNutWithFlange =>
      '(m, s) ← get2 nut_data "m" "s";
      let e := polygon_diagonal s 6 in
      let cs := (e - s) * tan (radians 15) / 2 in
      Ok (cq_Workplane "XZ"
            [hLineTo (s / 2); lineTo (e / 2 - 0.001) cs; vLineTo (m - cs);
             lineTo (s / 2) m; hLineTo 0; close])
  | UnchamferedHexagonNut =>
      '(m, s) ← get2 nut_data "m" "s";
      Ok (cq_Workplane "XZ" [rect (polygon_diagonal s 6 / 2 - 0.001) m false])
  | SquareNut =>
      '(m, s) ← get2 nut_data "m" "s";
      let e := polygon_diagonal s 4 in
      let cs := (e - s) * tan (radians 15) / 2 in
      Ok (cq_Workplane "XZ"
            [hLineTo (e / 2 - 0.001); vLineTo (m - cs); lineTo (s / 2) m;
             hLineTo 0; close])
  | DomedCapNut =>
      '(dk, m, s) ← get3 nut_data "dk" "m" "s";
      let e := polygon_diagonal s 6 in
      let cs := (e - s) * tan (radians 15) / 2 in
      Ok (cq_Workplane "XZ"
            [moveTo (1 * MM) 0; hLineTo (s / 2); lineTo (e / 2) cs;
             vLineTo (m - cs); lineTo (s / 2) m; hLineTo (dk / 2);
             radiusArc (Vector2 0 (m + dk / 2)) (- dk / 2);
             vLineTo (m + dk / 2 - 1 * MM);
             radiusArc (Vector2 (dk / 2 - 1 * MM) m) (dk / 2 - 1 * MM);
             hLineTo (1 * MM); close])
  end.

End WithExternal.

End MoreMethods.

(** ** Where a hole's parts are placed *)

Module Stack.

Local Open Scope R_scope.

Section WithExternal.
Context `{External}.

(** [washer.washer_thickness] of a washer object *)
Definition washer_height (w : Washer) : R := top_Z (w__cq_object w).

(** [hole_loc * cq.Location(bore_direction * z)]: the location of a part
    displaced by [z] along the bore. *)
Definition stacked (hole_loc : Location) (z : R) : Location :=
  Location_mul hole_loc (Location_of (vscale bore_direction z)).

End WithExternal.

End Stack.
Export Stack.

(** ** The total of a bill of materials *)

Module Bom.

(** [sum(l)] *)
Definition sum (l : list nat) : nat := foldr Nat.add 0%nat l.

(** [sum(quantities.values())] *)
Definition total `{Countable K} (q : gmap K nat) : nat :=
  sum (map_to_list q).*2.

End Bom.
Export Bom.

(** ** Selection of fastener types by size *)

Module Select.

(** The three base classes. *)
Inductive base_class := ScrewBase | NutBase | WasherBase.

(** [cls.__subclasses__()]: the classes of the module, in the order of their
    definition. *)
Definition subclasses (cls : base_class) : list fastener_class :=
  match cls with
  | NutBase =>
      NutClass <$> [DomedCapNut; HexNut; HexNutWithFlange;
                    UnchamferedHexagonNut; SquareNut]
  | ScrewBase =>
      ScrewClass <$> [ButtonHeadScrew; ButtonHeadWithCollarScrew;
                      CheeseHeadScrew; CounterSunkScrew; HexHeadScrew;
                      HexHeadWithFlangeScrew; PanHeadScrew;
                      PanHeadWithCollarScrew; RaisedCheeseHeadScrew;
                      RaisedCounterSunkOvalHeadScrew; SetScrew;
                      SocketHeadCapScrew]
  | WasherBase =>
      WasherClass <$> [PlainWasher; ChamferedWasher; CheeseHeadWasher]
  end.

#[global] Instance screw_class_eq_dec : EqDecision screw_class.
Proof. solve_decision. Defined.
#[global] Instance nut_class_eq_dec : EqDecision nut_class.
Proof. solve_decision. Defined.
#[global] Instance washer_class_eq_dec : EqDecision washer_class.
Proof. solve_decision. Defined.
#[global] Instance fastener_class_eq_dec : EqDecision fastener_class.
Proof. solve_decision. Defined.

(** [type_dict], a dictionary keyed by class objects, in insertion order. *)
Definition type_dict : Type := list (fastener_class * list string).

Fixpoint type_dict_get (d : type_dict) (c : fastener_class)
  : option (list string) :=
  match d with
  | [] => None
  | (c', ts) :: d' => if decide (c' = c) then Some ts else type_dict_get d' c
  end.

(** The body of the inner [if]: append to the class's list, or start it. *)
Fixpoint type_dict_add (d : type_dict) (c : fastener_class) (t : string)
  : type_dict :=
  match d with
  | [] => [(c, [t])]
  | (c', ts) :: d' =>
      if decide (c' = c) then (c', ts ++ [t]) :: d'
      else (c', ts) :: type_dict_add d' c t
  end.

Section WithExternal.
Context `{External}.

(** The order in which a set of type names is iterated. *)
Variable type_iteration : gset string → list string.

(** The inner loop of [select_by_size_fn], over the types of a class. *)
Fixpoint select_types (c : fastener_class) (size : string)
    (fastener_types : list string) (d : type_dict) : result type_dict :=
  match fastener_types with
  | [] => Ok d
  | fastener_type :: rest =>
      ss ← sizes c fastener_type;
      select_types c size rest
        (if bool_decide (size ∈ ss) then type_dict_add d c fastener_type else d)
  end.

(** The outer loop, over the subclasses. *)
Fixpoint select_classes (classes : list fastener_class) (size : string)
    (d : type_dict) : result type_dict :=
  match classes with
  | [] => Ok d
  | c :: rest =>
      known ← types c;
      d ← select_types c size (type_iteration known) d;
      select_classes rest size d
  end.

(** [select_by_size_fn(cls, size)] *)
Definition select_by_size_fn (cls : base_class) (size : string)
  : result type_dict :=
  select_classes (subclasses cls) size [].

End WithExternal.

End Select.

(** ** A small concrete environment, for examples

    Two hexalobular sizes, one screw table, one nut table and one washer
    table, with the numerals they use. *)

Module Sample.

Local Open Scope R_scope.

Definition numerals : dict R :=
  [("0.14", 0.14); ("0.2", 0.2); ("1", 1); ("1.27", 1.27); ("1.6", 1.6);
   ("1.75", 1.75); ("2", 2); ("2.4", 2.4); ("3", 3); ("3.3", 3.3); ("5", 5);
   ("6", 6); ("6.4", 6.4); ("10", 10); ("12", 12); ("90", 90)]%string.

Definition csv_files : dict (dict (dict string)) :=
  [("iso10664def.csv",
    [("T6", [("A", "1.75"); ("B", "1.27"); ("Re", "0.14")]);
     ("T8", [("A", "2.4"); ("B", "1.75"); ("Re", "0.2")])]);
   ("countersunk_head_parameters.csv",
    [("M6-1", [("iso10642:a", "90"); ("iso10642:dk", "12");
               ("iso10642:k", "3.3"); ("iso10642:s", "3")])]);
   ("setscrew_parameters.csv",
    [("M6-1", [("iso4026:s", "3"); ("iso4026:t", "2")])]);
   ("hex_nut_parameters.csv",
    [("M6-1", [("iso4032:m", "5"); ("iso4032:s", "10")])]);
   ("plain_washer_parameters.csv",
    [("M6", [("iso7089:d1", "6.4"); ("iso7089:d2", "12");
             ("iso7089:h", "1.6")])])]%string.

Definition drill_files : dict (dict (dict value)) :=
  [("clearance_hole_sizes.csv",
    [("M6", [("Close", VFloat 6.4); ("Normal", VFloat 6.6);
             ("Loose", VFloat 7)])]);
   ("tap_hole_sizes.csv",
    [("M6-1", [("Soft", VFloat 5); ("Hard", VFloat 5.1)])])]%string.

Definition top_of (s : shape) : R :=
  match s with
  | cq_Workplane _ steps => foldr Rmax 0 (vY <$> chain_vertices steps)
  | _ => 0
  end.

#[export] Instance external : External := {|
  read_fastener_parameters_from_csv filename :=
    default [] (Dict.get csv_files filename);
  is_safe measure := bool_decide (is_Some (Dict.get numerals measure));
  py_eval measure := VFloat <$> Dict.item numerals measure;
  imperial_str_to_float measure := Ok (VStr measure);
  py_float s :=
    match Dict.get numerals s with
    | Some x => Ok x
    | None => Raise (ValueError (MsgExternal "could not convert string to float"))
    end;
  drill_hole_diameters filename := default [] (Dict.get drill_files filename);
  top_Z := top_of;
  largestDimension s := 100;
  thread_min_radius major_diameter pitch := 0.6 * pitch;
  build_head cls screw_data := Ok (cq_built "make_head");
  make_setscrew screw_data thread_diameter thread_pitch length hand :=
    Ok (cq_built "make_setscrew");
  make_nut cls nut_data thread_diameter thread_pitch hand simple :=
    Ok (cq_built "make_nut");
  py_str_float x := "?";
  uuid n := pretty n;
  set_iteration l := elements (list_to_set l : gset positive);
  set_iteration_spec l := reflexivity _;
|}.

(** The objects the sample constructors build. *)

Definition set_screw : Screw := {|
  s_class := SetScrew; s_size := "M6-1"; s_is_metric := true;
  s_thread_diameter := VFloat 6; s_thread_pitch := 1; s_length := 10;
  s_fastener_type := "iso4026"; s_hand := "right"; s_simple := true;
  s_screw_data := [("s", VFloat 3); ("t", VFloat 2)]%string;
  s_socket_clearance := 6; s_max_thread_length := 10 - 0;
  s_thread_length := 10 - 0; s__head := None; s__cq_object := None |}.

Definition hex_nut : Nut := {|
  n_class := HexNut; n_size := "M6-1"; n_is_metric := true;
  n_thread_diameter := VFloat 6; n_thread_pitch := 1;
  n_fastener_type := "iso4032"; n_hand := "right"; n_simple := true;
  n_socket_clearance := 6 * MM;
  n_nut_data := [("m", VFloat 5); ("s", VFloat 10)]%string;
  n__cq_object := cq_built "make_nut" |}.

Definition plain_washer : Washer := {|
  w_class := PlainWasher; w_size := "M6"; w_is_metric := true;
  w_thread_diameter := VFloat 6; w_fastener_type := "iso7089";
  w_washer_data := [("d1", VFloat 6.4); ("d2", VFloat 12); ("h", VFloat 1.6)]%string;
  w__cq_object :=
    cq_revolve
      (cq_Workplane "XZ"
         [moveTo (6.4 / 2) 0; hLineTo (12 / 2); vLineTo 1.6; hLineTo (6.4 / 2);
          close]) |}.

(** A host body with three hole locations on its stack. *)
Definition host : Workplane :=
  {| wp_solid := cq_built "host";
     wp_stack := [Location_of (mkVector 0 0 0); Location_of (mkVector 20 0 0);
                  Location_of (mkVector 40 0 0)] |}.

End Sample.

(** ** A catalogue with every washer table, for examples of selection *)

Module Catalogue.

Local Open Scope R_scope.

Definition washer_files : dict (dict (dict string)) :=
  [("plain_washer_parameters.csv",
    [("M6", [("iso7089:d1", "6.4"); ("iso7089:d2", "12");
             ("iso7089:h", "1.6")])]);
   ("chamfered_washer_parameters.csv",
    [("M6", [("iso7090:d1", "6.4"); ("iso7090:d2", "12");
             ("iso7090:h", "1.6")])]);
   ("cheese_head_washer_parameters.csv",
    [("M5", [("iso7092:d1", "5"); ("iso7092:d2", "10");
             ("iso7092:h", "1")])])]%string.

Definition with_washers : External := {|
  read_fastener_parameters_from_csv filename :=
    default [] (Dict.get washer_files filename);
  is_safe := @is_safe Sample.external;
  py_eval := @py_eval Sample.external;
  imperial_str_to_float := @imperial_str_to_float Sample.external;
  py_float := @py_float Sample.external;
  drill_hole_diameters := @drill_hole_diameters Sample.external;
  top_Z := @top_Z Sample.external;
  largestDimension := @largestDimension Sample.external;
  thread_min_radius := @thread_min_radius Sample.external;
  build_head := @build_head Sample.external;
  make_setscrew := @make_setscrew Sample.external;
  make_nut := @make_nut Sample.external;
  py_str_float := @py_str_float Sample.external;
  uuid := @uuid Sample.external;
  set_iteration := @set_iteration Sample.external;
  set_iteration_spec := @set_iteration_spec Sample.external;
|}.

(** The countersunk screw the sample constructor builds for a length of
    20. *)
Definition countersunk_screw : Screw := {|
  s_class := CounterSunkScrew; s_size := "M6-1"; s_is_metric := true;
  s_thread_diameter := VFloat 6; s_thread_pitch := 1; s_length := 20;
  s_fastener_type := "iso10642"; s_hand := "right"; s_simple := true;
  s_screw_data :=
    [("a", VFloat 90); ("dk", VFloat 12); ("k", VFloat 3.3);
     ("s", VFloat 3)]%string;
  s_socket_clearance := 6; s_max_thread_length := 20 - 3.3;
  s_thread_length := 20 - 3.3;
  s__head :=
    Some (cq_translate (cq_built "make_head") (mkVector 0 0 (- (3.3))));
  s__cq_object :=
    Some (cq_union
            (cq_translate (cq_built "make_head") (mkVector 0 0 (- (3.3))))
            (cq_translate
               (cq_extrude (cq_Workplane "XY" [circle (0.6 * 1)]) (20 - 3.3))
               (mkVector 0 0 (- (20))))) |}.

End Catalogue.

(** * Properties *)

Local Open Scope R_scope.

Section RecessProperties.

Lemma sqrt_3_bounds : 1.73205 < sqrt 3 < 1.732051.
Proof.
  split.
  - rewrite <- (sqrt_square 1.73205) by lra. apply sqrt_lt_1_alt. lra.
  - rewrite <- (sqrt_square 1.732051) by lra. apply sqrt_lt_1_alt. lra.
Qed.

Lemma cos_PI_over_pos (n : Z) : (3 <= n)%Z → 0 < cos (PI / IZR n) <= 1.
Proof.
  intros Hn. assert (3 <= IZR n) as Hr by (apply (IZR_le 3); lia).
  pose proof PI_RGT_0 as Hpi.
  assert (0 < PI / IZR n <= PI / 3) as [Hlo Hhi].
  { split.
    - apply Rdiv_lt_0_compat; lra.
    - unfold Rdiv. apply Rmult_le_compat_l; [lra|].
      apply Rinv_le_contravar; lra. }
  split.
  - apply cos_gt_0; lra.
  - apply COS_bound.
Qed.

(** C9. [polygon_diagonal(width, num_sides)] is [width / cos(pi / num_sides)]
    for a positive width and side count; with three sides or more the cosine
    is positive, so the diagonal is at least the width; and
    [polygon_diagonal(10, 6)] is [10 / cos(30 degrees)], which lies between
    11.547 and 11.5471. *)
Theorem polygon_diagonal_spec (width : R) (num_sides : Z) :
  0 < width → (0 < num_sides)%Z →
  polygon_diagonal width num_sides = width / cos (PI / IZR num_sides)
  ∧ ((3 <= num_sides)%Z → width <= polygon_diagonal width num_sides)
  ∧ polygon_diagonal 10 6 = 10 / cos (radians 30)
  ∧ 11.547 < polygon_diagonal 10 6 < 11.5471.
Proof.
  intros Hw Hn. split; [reflexivity|]. split; [|split].
  - intros H3. unfold polygon_diagonal.
    destruct (cos_PI_over_pos num_sides H3) as [Hpos Hle].
    apply (Rmult_le_reg_r (cos (PI / IZR num_sides))); [exact Hpos|].
    unfold Rdiv. rewrite Rmult_assoc, Rinv_l by lra. nra.
  - unfold polygon_diagonal, radians. f_equal. f_equal. lra.
  - unfold polygon_diagonal. rewrite cos_PI6.
    pose proof sqrt_3_bounds as [Hlo Hhi].
    replace (10 / (sqrt 3 / 2)) with (20 / sqrt 3) by (field; lra).
    split.
    + apply (Rmult_lt_reg_r (sqrt 3)); [lra|].
      unfold Rdiv. rewrite Rmult_assoc, Rinv_l by lra. lra.
    + apply (Rmult_lt_reg_r (sqrt 3)); [lra|].
      unfold Rdiv. rewrite Rmult_assoc, Rinv_l by lra. lra.
Qed.

End RecessProperties.

Section CrossRecess.

Lemma widths_positive size m : Dict.get widths size = Some m → 0 < m.
Proof.
  unfold widths. cbn [Dict.get].
  repeat (case_decide; [intros [= <-]; lra|]).
  discriminate.
Qed.

Lemma depths_defined size m :
  Dict.get widths size = Some m → is_Some (Dict.get depths size).
Proof.
  unfold widths, depths. cbn [Dict.get].
  repeat (case_decide; [intros _; eexists; reflexivity|]).
  discriminate.
Qed.

Lemma isInsideBox_cube (m : R) (v : Vector) :
  0 < m → vZ v = 0 →
  isInsideBox (mkVector (- m / 3) (- m / 3) (- m / 3))
              (mkVector (m / 3) (m / 3) (m / 3)) v = true
  ↔ (- m / 3 <= vX v < m / 3) ∧ (- m / 3 <= vY v < m / 3).
Proof.
  intros Hm Hz. unfold isInsideBox. cbn [vX vY vZ]. rewrite Hz.
  repeat case_bool_decide; cbn [xorb andb negb];
    (split; [intros Ht; try discriminate Ht | intros Ht; try reflexivity]);
    lra.
Qed.

Lemma cross_chain_vertices_kind (m : R) :
  0 < m → Forall (cross_vertex_kind m) (chain_vertices (cross_chain m)).
Proof.
  intros Hm. unfold chain_vertices, cross_chain. simpl.
  repeat (apply Forall_cons; split;
    [unfold cross_vertex_kind; cbn [vX vY vZ Vector2]; split; [reflexivity|];
     unfold Rabs; repeat destruct (Rcase_abs _); lra|]).
  apply Forall_nil_2.
Qed.

Ltac find_vertex :=
  apply list_elem_of_In; simpl; unfold Vector2;
  repeat first [left; f_equal; lra | right]; fail.

Lemma cross_corner_in_chain (m : R) (v : Vector) :
  vZ v = 0 → Rabs (vX v) = m / 12 → Rabs (vY v) = m / 12 →
  v ∈ chain_vertices (cross_chain m).
Proof.
  destruct v as [x y z]. cbn [vX vY vZ]. intros -> Hx Hy.
  unfold chain_vertices, cross_chain, Vector2. simpl.
  revert Hx Hy. unfold Rabs.
  destruct (Rcase_abs x), (Rcase_abs y); intros Hx Hy; find_vertex.
Qed.

Lemma cross_chain_mirrored (m : R) (v : Vector) :
  v ∈ chain_vertices (cross_chain m) →
  mkVector (vX v) (- vY v) (vZ v) ∈ chain_vertices (cross_chain m)
  ∧ mkVector (- vX v) (vY v) (vZ v) ∈ chain_vertices (cross_chain m).
Proof.
  unfold chain_vertices, cross_chain, Vector2. simpl. intros Hv.
  apply list_elem_of_In in Hv. simpl in Hv. unfold Vector2 in Hv.
  repeat (destruct Hv as [<-|Hv]; [cbn [vX vY vZ]; split; find_vertex|]).
  destruct Hv.
Qed.

(** C3. For a size code of the width table, with width [m], [cross_recess]
    draws the quarter contour, mirrors it in both axes, and fillets with
    radius [m/3] exactly the vertices of the plan that lie within
    [|x| <= m/6] and [|y| <= m/6]: these are the four re-entrant corners
    (+-m/12, +-m/12); no vertex with a coordinate of magnitude [m/2] (a blade
    tip) is filleted. *)
Theorem cross_recess_spec (size : string) (m : R) :
  Dict.get widths size = Some m →
  ∃ depth,
    Dict.get depths size = Some depth
    ∧ cross_recess size =
        Ok (cq_fillet2D (m / 3) (cross_fillet_vertices m)
              (cq_Workplane "XY"
                 [moveTo (m / 2) 0; vLineTo (m / 12); hLineTo (m / 12);
                  vLineTo (m / 2); hLineTo 0; mirrorX; mirrorY]),
            depth)
    ∧ (∀ v, v ∈ chain_vertices (cross_chain m) →
            mkVector (vX v) (- vY v) (vZ v) ∈ chain_vertices (cross_chain m)
            ∧ mkVector (- vX v) (vY v) (vZ v) ∈ chain_vertices (cross_chain m))
    ∧ (∀ v, v ∈ cross_fillet_vertices m
            ↔ v ∈ chain_vertices (cross_chain m)
              ∧ Rabs (vX v) <= m / 6 ∧ Rabs (vY v) <= m / 6)
    ∧ (∀ v, v ∈ cross_fillet_vertices m
            ↔ vZ v = 0 ∧ Rabs (vX v) = m / 12 ∧ Rabs (vY v) = m / 12)
    ∧ (∀ v, v ∈ chain_vertices (cross_chain m) →
            Rabs (vX v) = m / 2 ∨ Rabs (vY v) = m / 2 →
            v ∉ cross_fillet_vertices m).
Proof.
  intros Hsize. pose proof (widths_positive _ _ Hsize) as Hm.
  destruct (depths_defined _ _ Hsize) as [depth Hdepth].
  pose proof (cross_chain_vertices_kind m Hm) as Hkind.
  rewrite Forall_forall in Hkind.
  assert (∀ v, v ∈ cross_fillet_vertices m
               ↔ v ∈ chain_vertices (cross_chain m)
                 ∧ (- m / 3 <= vX v < m / 3) ∧ (- m / 3 <= vY v < m / 3))
    as Hsel.
  { intros v. unfold cross_fillet_vertices, BoxSelector.
    rewrite list_elem_of_filter. split.
    - intros [Hbox Hin]. split; [exact Hin|].
      apply (isInsideBox_cube m v Hm); [apply (Hkind v Hin) | exact Hbox].
    - intros [Hin Hbox]. split; [|exact Hin].
      apply (isInsideBox_cube m v Hm); [apply (Hkind v Hin) | exact Hbox]. }
  exists depth. split; [exact Hdepth|]. split; [|split; [|split; [|split]]].
  - unfold cross_recess, Dict.item. rewrite Hsize, Hdepth. reflexivity.
  - apply cross_chain_mirrored.
  - intros v. rewrite Hsel. split; intros [Hin Hbox]; (split; [exact Hin|]);
      destruct (Hkind v Hin) as [_ Hk]; revert Hk Hbox; unfold Rabs;
      destruct (Rcase_abs (vX v)), (Rcase_abs (vY v)); lra.
  - intros v. rewrite Hsel. split.
    + intros [Hin Hbox]. destruct (Hkind v Hin) as [Hz Hk].
      split; [exact Hz|]. revert Hk Hbox. unfold Rabs.
      destruct (Rcase_abs (vX v)), (Rcase_abs (vY v)); lra.
    + intros (Hz & Hx & Hy). split.
      * apply cross_corner_in_chain; assumption.
      * revert Hx Hy. unfold Rabs.
        destruct (Rcase_abs (vX v)), (Rcase_abs (vY v)); lra.
  - intros v Hin Htip. rewrite Hsel. intros [_ Hbox].
    revert Htip Hbox. unfold Rabs.
    destruct (Rcase_abs (vX v)), (Rcase_abs (vY v)); lra.
Qed.


End CrossRecess.

Section Hexalobular.
Context `{External}.

(** C1. With the table of [iso10664def.csv] evaluated, a size code of the
    table whose row gives [A], [B] and [Re] yields the plan built with the
    internal radius
    [(A^2 - sqrt3 A B - 4 A Re + B^2 + 2 sqrt3 B Re) /
     (2 (sqrt3 A - 2 B - 2 sqrt3 Re + 4 Re))]
    and the depth [0.6 * A]; a size code that is not in the table raises
    [ValueError]. *)
Theorem hexalobular_recess_spec (size : string) (table : dict (dict value)) :
  evaluate_parameter_dict_of_dict
    (read_fastener_parameters_from_csv "iso10664def.csv") true = Ok table →
  (∀ row A B Re,
     Dict.get table size = Some row →
     Dict.get row "A" = Some (VFloat A) →
     Dict.get row "B" = Some (VFloat B) →
     Dict.get row "Re" = Some (VFloat Re) →
     let Ri :=
       (A * A - sqrt 3 * A * B - 4 * A * Re + B * B + 2 * sqrt 3 * B * Re)
       / (2 * (sqrt 3 * A - 2 * B - 2 * sqrt 3 * Re + 4 * Re)) in
     hexalobular_recess size = Ok (hexalobular_plan A B Re Ri, 0.6 * A))
  ∧ (Dict.get table size = None →
     hexalobular_recess size = Raise (ValueError (MsgInvalidHexalobular size))).
Proof.
  intros Htable. unfold hexalobular_recess. rewrite Htable. split.
  - intros row A B Re Hrow HA HB HRe.
    cbn [mbind result_bind bind]. unfold Dict.item. rewrite Hrow.
    cbn [except_KeyError bind Dict.items mbind result_bind Dict.item].
    unfold Dict.item. rewrite HA, HB, HRe. cbn.
    do 2 f_equal. unfold hexalobular_Ri. f_equal. f_equal. lra.
  - intros Hnone. cbn [mbind result_bind bind]. unfold Dict.item.
    rewrite Hnone. reflexivity.
Qed.

End Hexalobular.


(** ** Dictionaries *)

Lemma get_Some_keys {V} (d : dict V) k v : Dict.get d k = Some v → k ∈ Dict.keys d.
Proof.
  induction d as [|[k' v'] d IH]; simpl; [done|].
  case_decide as Hk; intros Hget.
  - subst k'. apply list_elem_of_here.
  - apply list_elem_of_further, IH, Hget.
Qed.

Lemma get_None_keys {V} (d : dict V) k : Dict.get d k = None ↔ k ∉ Dict.keys d.
Proof.
  induction d as [|[k' v'] d IH]; simpl.
  - split; [intros _; apply not_elem_of_nil | done].
  - case_decide as Hk.
    + subst k'. split; [done | intros Hn; exfalso; apply Hn, list_elem_of_here].
    + rewrite IH, not_elem_of_cons. split; [intros Hn; split; [congruence|exact Hn] | intros [_ Hn]; exact Hn].
Qed.

Lemma filter_none {A} (P : A → Prop) `{∀ x, Decision (P x)} (l : list A) :
  Forall (λ x, ¬ P x) l → filter P l = [].
Proof.
  induction 1 as [|x l Hx _ IH]; [done|].
  rewrite filter_cons, decide_False by done. exact IH.
Qed.

(** ** The bill of materials on an assembly without metadata *)

Section Quantities.
Context `{External}.

Lemma set_iteration_nil : set_iteration [] = [].
Proof.
  apply Permutation_nil_r. rewrite set_iteration_spec. simpl.
  rewrite elements_empty. done.
Qed.

(** C10. When the [metadata] attribute of the assembly is [None],
    [fastener_quantities] returns [None] whatever [bom] is; an assembly whose
    metadata holds no fastener gets an empty mapping instead, which is a
    different result. *)
Theorem fastener_quantities_None (h : heap) (a : Assembly) (bom : bool) :
  metadata a = IsNone →
  _fastener_quantities h a bom = Ok QNone
  ∧ (∀ a' md,
       metadata a' = Bound md →
       (∀ k r, md !! k = Some r → is_fastener h r = false) →
       _fastener_quantities h a' bom = Ok (if bom then QInfo ∅ else QObject ∅)
       ∧ _fastener_quantities h a' bom ≠ Ok QNone).
Proof.
  intros Hnone. split.
  - unfold _fastener_quantities. rewrite Hnone. reflexivity.
  - intros a' md Hmd Hno.
    unfold _fastener_quantities. rewrite Hmd. cbn zeta.
    match goal with
    | |- context [set_iteration ?l] => assert (l = []) as ->
    end.
    { apply filter_none, Forall_forall. intros r Hr.
      unfold recorded in Hr. apply list_elem_of_fmap in Hr as ([k r'] & -> & Hkr).
      apply elem_of_map_to_list in Hkr. simpl. rewrite (Hno _ _ Hkr). done. }
    rewrite set_iteration_nil. destruct bom; simpl; split; done.
Qed.

End Quantities.

(** ** The bore radius and the countersink of a hole *)

Section HoleCutting.
Context `{External}.

Lemma threaded_hole_true (hand : option string) :
  hand ≠ None → bool_decide (hand ≠ None) = true.
Proof. intros Hh. apply bool_decide_eq_true_2, Hh. Qed.

Lemma resolve_hole_radius_threaded fastener table fit material hand d :
  hand ≠ None → thread_diameter fastener = Ok (VFloat d) →
  resolve_hole_radius fastener table fit material hand = Ok (d / 2).
Proof.
  intros Hh Hd. unfold resolve_hole_radius.
  rewrite (threaded_hole_true _ Hh), Hd. reflexivity.
Qed.

Lemma resolve_hole_radius_table fastener table fit material :
  resolve_hole_radius fastener table fit material None
  = (let key := match material with None => fit | Some _ => material end in
     d ← except_KeyError (Dict.item_opt table key)
           (ValueError (MsgInvalidKey key (Dict.keys table)));
     d ← as_float d;
     Ok (d / 2)).
Proof. reflexivity. Qed.

(** C5. Once [countersink_profile(fit)] has returned, the bore radius is:
    for a threaded hole ([hand] set), half the fastener's thread diameter,
    whatever the diameter table holds, and the whole operation does not
    depend on the table; otherwise half the table entry of the key
    ([material] if given, else [fit]); and for a key the table lacks, the
    operation raises [ValueError] with the key and the list of the table's
    keys, which contains every valid key. *)
Theorem hole_radius_resolution (h : heap) (self : Workplane)
    (hole_diameters : dict value) (fastener : ref) (depth : R)
    (washers : option (list ref)) (fit material : option string)
    (counterSunk : bool) (baseAssembly : option Assembly) (uuids : nat)
    (hand : option string) (simple clean : bool) (profile : option shape) :
  countersink_profile (deref h fastener) fit = Ok profile →
  let key := match material with None => fit | Some _ => material end in
  (hand ≠ None →
     (∀ d, thread_diameter (deref h fastener) = Ok (VFloat d) →
           ∀ table,
             resolve_hole_radius (deref h fastener) table fit material hand
             = Ok (d / 2))
     ∧ (∀ table,
          _fastenerHole h self table fastener depth washers fit material
            counterSunk baseAssembly uuids hand simple clean
          = _fastenerHole h self hole_diameters fastener depth washers fit
              material counterSunk baseAssembly uuids hand simple clean))
  ∧ (hand = None →
     (∀ k d, key = Some k → Dict.get hole_diameters k = Some (VFloat d) →
             resolve_hole_radius (deref h fastener) hole_diameters fit
               material hand = Ok (d / 2))
     ∧ ((∀ k, key = Some k → Dict.get hole_diameters k = None) →
        resolve_hole_radius (deref h fastener) hole_diameters fit material hand
        = Raise (ValueError (MsgInvalidKey key (Dict.keys hole_diameters)))
        ∧ _fastenerHole h self hole_diameters fastener depth washers fit
            material counterSunk baseAssembly uuids hand simple clean
          = Raise (ValueError (MsgInvalidKey key (Dict.keys hole_diameters)))
        ∧ (∀ k, is_Some (Dict.get hole_diameters k) →
                k ∈ Dict.keys hole_diameters))).
Proof.
  intros Hprofile key. split.
  - intros Hh. split.
    + intros d Hd table. apply resolve_hole_radius_threaded; assumption.
    + intros table. unfold _fastenerHole, resolve_hole_radius.
      rewrite (threaded_hole_true _ Hh). reflexivity.
  - intros ->. split.
    + intros k d Hkey Hget. rewrite resolve_hole_radius_table.
      fold key. rewrite Hkey. cbn. unfold Dict.item. rewrite Hget. reflexivity.
    + intros Habsent.
      assert (resolve_hole_radius (deref h fastener) hole_diameters fit
                material None
              = Raise (ValueError (MsgInvalidKey key (Dict.keys hole_diameters))))
        as Hraise.
      { rewrite resolve_hole_radius_table. fold key.
        destruct key as [k|] eqn:Hkey; cbn.
        - unfold Dict.item. rewrite (Habsent k eq_refl). reflexivity.
        - reflexivity. }
      split; [exact Hraise|]. split.
      * unfold _fastenerHole. rewrite Hprofile. cbn [mbind result_bind bind].
        rewrite Hraise. reflexivity.
      * intros k [v Hv]. eapply get_Some_keys, Hv.
Qed.



End HoleCutting.

(** ** The checks of the constructors *)

Section Constructors.
Context `{External}.

Lemma valid_hand_None (hand : option string) :
  hand ≠ Some "left"%string → hand ≠ Some "right"%string →
  valid_hand hand = None.
Proof.
  intros Hl Hr. unfold valid_hand. destruct hand as [hd|]; [|done].
  case_bool_decide as Hin; [|done].
  apply elem_of_cons in Hin as [->|Hin]; [done|].
  apply elem_of_cons in Hin as [->|Hin]; [done|].
  by apply elem_of_nil in Hin.
Qed.

Lemma valid_hand_Some (hd : string) :
  hd = "left"%string ∨ hd = "right"%string → valid_hand (Some hd) = Some hd.
Proof. intros [-> | ->]; reflexivity. Qed.

Lemma size_format_check (size_parts : list string) :
  List.length size_parts ≠ 2%nat ↔ negb (List.length size_parts =? 2)%nat = true.
Proof.
  rewrite negb_true_iff, Nat.eqb_neq. done.
Qed.

(** C8, as the code has it.  [Screw] and [Nut] check, in this order: the
    size must split at ["-"] into exactly two parts (invalid-size error
    otherwise); then, the diameter and pitch being read, the type must be
    one of the class's types (invalid-type error); then the hand must be
    ["left"] or ["right"] (invalid-hand error); with all three valid the
    constructor goes on to the dimension lookup.  [Washer] takes a size and a
    type only: it checks the type in the same way, and neither splits the
    size nor has a hand. *)
Theorem constructor_checks (size fastener_type : string) (hand : option string) :
  let size_parts := PyStr.split "-"%char (PyStr.strip size) in
  (List.length size_parts ≠ 2%nat →
     (∀ c length simple clearance,
        Screw__init__ c size length fastener_type hand simple clearance
        = Raise (ValueError (MsgSizeFormat size_parts)))
     ∧ (∀ c simple,
          Nut__init__ c size fastener_type hand simple
          = Raise (ValueError (MsgSizeFormat size_parts))))
  ∧ (List.length size_parts = 2%nat →
     ∀ c0 d p,
       PyStr.first size = Ok c0 →
       thread_of_size size size_parts (Ascii.eqb c0 "M"%char) = Ok (d, p) →
       (∀ c length simple clearance known,
          types (ScrewClass c) = Ok known →
          (fastener_type ∉ known →
             Screw__init__ c size length fastener_type hand simple clearance
             = Raise (ValueError (MsgInvalidType fastener_type known)))
          ∧ (fastener_type ∈ known →
             hand ≠ Some "left"%string → hand ≠ Some "right"%string →
             Screw__init__ c size length fastener_type hand simple clearance
             = Raise (ValueError (MsgInvalidHand hand)))
          ∧ (fastener_type ∈ known →
             ∀ hd, hand = Some hd → hd = "left"%string ∨ hd = "right"%string →
             Screw__init__ c size length fastener_type hand simple clearance
             = Screw_dimensioned c size length fastener_type hd simple
                 clearance (Ascii.eqb c0 "M"%char) d p))
       ∧ (∀ c simple known,
          types (NutClass c) = Ok known →
          (fastener_type ∉ known →
             Nut__init__ c size fastener_type hand simple
             = Raise (ValueError (MsgInvalidType fastener_type known)))
          ∧ (fastener_type ∈ known →
             hand ≠ Some "left"%string → hand ≠ Some "right"%string →
             Nut__init__ c size fastener_type hand simple
             = Raise (ValueError (MsgInvalidHand hand)))
          ∧ (fastener_type ∈ known →
             ∀ hd, hand = Some hd → hd = "left"%string ∨ hd = "right"%string →
             Nut__init__ c size fastener_type hand simple
             = Nut_dimensioned c size fastener_type hd simple
                 (Ascii.eqb c0 "M"%char) d p)))
  ∧ (∀ c c0 d known,
       PyStr.first size = Ok c0 →
       (if Ascii.eqb c0 "M"%char then VFloat <$> py_float (PyStr.tail size)
        else imperial_str_to_float size) = Ok d →
       types (WasherClass c) = Ok known →
       (fastener_type ∉ known →
          Washer__init__ c size fastener_type
          = Raise (ValueError (MsgInvalidType fastener_type known)))
       ∧ (fastener_type ∈ known →
          Washer__init__ c size fastener_type
          = (washer_data ←
               dimension_set (WasherClass c) size fastener_type
                 (Ascii.eqb c0 "M"%char);
             _cq_object ← make_washer c washer_data;
             Ok {| w_class := c; w_size := size;
                   w_is_metric := Ascii.eqb c0 "M"%char;
                   w_thread_diameter := d;
                   w_fastener_type := fastener_type;
                   w_washer_data := washer_data;
                   w__cq_object := _cq_object |}))).
Proof.
  intros size_parts. split; [|split].
  - intros Hlen%size_format_check. split; intros; unfold Screw__init__, Nut__init__;
      fold size_parts; rewrite Hlen; reflexivity.
  - intros Hlen c0 d p Hfirst Hthread.
    assert (negb (List.length size_parts =? 2)%nat = false) as Hfmt.
    { rewrite negb_false_iff, Nat.eqb_eq. exact Hlen. }
    split.
    + intros c length simple clearance known Hknown.
      unfold Screw__init__. fold size_parts. rewrite Hfmt, Hfirst.
      cbn [mbind result_bind bind]. rewrite Hthread.
      cbn [mbind result_bind bind]. rewrite Hknown.
      cbn [mbind result_bind bind].
      split; [|split].
      * intros Hty. rewrite bool_decide_eq_false_2 by exact Hty. reflexivity.
      * intros Hty Hl Hr. rewrite bool_decide_eq_true_2 by exact Hty.
        cbn [negb]. rewrite (valid_hand_None _ Hl Hr). reflexivity.
      * intros Hty hd -> Hhd. rewrite bool_decide_eq_true_2 by exact Hty.
        cbn [negb]. rewrite (valid_hand_Some _ Hhd). reflexivity.
    + intros c simple known Hknown.
      unfold Nut__init__. fold size_parts. rewrite Hfmt, Hfirst.
      cbn [mbind result_bind bind]. rewrite Hthread.
      cbn [mbind result_bind bind]. rewrite Hknown.
      cbn [mbind result_bind bind].
      split; [|split].
      * intros Hty. rewrite bool_decide_eq_false_2 by exact Hty. reflexivity.
      * intros Hty Hl Hr. rewrite bool_decide_eq_true_2 by exact Hty.
        cbn [negb]. rewrite (valid_hand_None _ Hl Hr). reflexivity.
      * intros Hty hd -> Hhd. rewrite bool_decide_eq_true_2 by exact Hty.
        cbn [negb]. rewrite (valid_hand_Some _ Hhd). reflexivity.
  - intros c c0 d known Hfirst Hd Hknown.
    unfold Washer__init__. rewrite Hfirst. cbn [mbind result_bind bind].
    rewrite Hd. cbn [mbind result_bind bind]. rewrite Hknown.
    cbn [mbind result_bind bind]. split.
    + intros Hty. rewrite bool_decide_eq_false_2 by exact Hty. reflexivity.
    + intros Hty. rewrite bool_decide_eq_true_2 by exact Hty. reflexivity.
Qed.

Lemma screw_length_offset_countersunk (c : screw_class) (data : dict value) :
  c = CounterSunkScrew ∨ c = RaisedCounterSunkOvalHeadScrew →
  screw_length_offset c data = Dict.item data "k".
Proof. intros [-> | ->]; reflexivity. Qed.

Lemma Screw_dimensioned_Ok c size length fastener_type hd simple clearance
    is_metric d p s :
  Screw_dimensioned c size length fastener_type hd simple clearance is_metric d p
  = Ok s →
  ∃ offset,
    screw_length_offset c (s_screw_data s) = Ok (VFloat offset)
    ∧ offset < length ∧ s_length s = length
    ∧ s_thread_length s = length - offset.
Proof.
  unfold Screw_dimensioned.
  destruct (dimension_set _ _ _ _) as [data|]; [|done].
  cbn [mbind result_bind bind].
  destruct (screw_length_offset c data) as [[offset|?]|] eqn:Hoff; [|done..].
  cbn [mbind result_bind bind as_float].
  case_bool_decide as Hge; [done|].
  destruct (make_head c data) as [[head|]|]; [| |done];
    cbn [mbind result_bind bind].
  - destruct (as_float d); [|done]. cbn [mbind result_bind bind].
    intros [= <-]. exists offset. cbn. split; [exact Hoff|]. split; [lra|done].
  - intros [= <-]. exists offset. cbn. split; [exact Hoff|]. split; [lra|done].
Qed.

Lemma Screw__init___Ok c size length fastener_type hand simple clearance s :
  Screw__init__ c size length fastener_type hand simple clearance = Ok s →
  ∃ hd is_metric d p,
    Screw_dimensioned c size length fastener_type hd simple clearance
      is_metric d p = Ok s.
Proof.
  unfold Screw__init__.
  destruct (negb _); [done|].
  destruct (PyStr.first size) as [c0|]; [|done]. cbn [mbind result_bind bind].
  destruct (thread_of_size _ _ _) as [[d p]|]; [|done].
  cbn [mbind result_bind bind].
  destruct (types _) as [known|]; [|done]. cbn [mbind result_bind bind].
  destruct (negb _); [done|].
  destruct (valid_hand hand) as [hd|]; [|done].
  intros Hs. eauto.
Qed.

(** C7. For the two countersunk classes, whose [length_offset()] is the head
    height ["k"]: a constructor call that returns has [k < length]; at the
    length check, [length <= k] raises the [ValueError] of the check; and so
    does the whole constructor once the size, type and hand are accepted and
    the dimensions are found, with no object created. *)
Theorem countersunk_length_check (c : screw_class) (size : string) (length : R)
    (fastener_type : string) (hand : option string) (simple : bool)
    (clearance : R) :
  c = CounterSunkScrew ∨ c = RaisedCounterSunkOvalHeadScrew →
  (∀ s,
     Screw__init__ c size length fastener_type hand simple clearance = Ok s →
     ∃ k, Dict.get (s_screw_data s) "k" = Some (VFloat k)
          ∧ screw_length_offset c (s_screw_data s) = Ok (VFloat k)
          ∧ k < length ∧ s_length s = length)
  ∧ (∀ hd is_metric d p data k,
       dimension_set (ScrewClass c) size fastener_type is_metric = Ok data →
       Dict.get data "k" = Some (VFloat k) →
       length <= k →
       Screw_dimensioned c size length fastener_type hd simple clearance
         is_metric d p
       = Raise (ValueError (MsgScrewLength length k)))
  ∧ (∀ c0 d p known hd data k,
       List.length (PyStr.split "-"%char (PyStr.strip size)) = 2%nat →
       PyStr.first size = Ok c0 →
       thread_of_size size (PyStr.split "-"%char (PyStr.strip size))
         (Ascii.eqb c0 "M"%char) = Ok (d, p) →
       types (ScrewClass c) = Ok known →
       fastener_type ∈ known →
       valid_hand hand = Some hd →
       dimension_set (ScrewClass c) size fastener_type (Ascii.eqb c0 "M"%char)
       = Ok data →
       Dict.get data "k" = Some (VFloat k) →
       length <= k →
       Screw__init__ c size length fastener_type hand simple clearance
       = Raise (ValueError (MsgScrewLength length k))
       ∧ ∀ h, new_Screw h c size length fastener_type hand simple clearance
              = Raise (ValueError (MsgScrewLength length k))).
Proof.
  intros Hc.
  assert (∀ hd is_metric d p data k,
       dimension_set (ScrewClass c) size fastener_type is_metric = Ok data →
       Dict.get data "k" = Some (VFloat k) →
       length <= k →
       Screw_dimensioned c size length fastener_type hd simple clearance
         is_metric d p
       = Raise (ValueError (MsgScrewLength length k))) as Hcheck.
  { intros hd is_metric d p data k Hdata Hk Hle. unfold Screw_dimensioned.
    rewrite Hdata. cbn [mbind result_bind bind].
    rewrite (screw_length_offset_countersunk c data Hc).
    unfold Dict.item. rewrite Hk. cbn [mbind result_bind bind as_float].
    rewrite bool_decide_eq_true_2 by lra. reflexivity. }
  split; [|split].
  - intros s Hs.
    destruct (Screw__init___Ok _ _ _ _ _ _ _ _ Hs) as (hd & m & d & p & Hdim).
    destruct (Screw_dimensioned_Ok _ _ _ _ _ _ _ _ _ _ _ Hdim)
      as (k & Hoff & Hlt & Hlen & _).
    exists k. split; [|done].
    rewrite (screw_length_offset_countersunk c _ Hc) in Hoff.
    unfold Dict.item in Hoff.
    destruct (Dict.get (s_screw_data s) "k") as [v|]; [|done].
    by injection Hoff as ->.
  - exact Hcheck.
  - intros c0 d p known hd data k Hlen Hfirst Hthread Hknown Hty Hhand Hdata Hk Hle.
    assert (Screw__init__ c size length fastener_type hand simple clearance
            = Raise (ValueError (MsgScrewLength length k))) as Hinit.
    { unfold Screw__init__. rewrite Hlen. cbn [Nat.eqb negb]. rewrite Hfirst.
      cbn [mbind result_bind bind]. rewrite Hthread.
      cbn [mbind result_bind bind]. rewrite Hknown.
      cbn [mbind result_bind bind].
      rewrite bool_decide_eq_true_2 by exact Hty. cbn [negb]. rewrite Hhand.
      eapply Hcheck; eassumption. }
    split; [exact Hinit|]. intros h. unfold new_Screw. rewrite Hinit.
    reflexivity.
Qed.

End Constructors.

(** ** Placement records and their counts *)

Section Counting.

Lemma count_nil (x : ref) : count x [] = 0%nat.
Proof. reflexivity. Qed.

Lemma count_cons (x y : ref) (l : list ref) :
  count x (y :: l) = ((if decide (y = x) then 1 else 0) + count x l)%nat.
Proof. unfold count. rewrite filter_cons. case_decide; reflexivity. Qed.




Lemma count_pos_in (x : ref) (l : list ref) : x ∈ l → (0 < count x l)%nat.
Proof.
  induction l as [|y l IH]; [by intros ?%elem_of_nil|].
  rewrite elem_of_cons, count_cons. intros [<- | Hl].
  - rewrite decide_True by done. lia.
  - specialize (IH Hl). lia.
Qed.

Lemma count_filter (P : ref → Prop) `{∀ x, Decision (P x)} (x : ref)
    (l : list ref) :
  P x → count x (filter P l) = count x l.
Proof.
  intros Hx. induction l as [|y l IH]; [done|].
  rewrite filter_cons, (count_cons x y l). case_decide as Hy.
  - rewrite count_cons, IH. reflexivity.
  - rewrite decide_False by (intros ->; done). exact IH.
Qed.





Lemma recorded_length (md : gmap string ref) :
  List.length (recorded md) = size md.
Proof. unfold recorded. rewrite length_fmap, length_map_to_list. reflexivity. Qed.

Lemma recorded_elem (md : gmap string ref) (r : ref) :
  r ∈ recorded md ↔ ∃ k, md !! k = Some r.
Proof.
  unfold recorded. rewrite list_elem_of_fmap. split.
  - intros ([k r'] & -> & Hin). exists k. by apply elem_of_map_to_list.
  - intros [k Hk]. exists (k, r). split; [done|]. by apply elem_of_map_to_list.
Qed.

(** The mapping built by the dictionary comprehension over the objects. *)
Lemma object_lines_lookup (g : ref → nat) (u : list ref) (q : gmap ref nat)
    (r : ref) :
  foldl (λ q f, <[f := g f]> q) q u !! r
  = if decide (r ∈ u) then Some (g r) else q !! r.
Proof.
  revert q. induction u as [|f u IH]; intros q; cbn [foldl].
  - rewrite decide_False by apply not_elem_of_nil. reflexivity.
  - rewrite IH. destruct (decide (r ∈ u)) as [Hu|Hu].
    + rewrite decide_True by (by apply list_elem_of_further). reflexivity.
    + destruct (decide (r = f)) as [->|Hne].
      * rewrite decide_True by apply list_elem_of_here.
        apply lookup_insert_eq.
      * rewrite decide_False by (rewrite elem_of_cons; tauto).
        apply lookup_insert_ne. congruence.
Qed.

End Counting.

Section Bookkeeping.
Context `{External}.
Hypothesis uuid_inj : ∀ m n, uuid m = uuid n → m = n.

Lemma deref_Some (h : heap) (r : ref) (o : pyobj) :
  h !! r = Some o → deref h r = o.
Proof. intros Hr. unfold deref. rewrite Hr. reflexivity. Qed.








End Bookkeeping.

(** ** The descriptive identity of a fastener *)

Section Info.
Context `{External}.

Lemma info_defined (h : heap) (r : ref) :
  is_fastener h r = true → ∃ i, info (deref h r) = Ok i.
Proof.
  unfold is_fastener, deref. destruct (h !! r) as [[s|n|w|d]|]; cbn; eauto;
    discriminate.
Qed.



(** The mapping built by the dictionary comprehension over the
    descriptions: a description all of whose objects have the same count
    gets that count. *)
Lemma info_lines_lookup (h : heap) (fs : list ref) (i : string) (v : nat)
    (u : list ref) :
  Forall (λ g, is_fastener h g = true) u →
  (∀ g, g ∈ u → info (deref h g) = Ok i → count g fs = v) →
  ∀ q : gmap string nat,
    (q !! i = Some v ∨ ∃ g, g ∈ u ∧ info (deref h g) = Ok i) →
    ∃ q',
      foldM (λ q f, i ← info (deref h f); Ok (<[i := count f fs]> q)) q u
      = Ok q'
      ∧ q' !! i = Some v.
Proof.
  induction 1 as [|g u Hg _ IH]; intros Hsame q Hq.
  - exists q. split; [reflexivity|]. destruct Hq as [Hq | (g & Hin & _)];
      [exact Hq | by apply elem_of_nil in Hin].
  - destruct (info_defined h g Hg) as [ig Hig]. cbn [foldM]. rewrite Hig.
    cbn [mbind result_bind bind].
    apply IH.
    + intros g' Hin. apply Hsame. by apply list_elem_of_further.
    + destruct (decide (ig = i)) as [->|Hne].
      * left. rewrite lookup_insert_eq. f_equal.
        apply Hsame; [apply list_elem_of_here | exact Hig].
      * destruct Hq as [Hq | (g' & Hin & Hi')].
        -- left. rewrite lookup_insert_ne by exact Hne. exact Hq.
        -- apply elem_of_cons in Hin as [-> | Hin].
           ++ congruence.
           ++ right. eauto.
Qed.

(** The lines of that mapping are the descriptions of the objects. *)
Lemma info_lines_dom (h : heap) (fs : list ref) (u : list ref) :
  Forall (λ g, is_fastener h g = true) u →
  ∀ q : gmap string nat,
    ∃ q',
      foldM (λ q f, i ← info (deref h f); Ok (<[i := count f fs]> q)) q u
      = Ok q'
      ∧ ∀ i, is_Some (q' !! i)
             ↔ is_Some (q !! i) ∨ ∃ g, g ∈ u ∧ info (deref h g) = Ok i.
Proof.
  induction 1 as [|g u Hg _ IH]; intros q.
  - exists q. split; [reflexivity|]. intros i. split; [by left|].
    intros [Hq | (g & Hin & _)]; [exact Hq | by apply elem_of_nil in Hin].
  - destruct (info_defined h g Hg) as [ig Hig]. cbn [foldM]. rewrite Hig.
    cbn [mbind result_bind bind].
    destruct (IH (<[ig := count g fs]> q)) as (q' & Hq' & Hdom).
    exists q'. split; [exact Hq'|]. intros i. rewrite Hdom.
    rewrite lookup_insert_is_Some. split.
    + intros [[-> | [_ Hq]] | (g' & Hin & Hi)].
      * right. exists g. split; [apply list_elem_of_here | exact Hig].
      * by left.
      * right. exists g'. split; [by apply list_elem_of_further | exact Hi].
    + intros [Hq | (g' & Hin & Hi)].
      * destruct (decide (ig = i)) as [->|Hne]; left; [by left | by right].
      * apply elem_of_cons in Hin as [-> | Hin].
        -- left. left. congruence.
        -- right. eauto.
Qed.


End Info.


(** ** Bookkeeping of a hole-cutting call, and the bill of materials *)

Section BillOfMaterials.
Context `{External}.

Lemma set_iteration_elem (l : list ref) (r : ref) :
  r ∈ set_iteration l ↔ r ∈ l.
Proof.
  rewrite set_iteration_spec, elem_of_elements, elem_of_list_to_set. done.
Qed.


(** With [bom=False] the lines are the recorded fastener objects, each with
    the number of records that hold it. *)
Lemma object_quantities (h : heap) (a : Assembly) (md : gmap string ref) :
  metadata a = Bound md →
  ∃ q,
    _fastener_quantities h a false = Ok (QObject q)
    ∧ ∀ r, q !! r
           = if decide (is_fastener h r = true ∧ r ∈ recorded md)
             then Some (count r (recorded md)) else None.
Proof.
  intros Hmd. unfold _fastener_quantities. rewrite Hmd. cbn zeta.
  eexists. split; [reflexivity|]. intros r.
  rewrite object_lines_lookup, lookup_empty.
  rewrite (decide_ext _ (is_fastener h r = true ∧ r ∈ recorded md)).
  - case_decide as Hr; [|reflexivity].
    rewrite count_filter by apply Hr. reflexivity.
  - rewrite set_iteration_elem, list_elem_of_filter. done.
Qed.

(** With [bom=True] the line of a fastener's description carries the number
    of records holding that object, when no other recorded fastener has the
    same description. *)
Lemma info_quantities (h : heap) (a : Assembly) (md : gmap string ref)
    (f : ref) (i : string) :
  metadata a = Bound md →
  is_fastener h f = true → f ∈ recorded md →
  info (deref h f) = Ok i →
  (∀ g, g ∈ recorded md → is_fastener h g = true →
        info (deref h g) = Ok i → g = f) →
  ∃ q,
    _fastener_quantities h a true = Ok (QInfo q)
    ∧ q !! i = Some (count f (recorded md)).
Proof.
  intros Hmd Hf Hin Hi Hunique. unfold _fastener_quantities. rewrite Hmd.
  cbn zeta.
  set (fs := filter (λ v, is_fastener h v = true) (recorded md)).
  destruct (info_lines_lookup h fs i (count f (recorded md)) (set_iteration fs))
    with (q := (∅ : gmap string nat)) as (q & Hq & Hlook).
  - apply Forall_forall. intros g Hg.
    apply (proj1 (set_iteration_elem _ _)) in Hg.
    apply list_elem_of_filter in Hg. apply Hg.
  - intros g Hg Hgi. apply (proj1 (set_iteration_elem _ _)) in Hg.
    apply list_elem_of_filter in Hg as [Hgf Hgin].
    rewrite (Hunique g Hgin Hgf Hgi). unfold fs.
    apply count_filter. exact Hf.
  - right. exists f. split; [|exact Hi].
    apply set_iteration_elem, list_elem_of_filter. done.
  - exists q. rewrite Hq. done.
Qed.

(** With [bom=True] the lines are the descriptions of the recorded
    fasteners. *)
Lemma info_quantities_lines (h : heap) (a : Assembly) (md : gmap string ref) :
  metadata a = Bound md →
  ∃ q,
    _fastener_quantities h a true = Ok (QInfo q)
    ∧ ∀ i, is_Some (q !! i)
           ↔ ∃ r, r ∈ recorded md ∧ is_fastener h r = true
                  ∧ info (deref h r) = Ok i.
Proof.
  intros Hmd. unfold _fastener_quantities. rewrite Hmd. cbn zeta.
  set (fs := filter (λ v, is_fastener h v = true) (recorded md)).
  destruct (info_lines_dom h fs (set_iteration fs)) with (q := (∅ : gmap string nat))
    as (q & Hq & Hdom).
  { apply Forall_forall. intros g Hg.
    apply (proj1 (set_iteration_elem _ _)) in Hg.
    apply list_elem_of_filter in Hg. apply Hg. }
  exists q. rewrite Hq. split; [reflexivity|]. intros i. rewrite Hdom.
  rewrite lookup_empty. split.
  - intros [[? [=]] | (g & Hg & Hi)].
    apply (proj1 (set_iteration_elem _ _)) in Hg.
    apply list_elem_of_filter in Hg as [Hf Hin]. eauto.
  - intros (r & Hin & Hf & Hi). right. exists r. split; [|exact Hi].
    apply set_iteration_elem, list_elem_of_filter. done.
Qed.




End BillOfMaterials.

(** ** Fastener instances are compared by identity *)

Section Identity.
Context `{External}.

Lemma new_spec (h : heap) (o : pyobj) :
  h !! (new h o).1 = None
  ∧ (new h o).2 !! (new h o).1 = Some o
  ∧ ∀ r, is_Some (h !! r) → (new h o).2 !! r = h !! r ∧ r ≠ (new h o).1.
Proof.
  unfold new. cbn [fst snd].
  assert (h !! fresh (dom h) = None) as Hfresh.
  { apply not_elem_of_dom, is_fresh. }
  split; [exact Hfresh|]. split; [apply lookup_insert_eq|].
  intros r [o' Hr].
  assert (r ≠ fresh (dom h)) as Hne by congruence.
  split; [|exact Hne]. apply lookup_insert_ne. congruence.
Qed.

Lemma new_twice (h0 h1 h2 : heap) (o : pyobj) (r1 r2 : ref) :
  new h0 o = (r1, h1) → new h1 o = (r2, h2) →
  r1 ≠ r2 ∧ h2 !! r1 = Some o ∧ h2 !! r2 = Some o.
Proof.
  intros H1 H2.
  destruct (new_spec h0 o) as (_ & Hr1 & _).
  destruct (new_spec h1 o) as (_ & Hr2 & Hkeep).
  rewrite H1 in Hr1. rewrite H2 in Hr2, Hkeep. cbn [fst snd] in *.
  destruct (Hkeep r1) as [Hsame Hne]; [by eexists|].
  split; [exact Hne|]. split; [congruence | exact Hr2].
Qed.

(** C2, as the code has it.  The fastener classes define no equality, so
    [set] and [list.count] compare instances by identity.  With [bom=False]
    the lines of the bill of materials are the recorded fastener objects,
    each counted by the records that hold that very object: two records are
    on one line exactly when they hold the same object.  With [bom=True] the
    lines are the descriptions ([info]) of the recorded fasteners, and the
    line of an object that alone has its description carries the number of
    its records.  Constructing the same screw, nut or washer twice gives two
    objects with equal attributes and different identities, hence two lines
    with [bom=False]. *)
Theorem bom_lines_by_identity (h : heap) (a : Assembly)
    (md : gmap string ref) :
  metadata a = Bound md →
  (∃ q,
     _fastener_quantities h a false = Ok (QObject q)
     ∧ (∀ r, is_fastener h r = true → r ∈ recorded md →
             q !! r = Some (count r (recorded md)))
     ∧ (∀ r, is_Some (q !! r) → is_fastener h r = true ∧ r ∈ recorded md)
     ∧ (∀ k1 k2 r1 r2,
          md !! k1 = Some r1 → md !! k2 = Some r2 →
          is_fastener h r1 = true → is_fastener h r2 = true →
          r1 ≠ r2 → h !! r1 = h !! r2 →
          q !! r1 = Some (count r1 (recorded md))
          ∧ q !! r2 = Some (count r2 (recorded md))
          ∧ (count r1 (recorded md) + count r2 (recorded md) ≤ size md)%nat))
  ∧ (∃ q,
       _fastener_quantities h a true = Ok (QInfo q)
       ∧ (∀ i, is_Some (q !! i)
               ↔ ∃ r, r ∈ recorded md ∧ is_fastener h r = true
                      ∧ info (deref h r) = Ok i)
       ∧ (∀ f i,
            is_fastener h f = true → f ∈ recorded md →
            info (deref h f) = Ok i →
            (∀ g, g ∈ recorded md → is_fastener h g = true →
                  info (deref h g) = Ok i → g = f) →
            q !! i = Some (count f (recorded md))))
  ∧ (∀ h0 h1 h2 r1 r2,
       (∀ c size length fastener_type hand simple clearance,
          new_Screw h0 c size length fastener_type hand simple clearance
          = Ok (r1, h1) →
          new_Screw h1 c size length fastener_type hand simple clearance
          = Ok (r2, h2) →
          r1 ≠ r2 ∧ h2 !! r1 = h2 !! r2
          ∧ is_fastener h2 r1 = true ∧ is_fastener h2 r2 = true)
       ∧ (∀ c size fastener_type hand simple,
            new_Nut h0 c size fastener_type hand simple = Ok (r1, h1) →
            new_Nut h1 c size fastener_type hand simple = Ok (r2, h2) →
            r1 ≠ r2 ∧ h2 !! r1 = h2 !! r2
            ∧ is_fastener h2 r1 = true ∧ is_fastener h2 r2 = true)
       ∧ (∀ c size fastener_type,
            new_Washer h0 c size fastener_type = Ok (r1, h1) →
            new_Washer h1 c size fastener_type = Ok (r2, h2) →
            r1 ≠ r2 ∧ h2 !! r1 = h2 !! r2
            ∧ is_fastener h2 r1 = true ∧ is_fastener h2 r2 = true)).
Proof.
  intros Hmd. split; [|split].
  - destruct (object_quantities h a md Hmd) as (q & Hq & Hlines).
    exists q. split; [exact Hq|].
    assert (∀ r, is_fastener h r = true → r ∈ recorded md →
                 q !! r = Some (count r (recorded md))) as Hline.
    { intros r Hr Hin. rewrite Hlines, decide_True by done. reflexivity. }
    split; [exact Hline|]. split.
    + intros r [n Hn]. rewrite Hlines in Hn. case_decide; [done|discriminate].
    + intros k1 k2 r1 r2 Hk1 Hk2 Hf1 Hf2 Hne _.
      assert (r1 ∈ recorded md) as Hin1 by (apply recorded_elem; eauto).
      assert (r2 ∈ recorded md) as Hin2 by (apply recorded_elem; eauto).
      split; [by apply Hline|]. split; [by apply Hline|].
      rewrite <- recorded_length. unfold count.
      clear -Hne. induction (recorded md) as [|x l IH]; [done|].
      rewrite !filter_cons. cbn [List.length].
      repeat case_decide; cbn [List.length]; subst; try lia; congruence.
  - destruct (info_quantities_lines h a md Hmd) as (q & Hq & Hdom).
    exists q. split; [exact Hq|]. split; [exact Hdom|].
    intros f i Hf Hin Hi Hunique.
    destruct (info_quantities h a md f i Hmd Hf Hin Hi Hunique)
      as (q' & Hq' & Hlook).
    congruence.
  - intros h0 h1 h2 r1 r2.
    assert (∀ o, new h0 o = (r1, h1) → new h1 o = (r2, h2) →
                 (match o with OOther _ => False | _ => True end) →
                 r1 ≠ r2 ∧ h2 !! r1 = h2 !! r2
                 ∧ is_fastener h2 r1 = true ∧ is_fastener h2 r2 = true)
      as Htwice.
    { intros o H1 H2 Ho.
      destruct (new_twice h0 h1 h2 o r1 r2 H1 H2) as (Hne & Hr1 & Hr2).
      split; [exact Hne|]. split; [congruence|].
      unfold is_fastener. rewrite Hr1, Hr2. destruct o; done. }
    split; [|split].
    + intros c size length ty hand simple clearance. unfold new_Screw.
      destruct (Screw__init__ _ _ _ _ _ _ _) as [s|]; [|done].
      cbn [mbind result_bind bind]. intros Hn1 Hn2.
      apply (Htwice (OScrew s)); [congruence | congruence | exact I].
    + intros c size ty hand simple. unfold new_Nut.
      destruct (Nut__init__ _ _ _ _ _) as [n|]; [|done].
      cbn [mbind result_bind bind]. intros Hn1 Hn2.
      apply (Htwice (ONut n)); [congruence | congruence | exact I].
    + intros c size ty. unfold new_Washer.
      destruct (Washer__init__ _ _ _) as [w|]; [|done].
      cbn [mbind result_bind bind]. intros Hn1 Hn2.
      apply (Htwice (OWasher w)); [congruence | congruence | exact I].
Qed.

End Identity.

(** ** The hexalobular plan: tangent arcs and a closed outline *)

Section HexalobularGeometry.

Lemma sqrt_3_sqr : sqrt 3 * sqrt 3 = 3.
Proof. apply sqrt_sqrt. lra. Qed.

Lemma hexalobular_Ri_eq (A B Re : R) :
  sqrt 3 * A - 2 * B - 2 * sqrt 3 * Re + 4 * Re ≠ 0 →
  hexalobular_Ri A B Re * (2 * (sqrt 3 * A - 2 * B - 2 * sqrt 3 * Re + 4 * Re))
  = A ^ 2 - sqrt 3 * A * B - 4 * A * Re + B ^ 2 + 2 * sqrt 3 * B * Re.
Proof. intros Hden. unfold hexalobular_Ri. cbv zeta. field. exact Hden. Qed.

Lemma hexalobular_centers_sqr (A B Re : R) (i : nat) :
  sqrt 3 * A - 2 * B - 2 * sqrt 3 * Re + 4 * Re ≠ 0 →
  let Ri := hexalobular_Ri A B Re in
  let d := vsub (Hexalobular.center_internal_arc B Ri)
             (Hexalobular.center_external_arc A Re i) in
  vX d * vX d + vY d * vY d + vZ d * vZ d = (Re + Ri) * (Re + Ri).
Proof.
  intros Hden Ri d. pose proof (hexalobular_Ri_eq A B Re Hden) as HRi.
  fold Ri in HRi. pose proof sqrt_3_sqr as Hs.
  set (s := sqrt 3) in *. apply Rminus_diag_uniq.
  destruct i as [|i]; subst d; cbn [Hexalobular.center_external_arc
    Hexalobular.center_internal_arc Vector2 vsub vX vY vZ]; fold s.
  - replace (_ - _)
      with (- (Ri * (2 * (s * A - 2 * B - 2 * s * Re + 4 * Re))
               - (A ^ 2 - s * A * B - 4 * A * Re + B ^ 2 + 2 * s * B * Re)) / 4
            + (s * s - 3) * ((B / 2 + Ri) * (B / 2 + Ri) / 4)) by field.
    rewrite HRi, Hs. field.
  - replace (_ - _)
      with (- (Ri * (2 * (s * A - 2 * B - 2 * s * Re + 4 * Re))
               - (A ^ 2 - s * A * B - 4 * A * Re + B ^ 2 + 2 * s * B * Re)) / 4
            + (s * s - 3) * (((B / 2 + Ri) * (B / 2 + Ri)
                              + (A / 2 - Re) * (A / 2 - Re)) / 4)) by field.
    rewrite HRi, Hs. field.
Qed.

Lemma hexalobular_centers_distance (A B Re : R) (i : nat) :
  sqrt 3 * A - 2 * B - 2 * sqrt 3 * Re + 4 * Re ≠ 0 →
  0 <= Re + hexalobular_Ri A B Re →
  Length (vsub (Hexalobular.center_internal_arc B (hexalobular_Ri A B Re))
            (Hexalobular.center_external_arc A Re i))
  = Re + hexalobular_Ri A B Re.
Proof.
  intros Hden Hpos. unfold Length.
  rewrite (hexalobular_centers_sqr A B Re i Hden).
  apply sqrt_square, Hpos.
Qed.

(** X1. With the internal radius [Ri] that [hexalobular_recess] computes,
    the centre of the internal arc lies at distance [Re + Ri] from the centre
    of each of the two external arcs: the internal arc touches both lobes. *)
Theorem hexalobular_arcs_tangent (A B Re : R) (i : nat) :
  sqrt 3 * A - 2 * B - 2 * sqrt 3 * Re + 4 * Re ≠ 0 →
  0 <= Re + hexalobular_Ri A B Re →
  Hexalobular.distance
    (Hexalobular.center_internal_arc B (hexalobular_Ri A B Re))
    (Hexalobular.center_external_arc A Re i)
  = Re + hexalobular_Ri A B Re.
Proof.
  intros Hden Hpos. unfold Hexalobular.distance, Length.
  rewrite (hexalobular_centers_sqr A B Re i Hden).
  apply sqrt_square, Hpos.
Qed.

(** A point placed at distance [r] from [c] towards [d]. *)
Lemma towards_distance (c d : Vector) (r : R) :
  0 < Length (vsub d c) →
  let p := vadd c (vscale (normalized (vsub d c)) r) in
  Hexalobular.distance p c = Rabs r
  ∧ Hexalobular.distance d p = Rabs (Length (vsub d c) - r).
Proof.
  intros HL p. unfold Hexalobular.distance.
  assert (Length (vsub d c) * Length (vsub d c)
          = vX (vsub d c) * vX (vsub d c) + vY (vsub d c) * vY (vsub d c)
            + vZ (vsub d c) * vZ (vsub d c)) as Hsq.
  { unfold Length at 1 2. apply sqrt_sqrt. nra. }
  set (L := Length (vsub d c)) in *.
  destruct c as [cx cy cz], d as [dx dy dz].
  subst p. unfold normalized. fold L.
  cbn [vsub vadd vscale vX vY vZ] in *. split.
  - unfold Length. cbn [vsub vadd vscale vX vY vZ].
    replace (_ + _ + _)
      with (r * r * (((dx - cx) * (dx - cx) + (dy - cy) * (dy - cy)
                      + (dz - cz) * (dz - cz)) * (/ L * / L))) by ring.
    rewrite <- Hsq. replace (L * L * (/ L * / L)) with 1 by (field; lra).
    rewrite Rmult_1_r. apply sqrt_Rsqr_abs.
  - unfold Length. cbn [vsub vadd vscale vX vY vZ].
    replace (_ + _ + _)
      with ((1 - r * / L) * (1 - r * / L)
            * ((dx - cx) * (dx - cx) + (dy - cy) * (dy - cy)
               + (dz - cz) * (dz - cz))) by ring.
    rewrite <- Hsq.
    replace ((1 - r * / L) * (1 - r * / L) * (L * L))
      with (Rsqr (L - r)) by (unfold Rsqr; field; lra).
    apply sqrt_Rsqr_abs.
Qed.

(** X2. Each tangent point the plan is drawn through lies on the external
    arc it belongs to (at distance [Re] from that arc's centre) and on the
    internal arc (at distance [Ri] from its centre): the three arcs of a
    sector meet where the plan joins them. *)
Theorem hexalobular_tangent_points (A B Re : R) (i : nat) :
  sqrt 3 * A - 2 * B - 2 * sqrt 3 * Re + 4 * Re ≠ 0 →
  0 <= Re → 0 <= hexalobular_Ri A B Re → 0 < Re + hexalobular_Ri A B Re →
  let Ri := hexalobular_Ri A B Re in
  Hexalobular.distance (Hexalobular.tangent_points A B Re Ri i)
    (Hexalobular.center_external_arc A Re i) = Re
  ∧ Hexalobular.distance (Hexalobular.center_internal_arc B Ri)
      (Hexalobular.tangent_points A B Re Ri i) = Ri.
Proof.
  intros Hden HRe HRi Hpos Ri.
  pose proof (hexalobular_centers_distance A B Re i Hden (Rlt_le _ _ Hpos)) as Hd.
  fold Ri in Hd.
  destruct (towards_distance (Hexalobular.center_external_arc A Re i)
              (Hexalobular.center_internal_arc B Ri) Re) as [H1 H2].
  { rewrite Hd. exact Hpos. }
  unfold Hexalobular.tangent_points. rewrite H1, H2. fold Ri. rewrite Hd. split.
  - apply Rabs_right. lra.
  - replace (Re + Ri - Re) with Ri by ring. apply Rabs_right. unfold Ri. lra.
Qed.

Lemma rotate_rotate (v : Vector) (a b : R) :
  Hexalobular.rotate (Hexalobular.rotate v a) b = Hexalobular.rotate v (a + b).
Proof.
  unfold Hexalobular.rotate. cbn [vX vY vZ].
  replace (radians (a + b)) with (radians a + radians b)
    by (unfold radians; field).
  rewrite cos_plus, sin_plus. f_equal; ring.
Qed.

Lemma radians_60 : radians (-60) = - (PI / 3).
Proof. unfold radians. field. Qed.

Lemma radians_360 : radians (-360) = - (2 * PI).
Proof. unfold radians. field. Qed.

(** X3. The outline closes.  The plan is the assembly of six copies of one
    sector, rotated by 0, -60, ..., -300 degrees.  A sector starts at
    [(0, A/2)] on the first external arc and ends at
    [(sqrt 3 * A / 4, A / 4)] on the second; the end of the copy rotated by
    [-60 k] degrees is the start of the copy rotated by [-60 (k + 1)]
    degrees, and six steps of 60 degrees bring the start back to itself. *)
Theorem hexalobular_outline_closed (A B Re Ri : R) :
  hexalobular_plan A B Re Ri
  = cq_assembleEdges
      (map (cq_rotate (cq_Workplane "XY" (Hexalobular.one_sixth_plan A B Re Ri)))
         Hexalobular.plan_angles)
  ∧ ∃ p q,
    Hexalobular.startPoint (Hexalobular.one_sixth_plan A B Re Ri) = Some p
    ∧ Hexalobular.endPoint (Hexalobular.one_sixth_plan A B Re Ri) = Some q
    ∧ Hexalobular.distance p (Hexalobular.center_external_arc A Re 0) = Rabs Re
    ∧ Hexalobular.distance q (Hexalobular.center_external_arc A Re 1) = Rabs Re
    ∧ (∀ k : Z,
         Hexalobular.rotate q (IZR (-60 * k))
         = Hexalobular.rotate p (IZR (-60 * (k + 1))))
    ∧ Hexalobular.rotate p (IZR (-60 * 6)) = p.
Proof.
  split; [reflexivity|].
  exists (Vector2 0 (A / 2)), (Vector2 (sqrt 3 * A / 4) (A / 4)).
  pose proof sqrt_3_sqr as Hs.
  split; [reflexivity|]. split; [reflexivity|].
  assert (Hexalobular.rotate (Vector2 0 (A / 2)) (-60)
          = Vector2 (sqrt 3 * A / 4) (A / 4)) as Hstep.
  { unfold Hexalobular.rotate, Vector2. cbn [vX vY vZ].
    rewrite radians_60, cos_neg, sin_neg, cos_PI3, sin_PI3. f_equal; field. }
  split; [|split; [|split]].
  - unfold Hexalobular.distance, Length. cbn.
    replace (_ + _ + _) with (Rsqr Re) by (unfold Rsqr; ring).
    apply sqrt_Rsqr_abs.
  - unfold Hexalobular.distance, Length. cbn.
    set (s := sqrt 3) in *.
    replace (_ + _ + _) with (Rsqr Re + (s * s - 3) * (Re * Re / 4))
      by (unfold Rsqr; field).
    rewrite Hs, Rminus_diag, Rmult_0_l, Rplus_0_r.
    apply sqrt_Rsqr_abs.
  - intros k. rewrite <- Hstep, rotate_rotate. f_equal.
    rewrite !mult_IZR, plus_IZR. ring.
  - unfold Hexalobular.rotate, Vector2. cbn [vX vY vZ].
    change (IZR (-60 * 6)) with (-360).
    rewrite radians_360, cos_neg, sin_neg, cos_2PI, sin_2PI. f_equal; ring.
Qed.

End HexalobularGeometry.

(** ** Dimension tables: what [isolate_fastener_type] keeps *)

Section DimensionTables.
Context `{External}.

Lemma dict_get_set {V} (d : dict V) (k : string) (v : V) (k' : string) :
  Dict.get (Dict.set d k v) k'
  = if decide (k = k') then Some v else Dict.get d k'.
Proof.
  induction d as [|[k0 v0] d IH]; cbn [Dict.set Dict.get]; [reflexivity|].
  destruct (decide (k0 = k)) as [->|Hne]; cbn [Dict.get].
  - destruct (decide (k = k')); reflexivity.
  - rewrite IH. repeat case_decide; congruence.
Qed.

Lemma dict_keys_set {V} (d : dict V) (k : string) (v : V) (k' : string) :
  k' ∈ Dict.keys (Dict.set d k v) ↔ k' = k ∨ k' ∈ Dict.keys d.
Proof.
  destruct (decide (k' ∈ Dict.keys (Dict.set d k v))) as [Hin|Hout].
  - split; [|done]. intros _.
    destruct (Dict.get (Dict.set d k v) k') as [x|] eqn:Hget.
    + rewrite dict_get_set in Hget. case_decide; [left; done|].
      right. eapply get_Some_keys, Hget.
    + apply get_None_keys in Hget. contradiction.
  - split; [done|]. intros Hor. exfalso. apply Hout.
    assert (is_Some (Dict.get (Dict.set d k v) k')) as [x Hx].
    { rewrite dict_get_set. case_decide; [eauto|].
      destruct Hor as [->|Hin]; [done|].
      destruct (Dict.get d k') eqn:Hget; [eauto|].
      apply get_None_keys in Hget. contradiction. }
    eapply get_Some_keys, Hx.
Qed.

Lemma isolate_columns_sound (target : string) (parameters : dict string) :
  ∀ acc dd,
    isolate_columns target parameters acc = Ok dd →
    ∀ dimension v,
      Dict.get dd dimension = Some v →
      Dict.get acc dimension = Some v
      ∨ ∃ td, (td, v) ∈ parameters ∧ column_of target dimension (td, v).
Proof.
  induction parameters as [|[td v0] rest IH]; intros acc dd; cbn [isolate_columns].
  - intros [= <-]. auto.
  - destruct (PyStr.split ":" (PyStr.strip td)) as [|f [|dimn [|]]] eqn:Hsp;
      try done.
    intros Hrec dimension v Hget.
    destruct (IH _ _ Hrec dimension v Hget) as [Hacc | (td' & Hin & Hcol)].
    + destruct (bool_decide (target = f) && negb (bool_decide (v0 = EmptyString)))
        eqn:Hc; [|left; exact Hacc].
      apply andb_true_iff in Hc as [Ht Hv].
      apply bool_decide_eq_true_1 in Ht. apply negb_true_iff in Hv.
      apply bool_decide_eq_false_1 in Hv.
      rewrite dict_get_set in Hacc. case_decide as Hd; [|left; exact Hacc].
      injection Hacc as <-. subst. right. exists td.
      split; [apply list_elem_of_here|]. split; [exact Hsp | exact Hv].
    + right. exists td'. split; [apply list_elem_of_further, Hin | exact Hcol].
Qed.

Lemma isolate_columns_complete (target : string) (parameters : dict string) :
  ∀ acc dd,
    isolate_columns target parameters acc = Ok dd →
    (∀ k, k ∈ Dict.keys acc → k ∈ Dict.keys dd)
    ∧ ∀ column dimension,
        column ∈ parameters → column_of target dimension column →
        dimension ∈ Dict.keys dd.
Proof.
  induction parameters as [|[td v0] rest IH]; intros acc dd; cbn [isolate_columns].
  - intros [= <-]. split; [done|]. intros ? ? Hin. by apply elem_of_nil in Hin.
  - destruct (PyStr.split ":" (PyStr.strip td)) as [|f [|dimn [|]]] eqn:Hsp;
      try done.
    intros Hrec. destruct (IH _ _ Hrec) as [Hkeep Hnew]. split.
    + intros k Hk. apply Hkeep.
      destruct (_ && _); [|exact Hk]. apply dict_keys_set. right. exact Hk.
    + intros column dimension Hin Hcol.
      apply elem_of_cons in Hin as [-> | Hin]; [|eapply Hnew; eassumption].
      destruct Hcol as [Hsp' Hv]. cbn [fst snd] in Hsp', Hv.
      rewrite Hsp in Hsp'. injection Hsp' as <- <-.
      apply Hkeep. rewrite bool_decide_eq_true_2 by done.
      rewrite bool_decide_eq_false_2 by exact Hv. cbn [andb negb].
      apply dict_keys_set. left. done.
Qed.

Lemma isolate_columns_returns (target : string) (parameters : dict string) :
  ∀ acc,
    returns (isolate_columns target parameters acc)
    ↔ Forall well_formed parameters.
Proof.
  induction parameters as [|[td v0] rest IH]; intros acc; cbn [isolate_columns].
  - split; [intros _; constructor | done].
  - rewrite Forall_cons. unfold well_formed at 1. cbn [fst].
    destruct (PyStr.split ":" (PyStr.strip td)) as [|f [|dimn [|]]] eqn:Hsp;
      cbn [List.length returns].
    + split; [done | intros [[=] _]].
    + split; [done | intros [[=] _]].
    + rewrite IH. split; [done | intros [_ Hf]; exact Hf].
    + split; [done | intros [[=] _]].
Qed.

Lemma isolate_columns_raises (target : string) (parameters : dict string) :
  ∀ acc e,
    isolate_columns target parameters acc = Raise e →
    e = ValueError (MsgExternal "wrong number of values to unpack").
Proof.
  induction parameters as [|[td v0] rest IH]; intros acc e; cbn [isolate_columns].
  - done.
  - destruct (PyStr.split ":" (PyStr.strip td)) as [|f [|dimn [|]]];
      try (intros [= <-]; reflexivity).
    apply IH.
Qed.

Lemma isolate_sizes_sound (target : string) (data : dict (dict string)) :
  ∀ acc table,
    isolate_sizes target data acc = Ok table →
    ∀ size dd,
      Dict.get table size = Some dd →
      Dict.get acc size = Some dd
      ∨ (dd ≠ []
         ∧ ∃ parameters,
             (size, parameters) ∈ data
             ∧ isolate_columns target parameters [] = Ok dd).
Proof.
  induction data as [|[size0 parameters] rest IH]; intros acc table;
    cbn [isolate_sizes].
  - intros [= <-]. auto.
  - destruct (isolate_columns target parameters []) as [dd0|] eqn:Hcols; [|done].
    cbn [mbind result_bind bind]. intros Hrec size dd Hget.
    destruct (IH _ _ Hrec size dd Hget) as [Hacc | (Hne & ps & Hin & Hps)].
    + destruct (0 <? List.length dd0)%nat eqn:Hlen; [|left; exact Hacc].
      rewrite dict_get_set in Hacc. case_decide as Hs; [|left; exact Hacc].
      injection Hacc as <-. subst. right. split.
      * intros ->. done.
      * exists parameters. split; [apply list_elem_of_here | exact Hcols].
    + right. split; [exact Hne|]. exists ps.
      split; [apply list_elem_of_further, Hin | exact Hps].
Qed.

Lemma isolate_sizes_complete (target : string) (data : dict (dict string)) :
  ∀ acc table,
    isolate_sizes target data acc = Ok table →
    (∀ k, k ∈ Dict.keys acc → k ∈ Dict.keys table)
    ∧ ∀ size parameters dd,
        (size, parameters) ∈ data →
        isolate_columns target parameters [] = Ok dd → dd ≠ [] →
        size ∈ Dict.keys table.
Proof.
  induction data as [|[size0 parameters] rest IH]; intros acc table;
    cbn [isolate_sizes].
  - intros [= <-]. split; [done|]. intros ? ? ? Hin. by apply elem_of_nil in Hin.
  - destruct (isolate_columns target parameters []) as [dd0|] eqn:Hcols; [|done].
    cbn [mbind result_bind bind]. intros Hrec.
    destruct (IH _ _ Hrec) as [Hkeep Hnew]. split.
    + intros k Hk. apply Hkeep.
      destruct (_ <? _)%nat; [|exact Hk]. apply dict_keys_set. right. exact Hk.
    + intros size ps dd Hin Hps Hne.
      apply elem_of_cons in Hin as [[= -> ->] | Hin]; [|eapply Hnew; eassumption].
      rewrite Hcols in Hps. injection Hps as ->.
      apply Hkeep. destruct dd as [|x dd]; [done|]. cbn [List.length Nat.ltb Nat.leb].
      apply dict_keys_set. left. done.
Qed.

Lemma isolate_sizes_returns (target : string) (data : dict (dict string)) :
  ∀ acc,
    returns (isolate_sizes target data acc)
    ↔ Forall (λ row, Forall well_formed row.2) data.
Proof.
  induction data as [|[size0 parameters] rest IH]; intros acc; cbn [isolate_sizes].
  - split; [intros _; constructor | done].
  - rewrite Forall_cons. cbn [snd].
    rewrite <- (isolate_columns_returns target parameters []).
    destruct (isolate_columns target parameters []) as [dd0|] eqn:Hcols;
      cbn [mbind result_bind bind returns].
    + rewrite IH. split; [done | intros [_ Hf]; exact Hf].
    + split; [done | intros [[] _]].
Qed.

Lemma isolate_sizes_raises (target : string) (data : dict (dict string)) :
  ∀ acc e,
    isolate_sizes target data acc = Raise e →
    e = ValueError (MsgExternal "wrong number of values to unpack").
Proof.
  induction data as [|[size0 parameters] rest IH]; intros acc e; cbn [isolate_sizes].
  - done.
  - destruct (isolate_columns target parameters []) as [dd0|] eqn:Hcols;
      cbn [mbind result_bind bind].
    + apply IH.
    + intros [= <-]. eapply isolate_columns_raises, Hcols.
Qed.

Lemma isolate_keys_sound (target : string)
    (data table : dict (dict string)) (size : string) :
  isolate_fastener_type target data = Ok table →
  size ∈ Dict.keys table →
  ∃ parameters column dimension,
    (size, parameters) ∈ data ∧ column ∈ parameters
    ∧ column_of target dimension column.
Proof.
  unfold isolate_fastener_type. intros Htable Hin.
  destruct (Dict.get table size) as [dd|] eqn:Hget.
  2:{ apply get_None_keys in Hget. contradiction. }
  destruct (isolate_sizes_sound _ _ _ _ Htable _ _ Hget)
    as [[=] | (Hne & ps & Hps & Hcols)].
  destruct dd as [|[dimension v] dd]; [done|].
  destruct (isolate_columns_sound _ _ _ _ Hcols dimension v)
    as [[=] | (td & Htd & Hcol)].
  { cbn [Dict.get]. rewrite decide_True by done. reflexivity. }
  exists ps, (td, v), dimension. done.
Qed.

(** X4. The sizes [isolate_fastener_type] keeps for a type, which are the
    sizes [sizes(fastener_type)] lists: a size is kept exactly when one of
    its rows has a column named [type:dimension] with a value that is not
    empty. *)
Theorem isolate_fastener_type_sizes (target : string)
    (data table : dict (dict string)) (size : string) :
  isolate_fastener_type target data = Ok table →
  size ∈ Dict.keys table
  ↔ ∃ parameters column dimension,
      (size, parameters) ∈ data ∧ column ∈ parameters
      ∧ column_of target dimension column.
Proof.
  intros Htable. split; [apply isolate_keys_sound, Htable|].
  unfold isolate_fastener_type in Htable.
  intros (ps & column & dimension & Hps & Hcol & Hof).
  assert (returns (isolate_columns target ps [])) as Hret.
  { apply isolate_columns_returns.
    assert (returns (isolate_sizes target data [])) as Hall
      by (rewrite Htable; done).
    apply isolate_sizes_returns in Hall. rewrite Forall_forall in Hall.
    apply (Hall _ Hps). }
  destruct (isolate_columns target ps []) as [dd|] eqn:Hcols; [|done].
  destruct (isolate_sizes_complete _ _ _ _ Htable) as [_ Hnew].
  apply (Hnew size ps dd Hps Hcols).
  destruct (isolate_columns_complete _ _ _ _ Hcols) as [_ Hdim].
  specialize (Hdim column dimension Hcol Hof). intros ->.
  by apply elem_of_nil in Hdim.
Qed.

(** X5. What [isolate_fastener_type] keeps for a size: a dimension set that
    is not empty, in which every entry is the value, not empty, of a column
    [type:dimension] of a row of that size. *)
Theorem isolate_fastener_type_dimensions (target : string)
    (data table : dict (dict string)) (size : string) (dd : dict string) :
  isolate_fastener_type target data = Ok table →
  Dict.get table size = Some dd →
  dd ≠ []
  ∧ ∃ parameters,
      (size, parameters) ∈ data
      ∧ ∀ dimension v,
          Dict.get dd dimension = Some v →
          v ≠ EmptyString
          ∧ ∃ td, (td, v) ∈ parameters
                  ∧ PyStr.split ":"%char (PyStr.strip td) = [target; dimension].
Proof.
  unfold isolate_fastener_type. intros Htable Hget.
  destruct (isolate_sizes_sound _ _ _ _ Htable _ _ Hget)
    as [[=] | (Hne & ps & Hps & Hcols)].
  split; [exact Hne|]. exists ps. split; [exact Hps|].
  intros dimension v Hv.
  destruct (isolate_columns_sound _ _ _ _ Hcols dimension v Hv)
    as [[=] | (td & Htd & Hsp & Hval)].
  split; [exact Hval|]. exists td. done.
Qed.

(** X6. [isolate_fastener_type] returns exactly when every column name of
    every row splits at [":"] into two parts, whatever the type asked for;
    otherwise it raises the [ValueError] of the failed unpacking.  One
    malformed column name thus fails the lookup of every type of the
    table. *)
Theorem isolate_fastener_type_returns (target : string)
    (data : dict (dict string)) :
  (returns (isolate_fastener_type target data)
   ↔ Forall (λ row, Forall well_formed row.2) data)
  ∧ (∀ e, isolate_fastener_type target data = Raise e →
          e = ValueError (MsgExternal "wrong number of values to unpack"))
  ∧ (∀ other,
       returns (isolate_fastener_type target data)
       ↔ returns (isolate_fastener_type other data)).
Proof.
  unfold isolate_fastener_type. split; [|split].
  - apply isolate_sizes_returns.
  - apply isolate_sizes_raises.
  - intros other. rewrite !isolate_sizes_returns. done.
Qed.

Lemma evaluate_parameter_dict_get (parameters : dict string) (is_metric : bool)
    (d : dict value) :
  evaluate_parameter_dict parameters is_metric = Ok d →
  Dict.keys d = Dict.keys parameters
  ∧ ∀ k x,
      Dict.get d k = Some x →
      ∃ raw, Dict.get parameters k = Some raw
             ∧ (if is_metric then metric_str_to_float raw
                else imperial_str_to_float raw) = Ok x.
Proof.
  revert d. induction parameters as [|[k0 raw0] rest IH]; intros d;
    cbn [evaluate_parameter_dict].
  - intros [= <-]. split; [done|]. intros k x [=].
  - destruct (if is_metric then _ else _) as [x0|] eqn:Hconv; [|done].
    cbn [mbind result_bind bind].
    destruct (evaluate_parameter_dict rest is_metric) as [d'|]; [|done].
    cbn [mbind result_bind bind]. intros [= <-].
    destruct (IH d' eq_refl) as [Hkeys Hvals]. split.
    + unfold Dict.keys in *. cbn [fmap list_fmap fst]. f_equal. exact Hkeys.
    + intros k x. cbn [Dict.get]. case_decide.
      * intros [= <-]. exists raw0. done.
      * apply Hvals.
Qed.

(** X7. Where the dimensions of a fastener come from: every entry of the
    dimension set found for a size and a type is the converted value of a
    column [type:dimension], not empty, of a row of that size in the table
    of the class; metric values are converted by [metric_str_to_float],
    imperial ones by [imperial_str_to_float]. *)
Theorem dimension_set_sound (c : fastener_class) (size fastener_type : string)
    (is_metric : bool) (data : dict value) (dimension : string) (x : value) :
  dimension_set c size fastener_type is_metric = Ok data →
  Dict.get data dimension = Some x →
  ∃ parameters td raw,
    (size, parameters) ∈ fastener_data c
    ∧ (td, raw) ∈ parameters
    ∧ PyStr.split ":"%char (PyStr.strip td) = [fastener_type; dimension]
    ∧ raw ≠ EmptyString
    ∧ (if is_metric then metric_str_to_float raw
       else imperial_str_to_float raw) = Ok x.
Proof.
  unfold dimension_set. intros Hdata Hx.
  destruct (isolate_fastener_type fastener_type (fastener_data c))
    as [table|e] eqn:Htable.
  2:{ pose proof (isolate_sizes_raises _ _ _ _ Htable) as ->. done. }
  cbn [mbind result_bind bind] in Hdata. unfold Dict.item in Hdata.
  destruct (Dict.get table size) as [row|] eqn:Hrow.
  2:{ cbn [mbind result_bind bind except_KeyError_do] in Hdata.
      unfold sizes in Hdata. rewrite Htable in Hdata. done. }
  cbn [mbind result_bind bind] in Hdata.
  destruct (evaluate_parameter_dict row is_metric) as [d|[]] eqn:Hd;
    cbn [except_KeyError_do] in Hdata; try done.
  2:{ unfold sizes in Hdata. rewrite Htable in Hdata. done. }
  injection Hdata as ->.
  destruct (evaluate_parameter_dict_get _ _ _ Hd) as [_ Hvals].
  destruct (Hvals _ _ Hx) as (raw & Hraw & Hconv).
  destruct (isolate_sizes_sound _ _ _ _ Htable _ _ Hrow)
    as [[=] | (_ & ps & Hps & Hcols)].
  destruct (isolate_columns_sound _ _ _ _ Hcols _ _ Hraw)
    as [[=] | (td & Htd & Hsp & Hne)].
  exists ps, td, raw. done.
Qed.

(** X8. A size the type does not list is refused: when the table of the
    class is well formed and no row of [size] has a non-empty column of the
    type, the dimension lookup of the constructors raises the invalid-size
    [ValueError], whose message lists the sizes of the type. *)
Theorem dimension_set_unknown_size (c : fastener_class)
    (size fastener_type : string) (is_metric : bool)
    (table : dict (dict string)) :
  isolate_fastener_type fastener_type (fastener_data c) = Ok table →
  (∀ parameters column dimension,
     (size, parameters) ∈ fastener_data c → column ∈ parameters →
     ¬ column_of fastener_type dimension column) →
  sizes c fastener_type = Ok (Dict.keys table)
  ∧ (size ∉ Dict.keys table)
  ∧ dimension_set c size fastener_type is_metric
    = Raise (ValueError (MsgInvalidSize size (Dict.keys table))).
Proof.
  intros Htable Hnone.
  assert (size ∉ Dict.keys table) as Hout.
  { intros Hin.
    apply (isolate_keys_sound _ _ _ size Htable) in Hin
      as (ps & column & dimension & Hps & Hcol & Hof).
    exact (Hnone ps column dimension Hps Hcol Hof). }
  split; [|split; [exact Hout|]].
  - unfold sizes. rewrite Htable. reflexivity.
  - unfold dimension_set, sizes. rewrite Htable.
    cbn [mbind result_bind bind fmap result_fmap]. unfold Dict.item.
    apply get_None_keys in Hout. rewrite Hout. reflexivity.
Qed.

End DimensionTables.

(** ** What a constructed fastener satisfies *)

Section Constructed.
Context `{External}.

Lemma valid_hand_inv (hand : option string) (hd : string) :
  valid_hand hand = Some hd →
  hand = Some hd ∧ (hd = "left"%string ∨ hd = "right"%string).
Proof.
  unfold valid_hand. destruct hand as [h|]; [|done].
  case_bool_decide as Hin; [|done]. intros [= <-]. split; [done|].
  apply elem_of_cons in Hin as [->|Hin]; [left; done|].
  apply elem_of_cons in Hin as [->|Hin]; [right; done|].
  by apply elem_of_nil in Hin.
Qed.

Lemma dimension_set_Ok (c : fastener_class) (size fastener_type : string)
    (is_metric : bool) (data : dict value) :
  dimension_set c size fastener_type is_metric = Ok data →
  ∃ table row,
    isolate_fastener_type fastener_type (fastener_data c) = Ok table
    ∧ Dict.get table size = Some row
    ∧ evaluate_parameter_dict row is_metric = Ok data.
Proof.
  unfold dimension_set, sizes.
  destruct (isolate_fastener_type fastener_type (fastener_data c))
    as [table|e] eqn:Htable.
  2:{ pose proof (isolate_sizes_raises _ _ _ _ Htable) as ->. done. }
  cbn [mbind result_bind bind fmap result_fmap]. unfold Dict.item.
  destruct (Dict.get table size) as [row|] eqn:Hrow; [|done].
  cbn [mbind result_bind bind].
  destruct (evaluate_parameter_dict row is_metric) as [d|[]] eqn:Hd;
    cbn [except_KeyError_do]; try done.
  intros [= <-]. eauto.
Qed.

Lemma dimension_set_size (c : fastener_class) (size fastener_type : string)
    (is_metric : bool) (data : dict value) :
  dimension_set c size fastener_type is_metric = Ok data →
  ∃ ss, sizes c fastener_type = Ok ss ∧ size ∈ ss.
Proof.
  intros (table & row & Htable & Hrow & _)%dimension_set_Ok.
  exists (Dict.keys table). unfold sizes. rewrite Htable.
  split; [reflexivity|]. eapply get_Some_keys, Hrow.
Qed.

Lemma make_head_None (c : screw_class) (data : dict value) (head : option shape) :
  make_head c data = Ok head → head = None ↔ c = SetScrew.
Proof.
  destruct c; cbn [make_head]; try (intros [= <-]; done);
    destruct (build_head _ _); cbn [fmap result_fmap]; intros [= <-]; done.
Qed.

Lemma Screw__init___basic (c : screw_class) (size : string) (length : R)
    (fastener_type : string) (hand : option string) (simple : bool)
    (socket_clearance : R) (s : Screw) :
  Screw__init__ c size length fastener_type hand simple socket_clearance = Ok s →
  s_class s = c ∧ s_length s = length
  ∧ ∃ offset,
      screw_length_offset c (s_screw_data s) = Ok (VFloat offset)
      ∧ s_thread_length s = length - offset
      ∧ 0 < s_thread_length s.
Proof.
  intros Hs.
  destruct (Screw__init___Ok _ _ _ _ _ _ _ _ Hs) as (hd & m & d & p & Hdim).
  destruct (Screw_dimensioned_Ok _ _ _ _ _ _ _ _ _ _ _ Hdim)
    as (offset & Hoff & Hlt & Hlen & Htl).
  assert (s_class s = c) as Hc.
  { revert Hdim. unfold Screw_dimensioned.
    destruct (dimension_set _ _ _ _) as [data|]; [|done].
    cbn [mbind result_bind bind].
    destruct (screw_length_offset c data) as [[o|?]|]; [|done..].
    cbn [mbind result_bind bind as_float]. case_bool_decide; [done|].
    destruct (make_head c data) as [[hd'|]|]; [| |done];
      cbn [mbind result_bind bind].
    - destruct (as_float d); [|done]. cbn [mbind result_bind bind].
      intros [= <-]. reflexivity.
    - intros [= <-]. reflexivity. }
  split; [exact Hc|]. split; [exact Hlen|]. exists offset.
  split; [exact Hoff|]. split; [exact Htl|]. rewrite Htl. lra.
Qed.

(** X9. A [Screw] that was constructed: it carries the arguments it was
    given; its hand is ["left"] or ["right"]; its type is one of the types of
    its class and its size one of the sizes of that type; its dimensions
    are the dimension set of that size and type; its thread length is the
    length less the length offset and is strictly positive.  The
    constructor sets the attributes [_cq_object] and [_head] to a solid and
    a head unless the screw is a [SetScrew], for which it sets both to
    [None].  The property [cq_object] gives a solid in either case: the one
    the constructor stored, and for a [SetScrew] the one [make_setscrew]
    builds on each access. *)
Theorem screw_constructed (c : screw_class) (size : string) (length : R)
    (fastener_type : string) (hand : option string) (simple : bool)
    (socket_clearance : R) (s : Screw) :
  Screw__init__ c size length fastener_type hand simple socket_clearance = Ok s →
  (s_class s = c ∧ s_size s = size ∧ s_length s = length
   ∧ s_fastener_type s = fastener_type ∧ s_simple s = simple
   ∧ s_socket_clearance s = socket_clearance)
  ∧ (hand = Some (s_hand s)
     ∧ (s_hand s = "left"%string ∨ s_hand s = "right"%string))
  ∧ (s_is_metric s = true ↔ PyStr.first size = Ok "M"%char)
  ∧ (∃ known, types (ScrewClass c) = Ok known ∧ fastener_type ∈ known)
  ∧ (∃ ss, sizes (ScrewClass c) fastener_type = Ok ss ∧ size ∈ ss)
  ∧ dimension_set (ScrewClass c) size fastener_type (s_is_metric s)
    = Ok (s_screw_data s)
  ∧ (∃ offset,
       screw_length_offset c (s_screw_data s) = Ok (VFloat offset)
       ∧ s_thread_length s = length - offset
       ∧ s_max_thread_length s = length - offset
       ∧ 0 < s_thread_length s)
  ∧ (s__cq_object s = None ↔ c = SetScrew)
  ∧ (s__head s = None ↔ c = SetScrew)
  ∧ (c ≠ SetScrew →
     ∃ solid, s__cq_object s = Some solid
              ∧ cq_object (OScrew s) = Ok (Some solid))
  ∧ (c = SetScrew →
     cq_object (OScrew s)
     = Some <$> make_setscrew (s_screw_data s) (s_thread_diameter s)
                  (s_thread_pitch s) length (s_hand s)).
Proof.
  unfold Screw__init__.
  destruct (negb _); [done|].
  destruct (PyStr.first size) as [c0|] eqn:Hfirst; [|done].
  cbn [mbind result_bind bind].
  destruct (thread_of_size _ _ _) as [[d p]|]; [|done].
  cbn [mbind result_bind bind].
  destruct (types _) as [known|] eqn:Hknown; [|done].
  cbn [mbind result_bind bind].
  case_bool_decide as Hty; [|done]. cbn [negb].
  destruct (valid_hand hand) as [hd|] eqn:Hhand; [|done].
  apply valid_hand_inv in Hhand as [-> Hhd].
  unfold Screw_dimensioned.
  destruct (dimension_set _ _ _ _) as [data|] eqn:Hdata; [|done].
  cbn [mbind result_bind bind].
  destruct (screw_length_offset c data) as [[offset|?]|] eqn:Hoff; [|done..].
  cbn [mbind result_bind bind as_float].
  case_bool_decide as Hge; [done|].
  destruct (make_head c data) as [hd'|] eqn:Hhead; [|done].
  pose proof (make_head_None _ _ _ Hhead) as Hnone.
  cbn [mbind result_bind bind].
  assert (Ascii.eqb c0 "M" = true ↔ Ok c0 = Ok "M"%char :> result Ascii.ascii)
    as Hc0.
  { rewrite Ascii.eqb_eq. split; [intros ->; done | intros [= ->]; done]. }
  assert (∃ offset0,
            screw_length_offset c data = Ok (VFloat offset0)
            ∧ length - offset = length - offset0
            ∧ length - offset = length - offset0 ∧ 0 < length - offset) as Hlen.
  { exists offset. split_and!; [done..|lra]. }
  destruct hd' as [hd'|].
  - destruct (as_float d); [|done]. cbn [mbind result_bind bind].
    intros [= <-]. unfold cq_object.
    cbn [s_class s_size s_length s_fastener_type s_simple s_socket_clearance
         s_hand s_is_metric s_screw_data s_thread_length s_max_thread_length
         s_thread_diameter s_thread_pitch s__cq_object s__head].
    assert (c ≠ SetScrew) as Hset by (intros Hc; apply Hnone in Hc; done).
    split_and!; try done; try (by eauto using dimension_set_size);
      try exact Hc0; try (by eauto).
    intros _. eexists. split; [reflexivity|]. by destruct c.
  - intros [= <-]. unfold cq_object.
    cbn [s_class s_size s_length s_fastener_type s_simple s_socket_clearance
         s_hand s_is_metric s_screw_data s_thread_length s_max_thread_length
         s_thread_diameter s_thread_pitch s__cq_object s__head].
    assert (c = SetScrew) as Hset by (apply Hnone; done).
    split_and!; try done; try (by eauto using dimension_set_size);
      try exact Hc0; try (by eauto).
    intros _. rewrite Hset. reflexivity.
Qed.

(** X10. A [Nut] that was constructed: it carries the arguments it was
    given; its hand is ["left"] or ["right"]; its type is one of the types of
    its class and its size one of the sizes of that type; its socket
    clearance is 6 mm; and its solid is the one [make_nut] builds from the
    dimension set of that size and type. *)
Theorem nut_constructed (c : nut_class) (size fastener_type : string)
    (hand : option string) (simple : bool) (n : Nut) :
  Nut__init__ c size fastener_type hand simple = Ok n →
  (n_class n = c ∧ n_size n = size ∧ n_fastener_type n = fastener_type
   ∧ n_simple n = simple ∧ n_socket_clearance n = 6)
  ∧ (hand = Some (n_hand n)
     ∧ (n_hand n = "left"%string ∨ n_hand n = "right"%string))
  ∧ List.length (PyStr.split "-"%char (PyStr.strip size)) = 2%nat
  ∧ (∃ known, types (NutClass c) = Ok known ∧ fastener_type ∈ known)
  ∧ (∃ ss, sizes (NutClass c) fastener_type = Ok ss ∧ size ∈ ss)
  ∧ dimension_set (NutClass c) size fastener_type (n_is_metric n)
    = Ok (n_nut_data n)
  ∧ make_nut (class_name (NutClass c)) (n_nut_data n) (n_thread_diameter n)
      (n_thread_pitch n) (n_hand n) simple
    = Ok (n__cq_object n).
Proof.
  unfold Nut__init__.
  destruct (negb _) eqn:Hfmt; [done|].
  apply negb_false_iff, Nat.eqb_eq in Hfmt.
  destruct (PyStr.first size) as [c0|] eqn:Hfirst; [|done].
  cbn [mbind result_bind bind].
  destruct (thread_of_size _ _ _) as [[d p]|]; [|done].
  cbn [mbind result_bind bind].
  destruct (types _) as [known|] eqn:Hknown; [|done].
  cbn [mbind result_bind bind].
  case_bool_decide as Hty; [|done]. cbn [negb].
  destruct (valid_hand hand) as [hd|] eqn:Hhand; [|done].
  apply valid_hand_inv in Hhand as [-> Hhd].
  unfold Nut_dimensioned.
  destruct (dimension_set _ _ _ _) as [data|] eqn:Hdata; [|done].
  cbn [mbind result_bind bind].
  destruct (make_nut _ _ _ _ _ _) as [obj|] eqn:Hobj; [|done].
  cbn [mbind result_bind bind]. intros [= <-]. cbn.
  split_and!; try done; try (by eauto using dimension_set_size);
    try (by eauto).
  unfold MM. lra.
Qed.

(** X11. A [Washer] that was constructed: its type is one of the types of
    its class and its size one of the sizes of that type; its dimension set
    holds the numbers ["d1"], ["d2"] and ["h"]; and its solid is its profile,
    revolved. *)
Theorem washer_constructed (c : washer_class) (size fastener_type : string)
    (w : Washer) :
  Washer__init__ c size fastener_type = Ok w →
  (w_class w = c ∧ w_size w = size ∧ w_fastener_type w = fastener_type)
  ∧ (∃ known, types (WasherClass c) = Ok known ∧ fastener_type ∈ known)
  ∧ (∃ ss, sizes (WasherClass c) fastener_type = Ok ss ∧ size ∈ ss)
  ∧ dimension_set (WasherClass c) size fastener_type (w_is_metric w)
    = Ok (w_washer_data w)
  ∧ ∃ d1 d2 h profile,
      get3 (w_washer_data w) "d1" "d2" "h" = Ok (d1, d2, h)
      ∧ washer_profile c (w_washer_data w) = Ok profile
      ∧ w__cq_object w = cq_revolve profile.
Proof.
  unfold Washer__init__.
  destruct (PyStr.first size) as [c0|] eqn:Hfirst; [|done].
  cbn [mbind result_bind bind].
  destruct (if Ascii.eqb c0 "M" then _ else _) as [d|]; [|done].
  cbn [mbind result_bind bind].
  destruct (types _) as [known|] eqn:Hknown; [|done].
  cbn [mbind result_bind bind].
  case_bool_decide as Hty; [|done]. cbn [negb].
  destruct (dimension_set _ _ _ _) as [data|] eqn:Hdata; [|done].
  cbn [mbind result_bind bind]. unfold make_washer.
  destruct (washer_profile c data) as [profile|] eqn:Hprofile; [|done].
  cbn [mbind result_bind bind fmap result_fmap]. intros [= <-].
  cbn [w_class w_size w_fastener_type w_is_metric w_washer_data w__cq_object].
  split_and!; try done; try (by eauto using dimension_set_size);
    try (by eauto).
  pose proof Hprofile as Hget. unfold washer_profile in Hget.
  destruct (get3 data "d1" "d2" "h") as [[[d1 d2] h]|]; [|done].
  exists d1, d2, h, profile. done.
Qed.

(** X12. An imperial size written with a number sign whose gauge is not in
    the table of numbered sizes: [decode_imperial_size] raises [KeyError],
    and so do the [Screw] and [Nut] constructors once the size has passed
    the format check; the error is not turned into a [ValueError]. *)
Theorem numbered_size_unknown (size gauge : string) (rest : list string) :
  PyStr.first size = Ok "#"%char →
  PyStr.split "-"%char size = gauge :: rest →
  Dict.get imperial_numbered_sizes gauge = None →
  decode_imperial_size size = Raise (KeyError (Some gauge))
  ∧ (List.length (PyStr.split "-"%char (PyStr.strip size)) = 2%nat →
     (∀ c length fastener_type hand simple clearance,
        Screw__init__ c size length fastener_type hand simple clearance
        = Raise (KeyError (Some gauge)))
     ∧ (∀ c fastener_type hand simple,
          Nut__init__ c size fastener_type hand simple
          = Raise (KeyError (Some gauge)))).
Proof.
  intros Hfirst Hsplit Hgauge.
  assert (decode_imperial_size size = Raise (KeyError (Some gauge))) as Hdec.
  { unfold decode_imperial_size. rewrite Hfirst, Hsplit.
    cbn [mbind result_bind bind Ascii.eqb Bool.eqb PyStr.index lookup list_lookup].
    unfold Dict.item. rewrite Hgauge. reflexivity. }
  split; [exact Hdec|]. intros Hlen.
  split; intros; unfold Screw__init__, Nut__init__; rewrite Hlen, Hfirst;
    cbn [Nat.eqb negb mbind result_bind bind Ascii.eqb Bool.eqb thread_of_size];
    rewrite Hdec; reflexivity.
Qed.

End Constructed.

(** ** Methods of a constructed screw *)

Section ScrewMethods.
Context `{External}.

(** X13. [min_hole_depth] on a constructed screw.  A [SetScrew] has no
    countersink profile, and the method raises [AttributeError] whatever
    [counter_sunk] is.  For a screw with a profile, the depth without
    countersink is the thread length, which is strictly positive, and the
    depth with countersink adds the height of the profile. *)
Theorem min_hole_depth_constructed (c : screw_class) (size : string)
    (length : R) (fastener_type : string) (hand : option string)
    (simple : bool) (socket_clearance : R) (s : Screw) :
  Screw__init__ c size length fastener_type hand simple socket_clearance = Ok s →
  (c = SetScrew →
   ∀ counter_sunk,
     MoreMethods.min_hole_depth s counter_sunk = Raise (AttributeError "vertices"))
  ∧ (∀ profile,
       screw_countersink_profile s (Some "Loose"%string) = Ok (Some profile) →
       MoreMethods.min_hole_depth s false = Ok (s_thread_length s)
       ∧ 0 < s_thread_length s
       ∧ MoreMethods.min_hole_depth s true
         = Ok (s_thread_length s + top_Z profile)).
Proof.
  intros Hs. apply Screw__init___basic in Hs
    as (Hc & Hlen & offset & Hoff & Htl & Hpos).
  split.
  - intros -> counter_sunk. unfold MoreMethods.min_hole_depth,
      screw_countersink_profile. rewrite Hc. reflexivity.
  - intros profile Hprofile. unfold MoreMethods.min_hole_depth.
    rewrite Hprofile, Hc, Hoff, Hlen, Htl.
    cbn [mbind result_bind bind as_float]. split_and!; [done | lra |].
    f_equal. ring.
Qed.

Lemma lengths_in_range_filter (lo hi : R) (sizes : list R) :
  MoreMethods.lengths_in_range (VFloat lo) (VFloat hi) sizes
  = Ok (filter (λ x, lo <= x ∧ x <= hi) sizes).
Proof.
  induction sizes as [|x sizes IH]; [reflexivity|].
  cbn [MoreMethods.lengths_in_range mbind result_bind bind as_float].
  rewrite IH. cbn [mbind result_bind bind]. rewrite filter_cons.
  case_bool_decide as Hlo; cbn [mbind result_bind bind].
  - case_bool_decide as Hhi.
    + rewrite decide_True by done. reflexivity.
    + rewrite decide_False by (intros [_ ?]; done). reflexivity.
  - rewrite decide_False by (intros [? _]; done). reflexivity.
Qed.

(** X14. [nominal_lengths]: when the dimension set has the numbers
    ["short"] and ["long"] and the type has a list of nominal lengths, the
    result is that list restricted to [short <= length <= long], in the
    order of the list; when ["short"] or ["long"] is missing, or the type has
    no list, the result is [None] and nothing is raised. *)
Theorem nominal_lengths_spec (nominal_length_range : dict (list R)) (s : Screw) :
  (∀ lo hi sizes,
     Dict.get (s_screw_data s) "short" = Some (VFloat lo) →
     Dict.get (s_screw_data s) "long" = Some (VFloat hi) →
     Dict.get nominal_length_range (s_fastener_type s) = Some sizes →
     ∃ lengths,
       MoreMethods.nominal_lengths nominal_length_range s = Ok (Some lengths)
       ∧ lengths = filter (λ x, lo <= x ∧ x <= hi) sizes
       ∧ lengths `sublist_of` sizes
       ∧ ∀ x, x ∈ lengths ↔ x ∈ sizes ∧ lo <= x ∧ x <= hi)
  ∧ (Dict.get (s_screw_data s) "short" = None
     ∨ Dict.get (s_screw_data s) "long" = None
     ∨ Dict.get nominal_length_range (s_fastener_type s) = None →
     MoreMethods.nominal_lengths nominal_length_range s = Ok None).
Proof.
  split.
  - intros lo hi sizes Hlo Hhi Hsizes. eexists. split; [|split; [reflexivity|]].
    + unfold MoreMethods.nominal_lengths. rewrite Hlo, Hhi, Hsizes.
      rewrite lengths_in_range_filter. reflexivity.
    + split; [apply sublist_filter|]. intros x.
      rewrite list_elem_of_filter. tauto.
  - unfold MoreMethods.nominal_lengths.
    intros [-> | [-> | ->]]; [reflexivity | | ].
    + destruct (Dict.get _ "short"); reflexivity.
    + destruct (Dict.get _ "short"); [|reflexivity].
      destruct (Dict.get _ "long"); reflexivity.
Qed.

End ScrewMethods.

(** ** The recess of a screw head *)

Section HeadRecess.
Context `{External}.

Lemma items_missing (d : dict value) (ps : list string) (p : string) :
  p ∈ ps → Dict.get d p = None → ∃ k, Dict.items d ps = Raise (KeyError k).
Proof.
  induction ps as [|q ps IH]; [by intros ?%elem_of_nil|].
  intros Hin Hp. cbn [Dict.items]. unfold Dict.item at 1.
  destruct (Dict.get d q) as [v|] eqn:Hq; cbn [mbind result_bind bind];
    [|eauto].
  apply elem_of_cons in Hin as [-> | Hin]; [congruence|].
  destruct (IH Hin Hp) as [k ->]. eauto.
Qed.

Lemma slot_step_missing (d : dict value) :
  Dict.get d "t" = None → MoreMethods.try_recess None (MoreMethods.slot_step d) = Ok None.
Proof.
  intros Ht. unfold MoreMethods.slot_step.
  destruct (items_missing d ["dk"; "n"; "t"]%string "t") as [k ->];
    [set_solver | exact Ht | reflexivity].
Qed.

Lemma hex_step_missing (d : dict value) (st : MoreMethods.recess_state) :
  Dict.get d "t" = None → MoreMethods.try_recess st (MoreMethods.hex_step d) = Ok st.
Proof.
  intros Ht. unfold MoreMethods.hex_step.
  destruct (items_missing d ["s"; "t"]%string "t") as [k ->];
    [set_solver | exact Ht | reflexivity].
Qed.

Lemma hex_step_found (d : dict value) (s : R) (t : value)
    (st : MoreMethods.recess_state) :
  Dict.get d "s" = Some (VFloat s) → Dict.get d "t" = Some t →
  MoreMethods.try_recess st (MoreMethods.hex_step d)
  = Ok (Some (hex_recess s, t, 0)).
Proof.
  intros Hs Ht. unfold MoreMethods.hex_step. cbn [Dict.items].
  unfold Dict.item. rewrite Hs, Ht. reflexivity.
Qed.

Lemma coded_step_missing (d : dict value) (st : MoreMethods.recess_state) :
  Dict.get d "recess" = None →
  MoreMethods.try_recess st (MoreMethods.coded_step d st) = Ok st.
Proof.
  intros Hr. unfold MoreMethods.coded_step, Dict.item. rewrite Hr. reflexivity.
Qed.

(** X15. [default_head_recess] without usable data.  A dimension set with
    neither a depth ["t"] nor a ["recess"] code gives the missing-data
    [ValueError], whatever else it holds; so does one without ["t"] whose
    ["recess"] code starts with none of [PH], [T] and [R]. *)
Theorem default_head_recess_missing (screw_data : dict value) :
  Dict.get screw_data "t" = None →
  (Dict.get screw_data "recess" = None →
   MoreMethods.default_head_recess screw_data
   = Raise (ValueError (MsgRecessDataMissing screw_data)))
  ∧ (∀ recess,
       Dict.get screw_data "recess" = Some recess →
       let code := PyText.upper (MoreMethods.py_str recess) in
       PyText.startswith code "PH" = false →
       PyText.startswith code "T" = false →
       PyText.startswith code "R" = false →
       MoreMethods.default_head_recess screw_data
       = Raise (ValueError (MsgRecessDataMissing screw_data))).
Proof.
  intros Ht. unfold MoreMethods.default_head_recess.
  rewrite (slot_step_missing _ Ht). cbn [mbind result_bind bind].
  rewrite (hex_step_missing _ _ Ht). cbn [mbind result_bind bind]. split.
  - intros Hr. rewrite (coded_step_missing _ _ Hr). reflexivity.
  - intros recess Hr Hph Htx Hrb. unfold MoreMethods.coded_step, Dict.item.
    rewrite Hr. cbn [mbind result_bind bind].
    rewrite Hph, Htx, Hrb. reflexivity.
Qed.

(** X16. The order of preference of [default_head_recess], once the slot
    step has returned or found no data.  Hexagon data (["s"] and ["t"])
    win over slot data when there is no ["recess"] code.  A ["recess"] code
    that starts with [PH] wins over both: a valid Phillips size gives the
    cross recess with a taper of 30 degrees, and an invalid one raises the
    invalid-cross [ValueError] even though hexagon data are present. *)
Theorem default_head_recess_preference (screw_data : dict value) (s : R)
    (t : value) :
  returns (MoreMethods.try_recess None (MoreMethods.slot_step screw_data)) →
  Dict.get screw_data "s" = Some (VFloat s) →
  Dict.get screw_data "t" = Some t →
  (Dict.get screw_data "recess" = None →
   MoreMethods.default_head_recess screw_data
   = Ok (MoreMethods.RecessFound (hex_recess s) t 0))
  ∧ (∀ recess,
       Dict.get screw_data "recess" = Some recess →
       let code := PyText.upper (MoreMethods.py_str recess) in
       PyText.startswith code "PH" = true →
       (∀ recess_plan recess_depth,
          cross_recess code = Ok (recess_plan, recess_depth) →
          MoreMethods.default_head_recess screw_data
          = Ok (MoreMethods.RecessFound recess_plan (VFloat recess_depth) 30))
       ∧ (Dict.get widths code = None →
          MoreMethods.default_head_recess screw_data
          = Raise (ValueError (MsgInvalidCross code widths)))).
Proof.
  intros Hslot Hs Ht. unfold MoreMethods.default_head_recess.
  destruct (MoreMethods.try_recess None (MoreMethods.slot_step screw_data))
    as [st|]; [|done].
  cbn [mbind result_bind bind]. rewrite (hex_step_found _ _ _ _ Hs Ht).
  cbn [mbind result_bind bind]. split.
  - intros Hr. rewrite (coded_step_missing _ _ Hr). reflexivity.
  - intros recess Hr Hph. unfold MoreMethods.coded_step, Dict.item.
    rewrite Hr. cbn [mbind result_bind bind]. rewrite Hph. split.
    + intros plan depth ->. reflexivity.
    + intros Hw. unfold cross_recess, Dict.item. rewrite Hw. reflexivity.
Qed.

Lemma upper_char_idemp (c : Ascii.ascii) :
  PyText.upper_char (PyText.upper_char c) = PyText.upper_char c.
Proof. destruct c as [[] [] [] [] [] [] [] []]; reflexivity. Qed.

Lemma upper_idemp (s : string) : PyText.upper (PyText.upper s) = PyText.upper s.
Proof.
  induction s as [|c s IH]; [reflexivity|].
  cbn [PyText.upper]. rewrite upper_char_idemp, IH. reflexivity.
Qed.

(** X17. Recess codes are read without regard to case: writing the code of
    a dimension set in upper case changes nothing in the recess step. *)
Theorem recess_code_case (screw_data : dict value) (recess : string)
    (st : MoreMethods.recess_state) :
  MoreMethods.coded_step (Dict.set screw_data "recess" (VStr recess)) st
  = MoreMethods.coded_step
      (Dict.set screw_data "recess" (VStr (PyText.upper recess))) st.
Proof.
  unfold MoreMethods.coded_step, Dict.item. rewrite !dict_get_set.
  rewrite !decide_True by done. cbn [mbind result_bind bind MoreMethods.py_str].
  rewrite upper_idemp. reflexivity.
Qed.

End HeadRecess.

(** ** Profiles and the cutters that make room for them *)

Section Profiles.
Context `{External}.

Lemma get3_inv (d : dict value) (a b c : string) (x y z : R) :
  get3 d a b c = Ok (x, y, z) →
  Dict.get d a = Some (VFloat x) ∧ Dict.get d b = Some (VFloat y)
  ∧ Dict.get d c = Some (VFloat z).
Proof.
  unfold get3. cbn [Dict.items]. unfold Dict.item.
  destruct (Dict.get d a) as [[x1|?]|]; destruct (Dict.get d b) as [[x2|?]|];
    destruct (Dict.get d c) as [[x3|?]|];
    cbn [mbind result_bind bind as_float]; try done.
  intros [= -> -> ->]. done.
Qed.

Lemma get2_intro (d : dict value) (a b : string) (x y : R) :
  Dict.get d a = Some (VFloat x) → Dict.get d b = Some (VFloat y) →
  get2 d a b = Ok (x, y).
Proof.
  intros Ha Hb. unfold get2. cbn [Dict.items]. unfold Dict.item.
  rewrite Ha, Hb. reflexivity.
Qed.

Lemma radians_below (a : R) : radians (- 90 - a / 2) = - (PI / 2 + radians (a / 2)).
Proof. unfold radians. field. Qed.

Lemma cos_quarter_plus (x : R) : cos (PI / 2 + x) = - sin x.
Proof. rewrite (sin_cos x). ring. Qed.

Lemma sin_quarter_plus (x : R) : sin (PI / 2 + x) = cos x.
Proof. symmetry. apply cos_sin. Qed.

(** X18. The countersink profile of the two countersunk screw classes: the
    slanted edge, drawn from the rim of the head [(dk/2, k)] at the head
    angle [a], ends on the base plane, at radius [dk/2 - k tan(a/2)]; and the
    profile stays between the base plane and the head height [k]. *)
Theorem countersunk_profile_closes (s : Screw) (fit : option string)
    (a dk k : R) :
  s_class s = CounterSunkScrew ∨ s_class s = RaisedCounterSunkOvalHeadScrew →
  get3 (s_screw_data s) "a" "dk" "k" = Ok (a, dk, k) →
  cos (radians (a / 2)) ≠ 0 →
  ∃ steps,
    screw_countersink_profile s fit = Ok (Some (cq_Workplane "XZ" steps))
    ∧ last (chain_vertices steps)
      = Some (Vector2 (dk / 2 - k * tan (radians (a / 2))) 0)
    ∧ (0 <= k → Forall (λ v, 0 <= vY v <= k) (chain_vertices steps)).
Proof.
  intros Hc Hdata Hcos. eexists. split; [|split].
  - unfold screw_countersink_profile.
    destruct Hc as [-> | ->]; rewrite Hdata; reflexivity.
  - unfold chain_vertices. simpl. unfold Vector2. f_equal.
    rewrite radians_below, cos_neg, sin_neg, cos_quarter_plus, sin_quarter_plus.
    unfold tan. f_equal; field; exact Hcos.
  - intros Hk. unfold chain_vertices. simpl.
    rewrite radians_below, sin_neg, sin_quarter_plus.
    replace (k + k / cos (radians (a / 2)) * - cos (radians (a / 2))) with 0
      by (field; exact Hcos).
    repeat (apply Forall_cons; split; [cbn [vX vY vZ Vector2]; lra|]).
    apply Forall_nil_2.
Qed.

(** X19. A washer and its cutter.  For a washer whose chamfer fits in its
    ring ([d1/2 + h/4 <= d2/2]), every vertex of the profile lies between
    the inner radius [d1/2] and the outer radius [d2/2], and between the
    base plane and the thickness [h]; the countersink cutter is a rectangle
    of that height whose width exceeds the outer radius by the gap between
    clearance hole and thread, so that it encloses the profile when the hole
    is at least as wide as the thread. *)
Theorem washer_profile_enclosed (w : Washer) (fit : option string)
    (d1 d2 h chd td : R) :
  get3 (w_washer_data w) "d1" "d2" "h" = Ok (d1, d2, h) →
  clearance_hole_diameter (w_size w) fit = Ok (VFloat chd) →
  w_thread_diameter w = VFloat td →
  0 <= d1 → d1 / 2 + h / 4 <= d2 / 2 → 0 <= h → td <= chd →
  ∃ steps width,
    washer_profile (w_class w) (w_washer_data w) = Ok (cq_Workplane "XZ" steps)
    ∧ MoreMethods.washer_countersink_profile w fit
      = Ok (cq_Workplane "XZ" [rect width h false])
    ∧ width = d2 / 2 + (chd - td)
    ∧ Forall (λ v, d1 / 2 <= vX v <= d2 / 2 ∧ 0 <= vX v <= width
                   ∧ 0 <= vY v <= h)
        (chain_vertices steps).
Proof.
  intros Hdata Hchd Htd Hd1 Hfit Hh Hgap. eexists _, _. split; [|split; [|split]].
  - unfold washer_profile. rewrite Hdata. reflexivity.
  - unfold MoreMethods.washer_countersink_profile. rewrite Hchd, Htd.
    cbn [mbind result_bind bind as_float].
    apply get3_inv in Hdata as (_ & H2 & H3).
    rewrite (get2_intro _ _ _ _ _ H2 H3). reflexivity.
  - reflexivity.
  - destruct (w_class w); unfold chain_vertices; simpl;
      repeat (apply Forall_cons; split; [cbn [vX vY vZ Vector2]; lra|]);
      apply Forall_nil_2.
Qed.

Lemma tan_15_pos : 0 < tan (radians 15).
Proof.
  apply tan_gt_0; unfold radians; pose proof PI_RGT_0; lra.
Qed.

Lemma polygon_diagonal_ge (s : R) (n : Z) :
  (3 <= n)%Z → 0 <= s → s <= polygon_diagonal s n.
Proof.
  intros Hn Hs. unfold polygon_diagonal.
  destruct (cos_PI_over_pos n Hn) as [Hpos Hle].
  apply (Rmult_le_reg_r (cos (PI / IZR n))); [exact Hpos|].
  replace (s / cos (PI / IZR n) * cos (PI / IZR n)) with s by (field; lra).
  nra.
Qed.

(** X20. A nut drawn from straight edges and its cutter ([HexNut],
    [UnchamferedHexagonNut], [SquareNut]).  With a width across flats [s] of
    at least 0.002 and chamfers that fit in the height [m], every vertex of
    the nut's profile lies between the axis and the circumscribed radius,
    and between the base plane and [m]; the countersink cutter is a
    rectangle of height [m] that is wider than the circumscribed radius by
    half the socket clearance. *)
Theorem nut_profile_enclosed (n : Nut) (fit : option string) (m s : R) :
  n_class n = HexNut ∨ n_class n = UnchamferedHexagonNut
  ∨ n_class n = SquareNut →
  get2 (n_nut_data n) "m" "s" = Ok (m, s) →
  let e := polygon_diagonal s (MoreMethods.nut_sides (n_class n)) in
  0.002 <= s → (e - s) * tan (radians 15) / 2 <= m / 2 →
  ∃ steps,
    MoreMethods.nut_profile (n_class n) (n_nut_data n)
    = Ok (cq_Workplane "XZ" steps)
    ∧ nut_countersink_profile n fit
      = Ok (Some (cq_Workplane "XZ"
                    [rect (e / 2 + n_socket_clearance n / 2) m false]))
    ∧ Forall (λ v, 0 <= vX v <= e / 2 ∧ 0 <= vY v <= m) (chain_vertices steps).
Proof.
  intros Hc Hdata e Hs Hcs. pose proof tan_15_pos as Htan.
  assert (s <= e) as He.
  { apply polygon_diagonal_ge; [|lra]. destruct (n_class n); cbn; lia. }
  assert (0 <= (e - s) * tan (radians 15) / 2) as Hcs0 by nra.
  unfold nut_countersink_profile, rect_profile. subst e.
  destruct Hc as [Hc | [Hc | Hc]]; rewrite Hc in *;
    cbn [MoreMethods.nut_sides] in *; unfold MoreMethods.nut_profile;
    rewrite Hdata; cbn [mbind result_bind bind];
    match goal with
    | |- context [polygon_diagonal s ?k] => set (e := polygon_diagonal s k) in *
    end;
    (eexists; split; [reflexivity|]; split; [do 5 f_equal; field|]);
    unfold chain_vertices; simpl;
    repeat (apply Forall_cons; split; [cbn [vX vY vZ Vector2]; lra|]);
    apply Forall_nil_2.
Qed.

End Profiles.

(** ** Placement of the washers and the fastener at a hole *)

Section Placement.
Context `{External}.

Lemma record_after_add_children (a : Assembly) (n : nat) (obj : option shape)
    (loc : Location) (r : ref) :
  metadata a ≠ IsNone →
  ∃ a',
    record_placement (Assembly_add a n obj loc).1 r = Ok a'
    ∧ children a' = children a ++ [(uuid n, obj, loc)]
    ∧ metadata a' ≠ IsNone.
Proof.
  intros Hmd. unfold record_placement, Assembly_add, last_child_name.
  cbn [fst children metadata]. rewrite last_snoc. cbn [mbind result_bind bind].
  destruct (metadata a) as [| |md]; [|done|]; eexists; done.
Qed.

Lemma place_washer_children (h : heap) (fastener : pyobj) (head_offset : R)
    (hole_loc : Location) (offset : R) (r : ref) (w : Washer) (a : Assembly)
    (n : nat) (t : R) :
  length_offset fastener = Ok (VFloat offset) →
  h !! r = Some (OWasher w) →
  metadata a ≠ IsNone →
  ∃ a',
    place_washer h fastener head_offset hole_loc (a, n, t) r
    = Ok (a', S n, t + washer_height w)
    ∧ metadata a' ≠ IsNone
    ∧ children a'
      = children a
        ++ [(uuid n, Some (w__cq_object w),
             stacked hole_loc (head_offset - offset - t))].
Proof.
  intros Hoff Hw Ha. unfold place_washer. rewrite (deref_Some _ _ _ Hw).
  cbn [cq_object mbind result_bind bind]. rewrite Hoff.
  cbn [mbind result_bind bind as_float washer_thickness].
  destruct (record_after_add_children a n (Some (w__cq_object w))
              (stacked hole_loc (head_offset - offset - t)) r Ha)
    as (a1 & Hstep & Hkids1 & Ha1).
  unfold Assembly_add, stacked in Hstep |- *. cbn [fst] in Hstep.
  rewrite Hstep. cbn [mbind result_bind bind]. exists a1. done.
Qed.

Lemma washers_loop_children (h : heap) (fastener : pyobj) (head_offset : R)
    (hole_loc : Location) (offset : R) (washers : list ref) (ws : list Washer) :
  length_offset fastener = Ok (VFloat offset) →
  Forall2 (λ r w, h !! r = Some (OWasher w)) washers ws →
  ∀ (a : Assembly) (n : nat) (t : R),
    metadata a ≠ IsNone →
    ∃ a',
      foldM (place_washer h fastener head_offset hole_loc) (a, n, t) washers
      = Ok (a', (n + List.length washers)%nat,
            t + foldr Rplus 0 (washer_height <$> ws))
      ∧ metadata a' ≠ IsNone
      ∧ children a'
        = children a
          ++ imap (λ i w,
                     (uuid (n + i), Some (w__cq_object w),
                      stacked hole_loc
                        (head_offset - offset
                         - (t + foldr Rplus 0 (washer_height <$> take i ws)))))
               ws.
Proof.
  intros Hoff Hws. induction Hws as [|r w washers ws Hw _ IH]; intros a n t Ha.
  - exists a. cbn [foldM List.length fmap list_fmap foldr imap].
    rewrite Nat.add_0_r, Rplus_0_r, app_nil_r. done.
  - cbn [foldM].
    destruct (place_washer_children h fastener head_offset hole_loc offset r w
                a n t Hoff Hw Ha) as (a1 & Hstep & Ha1 & Hkids1).
    rewrite Hstep. cbn [mbind result_bind bind].
    destruct (IH a1 (S n) (t + washer_height w) Ha1)
      as (a' & Hloop & Ha' & Hkids').
    exists a'. rewrite Hloop. split; [|split; [exact Ha'|]].
    + cbn [List.length fmap list_fmap foldr].
      do 2 f_equal; [f_equal; lia | ring].
    + rewrite Hkids', Hkids1, <- app_assoc. f_equal.
      cbn [imap app]. f_equal.
      * rewrite Nat.add_0_r. cbn [take fmap list_fmap foldr].
        do 2 f_equal. ring.
      * apply imap_ext. intros i w' _. unfold compose.
        cbn [take fmap list_fmap foldr].
        f_equal; [f_equal; f_equal; lia|]. f_equal. ring.
Qed.

(** X21. How one hole is populated.  With a base assembly whose metadata is
    not [None], washers that are washers, and a fastener with a solid and a
    numeric length offset, [place_at] appends one child per washer, in the
    order given, then the fastener: washer [i] is displaced along the bore
    by the head offset, less the length offset, less the thicknesses of the
    washers before it; the fastener by the same less the whole stack.  The
    children already present are kept, and one name is generated per child
    added. *)
Theorem washer_stack_placement (h : heap) (fastener : ref)
    (washers : list ref) (ws : list Washer) (head_offset : R)
    (hole_loc : Location) (a : Assembly) (n : nat) (obj : option shape)
    (offset : R) :
  metadata a ≠ IsNone →
  cq_object (deref h fastener) = Ok obj →
  length_offset (deref h fastener) = Ok (VFloat offset) →
  Forall2 (λ r w, h !! r = Some (OWasher w)) washers ws →
  let below i :=
    head_offset - offset - foldr Rplus 0 (washer_height <$> take i ws) in
  ∃ a',
    place_at h fastener (Some washers) head_offset (a, n) hole_loc
    = Ok (a', (n + List.length washers + 1)%nat)
    ∧ children a'
      = children a
        ++ imap (λ i w, (uuid (n + i), Some (w__cq_object w),
                         stacked hole_loc (below i))) ws
        ++ [(uuid (n + List.length washers), obj,
             stacked hole_loc (below (List.length ws)))].
Proof.
  intros Ha Hobj Hoff Hws below.
  destruct (washers_loop_children h (deref h fastener) head_offset hole_loc
              offset washers ws Hoff Hws a n 0 Ha)
    as (a1 & Hloop & Ha1 & Hkids1).
  unfold place_at. rewrite Hloop. cbn [mbind result_bind bind].
  rewrite Hobj. cbn [mbind result_bind bind]. rewrite Hoff.
  cbn [mbind result_bind bind as_float].
  destruct (record_after_add_children a1 (n + List.length washers) obj
              (stacked hole_loc
                 (head_offset - offset
                  - (0 + foldr Rplus 0 (washer_height <$> ws))))
              fastener Ha1) as (a' & Hstep & Hkids' & _).
  unfold Assembly_add, stacked in Hstep |- *. cbn [fst] in Hstep.
  rewrite Hstep.
  cbn [mbind result_bind bind]. exists a'. split.
  - do 2 f_equal. lia.
  - rewrite Hkids', Hkids1, <- app_assoc. f_equal. f_equal.
    + apply imap_ext. intros i w _. unfold below. rewrite Rplus_0_l.
      reflexivity.
    + unfold below. rewrite firstn_all, Rplus_0_l. reflexivity.
Qed.

(** X22. The base assembly and the washers never change the part.  When a
    hole-cutting call with a base assembly returns, the same call without
    base assembly, with any washers or none, returns the same part, no
    assembly, and generates no name. *)
Theorem part_without_assembly (h : heap) (self : Workplane)
    (hole_diameters : dict value) (fastener : ref) (depth : R)
    (washers washers' : option (list ref)) (fit material : option string)
    (counterSunk : bool) (baseAssembly : Assembly) (uuids : nat)
    (hand : option string) (simple clean : bool) (part : shape)
    (assembly : option Assembly) (uuids' : nat) :
  _fastenerHole h self hole_diameters fastener depth washers fit material
    counterSunk (Some baseAssembly) uuids hand simple clean
  = Ok (part, assembly, uuids') →
  _fastenerHole h self hole_diameters fastener depth washers' fit material
    counterSunk None uuids hand simple clean
  = Ok (part, None, uuids).
Proof.
  unfold _fastenerHole.
  destruct (countersink_profile (deref h fastener) fit) as [profile|]; [|done].
  cbn [mbind result_bind bind].
  destruct (resolve_hole_radius _ _ _ _ _) as [radius|]; [|done].
  cbn [mbind result_bind bind].
  destruct (foldM _ _ _) as [[a' n']|]; [|done].
  cbn [mbind result_bind bind].
  destruct (bool_decide (hand ≠ None) && negb simple).
  - destruct (thread_diameter _) as [d|]; [|done]. cbn [mbind result_bind bind].
    destruct (as_float d) as [x|]; [|done]. cbn [mbind result_bind bind].
    destruct (thread_pitch _) as [p|]; [|done]. cbn [mbind result_bind bind].
    intros [= <- _ _]. reflexivity.
  - cbn [mbind result_bind bind]. intros [= <- _ _]. reflexivity.
Qed.

Lemma fastenerHole_table (h : heap) (self : Workplane)
    (t1 t2 : dict value) (fastener : ref) (depth : R)
    (washers : option (list ref)) (fit material : option string)
    (counterSunk : bool) (baseAssembly : option Assembly) (uuids : nat)
    (hand : option string) (simple clean : bool) :
  hand ≠ None →
  _fastenerHole h self t1 fastener depth washers fit material counterSunk
    baseAssembly uuids hand simple clean
  = _fastenerHole h self t2 fastener depth washers fit material counterSunk
      baseAssembly uuids hand simple clean.
Proof.
  intros Hh. unfold _fastenerHole, resolve_hole_radius.
  rewrite (threaded_hole_true _ Hh). reflexivity.
Qed.

(** X23. [threadedHole] and the clearance table.  The method reads the
    fastener's clearance-hole diameters before anything else, so a fastener
    whose size has no clearance data makes it raise the error of that
    lookup; yet when the data exist, the result does not depend on them:
    it is the result of [_fastenerHole] with any table at all. *)
Theorem threaded_hole_clearance_table (h : heap) (self : Workplane)
    (fastener : ref) (depth : R) (washers : option (list ref))
    (hand : option string) (simple counterSunk : bool) (fit : option string)
    (baseAssembly : option Assembly) (uuids : nat) (clean : bool) :
  hand ≠ None →
  match object_clearance_hole_diameters (deref h fastener) with
  | Raise e =>
      _threadedHole h self fastener depth washers hand simple counterSunk fit
        baseAssembly uuids clean = Raise e
  | Ok _ =>
      ∀ table,
        _threadedHole h self fastener depth washers hand simple counterSunk
          fit baseAssembly uuids clean
        = _fastenerHole h self table fastener depth washers fit None
            counterSunk baseAssembly uuids hand simple clean
  end.
Proof.
  intros Hh. unfold _threadedHole.
  destruct (object_clearance_hole_diameters (deref h fastener)) as [t|e];
    [|reflexivity].
  intros table. cbn [mbind result_bind bind]. apply fastenerHole_table, Hh.
Qed.

End Placement.

(** ** The total of the bill of materials *)

Section Totals.
Context `{External}.

Lemma sum_cons (x : nat) (l : list nat) : sum (x :: l) = (x + sum l)%nat.
Proof. reflexivity. Qed.

Lemma sum_perm (l1 l2 : list nat) : l1 ≡ₚ l2 → sum l1 = sum l2.
Proof. induction 1; rewrite ?sum_cons; lia. Qed.

Lemma total_insert_fresh `{Countable K} (q : gmap K nat) (k : K) (v : nat) :
  q !! k = None → total (<[k := v]> q) = (v + total q)%nat.
Proof.
  intros Hk. unfold total.
  rewrite (sum_perm _ ((k, v) :: map_to_list q).*2); [reflexivity|].
  apply fmap_Permutation, map_to_list_insert, Hk.
Qed.

Lemma total_insert_le `{Countable K} (q : gmap K nat) (k : K) (v : nat) :
  (total (<[k := v]> q) ≤ v + total q)%nat.
Proof.
  destruct (q !! k) as [v0|] eqn:Hk.
  - rewrite <- (insert_delete_eq q k v).
    rewrite total_insert_fresh by apply lookup_delete_eq.
    rewrite <- (insert_delete_id q k v0 Hk) at 2.
    rewrite total_insert_fresh by apply lookup_delete_eq. lia.
  - rewrite total_insert_fresh by exact Hk. lia.
Qed.

Lemma object_lines_total (g : ref → nat) (u : list ref) :
  NoDup u →
  ∀ q : gmap ref nat,
    (∀ x, x ∈ u → q !! x = None) →
    total (foldl (λ q f, <[f := g f]> q) q u)
    = (sum (g <$> u) + total q)%nat.
Proof.
  induction 1 as [|f u Hf Hu IH]; intros q Hq; cbn [foldl fmap list_fmap]; rewrite ?sum_cons.
  - reflexivity.
  - rewrite IH.
    + rewrite total_insert_fresh by (apply Hq, list_elem_of_here). lia.
    + intros x Hx. rewrite lookup_insert_ne by (intros ->; contradiction).
      apply Hq, list_elem_of_further, Hx.
Qed.

Lemma sum_plus {A} (a b : A → nat) (u : list A) :
  sum ((λ x, a x + b x)%nat <$> u)
  = (sum (a <$> u) + sum (b <$> u))%nat.
Proof.
  induction u as [|x u IH]; [reflexivity|].
  cbn [fmap list_fmap]. rewrite !sum_cons, IH. lia.
Qed.

Lemma sum_indicator (y : ref) (u : list ref) :
  NoDup u → y ∈ u →
  sum ((λ x, if decide (y = x) then 1 else 0)%nat <$> u) = 1%nat.
Proof.
  induction 1 as [|x u Hx Hu IH]; [by intros ?%elem_of_nil|].
  intros Hin. cbn [fmap list_fmap]; rewrite ?sum_cons. case_decide as Hy.
  - subst x. clear IH Hin. f_equal.
    induction u as [|z u IHu]; [reflexivity|]. cbn [fmap list_fmap]; rewrite ?sum_cons.
    apply not_elem_of_cons in Hx as [Hne Hx].
    rewrite decide_False by exact Hne. apply NoDup_cons in Hu as [_ Hu].
    apply IHu; assumption.
  - apply elem_of_cons in Hin as [-> | Hin]; [done|]. rewrite (IH Hin). lia.
Qed.

Lemma sum_count (fs u : list ref) :
  NoDup u → (∀ x, x ∈ fs → x ∈ u) →
  sum ((λ x, count x fs) <$> u) = List.length fs.
Proof.
  intros Hu. induction fs as [|y fs IH]; intros Hin.
  - clear Hin Hu. induction u as [|x u IHu]; [reflexivity|].
    cbn [fmap list_fmap]. rewrite sum_cons, IHu. reflexivity.
  - erewrite list_fmap_ext; [|intros ? x _; apply (count_cons x y fs)].
    rewrite sum_plus, sum_indicator, IH; cbn [List.length]; try done.
    + intros x Hx. apply Hin, list_elem_of_further, Hx.
    + apply Hin, list_elem_of_here.
Qed.

Lemma set_iteration_NoDup (l : list ref) : NoDup (set_iteration l).
Proof.
  eapply NoDup_Permutation_proper; [apply set_iteration_spec|].
  apply NoDup_elements.
Qed.

Lemma info_lines_total (h : heap) (fs : list ref) (u : list ref) :
  Forall (λ g, is_fastener h g = true) u →
  ∀ q : gmap string nat,
    ∃ q',
      foldM (λ q f, i ← info (deref h f); Ok (<[i := count f fs]> q)) q u
      = Ok q'
      ∧ (total q' ≤ sum ((λ x, count x fs) <$> u) + total q)%nat.
Proof.
  induction 1 as [|g u Hg _ IH]; intros q.
  - exists q. split; [reflexivity|]. cbn [fmap list_fmap]. unfold sum at 1.
    cbn [foldr]. lia.
  - destruct (info_defined h g Hg) as [ig Hig]. cbn [foldM]. rewrite Hig.
    cbn [mbind result_bind bind].
    destruct (IH (<[ig := count g fs]> q)) as (q' & Hq' & Hle).
    exists q'. split; [exact Hq'|].
    pose proof (total_insert_le q ig (count g fs)).
    cbn [fmap list_fmap]. rewrite sum_cons. lia.
Qed.

(** X24. The total of the bill of materials.  On an assembly with metadata,
    the counts returned with [bom=False] add up to the number of placement
    records that hold a fastener: every such record is counted once, and
    records of other objects are not counted.  With [bom=True] the counts
    add up to at most that number; they can fall short, since two distinct
    objects with the same description share one line. *)
Theorem quantities_total (h : heap) (a : Assembly) (md : gmap string ref) :
  metadata a = Bound md →
  let fasteners := filter (λ v, is_fastener h v = true) (recorded md) in
  ∃ q q',
    _fastener_quantities h a false = Ok (QObject q)
    ∧ total q = List.length fasteners
    ∧ _fastener_quantities h a true = Ok (QInfo q')
    ∧ (total q' ≤ List.length fasteners)%nat.
Proof.
  intros Hmd fasteners. unfold _fastener_quantities. rewrite Hmd. cbn zeta.
  fold fasteners.
  assert (sum ((λ x, count x fasteners) <$> set_iteration fasteners)
          = List.length fasteners) as Hsum.
  { apply sum_count; [apply set_iteration_NoDup|].
    intros x Hx. apply set_iteration_elem, Hx. }
  destruct (info_lines_total h fasteners (set_iteration fasteners))
    with (q := (∅ : gmap string nat)) as (q' & Hq' & Hle).
  { apply Forall_forall. intros g Hg.
    apply (proj1 (set_iteration_elem _ _)) in Hg.
    apply list_elem_of_filter in Hg. apply Hg. }
  eexists _, q'. split; [reflexivity|]. split; [|split].
  - rewrite object_lines_total.
    + rewrite Hsum. unfold total. rewrite map_to_list_empty. cbn. lia.
    + apply set_iteration_NoDup.
    + intros x _. apply lookup_empty.
  - rewrite Hq'. reflexivity.
  - rewrite Hsum in Hle. unfold total at 2 in Hle.
    rewrite map_to_list_empty in Hle. cbn in Hle. lia.
Qed.

End Totals.

(** ** Drill tables *)

Section DrillTables.
Context `{External}.

Lemma read_drill_sizes_spec (rows : list (string * string)) :
  ∀ acc drill_sizes,
    Tables.read_drill_sizes rows acc = Ok drill_sizes →
    (∀ name, Dict.get drill_sizes name = None →
             Dict.get acc name = None ∧ ∀ inches, (name, inches) ∉ rows)
    ∧ ∀ name x,
        Dict.get drill_sizes name = Some x →
        Dict.get acc name = Some x
        ∨ ∃ inches y, (name, inches) ∈ rows ∧ py_float inches = Ok y
                      ∧ x = y * IN.
Proof.
  induction rows as [|[name0 inches0] rows IH]; intros acc ds;
    cbn [Tables.read_drill_sizes].
  - intros [= <-]. split; [|auto]. intros name Hn. split; [exact Hn|].
    intros inches. apply not_elem_of_nil.
  - destruct (py_float inches0) as [y0|] eqn:Hy0; [|done].
    cbn [mbind result_bind bind]. intros Hrec.
    destruct (IH _ _ Hrec) as [Hnone Hsome]. split.
    + intros name Hn. destruct (Hnone name Hn) as [Hacc Hrows].
      rewrite dict_get_set in Hacc. case_decide as Hk; [done|].
      split; [exact Hacc|]. intros inches. rewrite not_elem_of_cons.
      split; [congruence | apply Hrows].
    + intros name x Hx. destruct (Hsome name x Hx) as [Hacc | Hrows].
      * rewrite dict_get_set in Hacc. case_decide as Hk; [|left; exact Hacc].
        injection Hacc as <-. subst. right. exists inches0, y0.
        split; [apply list_elem_of_here | done].
      * right. destruct Hrows as (inches & y & Hin & Hy & ->).
        exists inches, y. split; [apply list_elem_of_further, Hin | done].
Qed.

Lemma lookup_drill_fits_spec (drill_sizes : dict R) (size : string)
    (drill_data : dict string) :
  ∀ acc hole_data,
    Tables.lookup_drill_fits drill_sizes size drill_data acc = Ok hole_data →
    (∀ fit, fit ∈ Dict.keys hole_data
            ↔ fit ∈ Dict.keys acc ∨ fit ∈ Dict.keys drill_data)
    ∧ ∀ fit v,
        Dict.get hole_data fit = Some v →
        Dict.get acc fit = Some v
        ∨ ∃ drill,
            (fit, drill) ∈ drill_data
            ∧ match Dict.get drill_sizes drill with
              | Some x => v = VFloat x
              | None =>
                  (c ← PyStr.first size;
                   if Ascii.eqb c "M"%char then VFloat <$> py_float drill
                   else imperial_str_to_float drill) = Ok v
              end.
Proof.
  induction drill_data as [|[fit0 drill0] rest IH]; intros acc hd;
    cbn [Tables.lookup_drill_fits].
  - intros [= <-]. split; [|auto]. intros fit. unfold Dict.keys at 3.
    cbn [fmap list_fmap]. rewrite elem_of_nil. tauto.
  - destruct (except_KeyError_do _ _) as [d0|] eqn:Hd0; [|done].
    cbn [mbind result_bind bind]. intros Hrec.
    destruct (IH _ _ Hrec) as [Hkeys Hvals]. split.
    + intros fit. rewrite Hkeys, dict_keys_set. unfold Dict.keys at 4.
      cbn [fmap list_fmap fst]. rewrite elem_of_cons. unfold Dict.keys. tauto.
    + intros fit v Hv. destruct (Hvals fit v Hv) as [Hacc | (drill & Hin & Hres)].
      * rewrite dict_get_set in Hacc. case_decide as Hk; [|left; exact Hacc].
        injection Hacc as <-. subst. right. exists drill0.
        split; [apply list_elem_of_here|].
        unfold Dict.item in Hd0. destruct (Dict.get drill_sizes drill0) as [x|].
        -- cbn in Hd0. by injection Hd0 as <-.
        -- exact Hd0.
      * right. exists drill. split; [apply list_elem_of_further, Hin | exact Hres].
Qed.

Lemma lookup_drill_sizes_spec (drill_sizes : dict R)
    (drill_hole_sizes : dict (dict string)) :
  ∀ acc table,
    Tables.lookup_drill_sizes drill_sizes drill_hole_sizes acc = Ok table →
    (∀ size, size ∈ Dict.keys table
             ↔ size ∈ Dict.keys acc ∨ size ∈ Dict.keys drill_hole_sizes)
    ∧ ∀ size hole_data,
        Dict.get table size = Some hole_data →
        Dict.get acc size = Some hole_data
        ∨ ∃ drill_data,
            (size, drill_data) ∈ drill_hole_sizes
            ∧ Tables.lookup_drill_fits drill_sizes size drill_data []
              = Ok hole_data.
Proof.
  induction drill_hole_sizes as [|[size0 dd0] rest IH]; intros acc table;
    cbn [Tables.lookup_drill_sizes].
  - intros [= <-]. split; [|auto]. intros size. unfold Dict.keys at 3.
    cbn [fmap list_fmap]. rewrite elem_of_nil. tauto.
  - destruct (Tables.lookup_drill_fits drill_sizes size0 dd0 []) as [hd0|]
      eqn:Hhd0; [|done].
    cbn [mbind result_bind bind]. intros Hrec.
    destruct (IH _ _ Hrec) as [Hkeys Hvals]. split.
    + intros size. rewrite Hkeys, dict_keys_set. unfold Dict.keys at 4.
      cbn [fmap list_fmap fst]. rewrite elem_of_cons. unfold Dict.keys. tauto.
    + intros size hd Hget.
      destruct (Hvals size hd Hget) as [Hacc | (dd & Hin & Hfits)].
      * rewrite dict_get_set in Hacc. case_decide as Hk; [|left; exact Hacc].
        injection Hacc as <-. subst. right. exists dd0.
        split; [apply list_elem_of_here | exact Hhd0].
      * right. exists dd. split; [apply list_elem_of_further, Hin | exact Hfits].
Qed.

(** X25. What [lookup_drill_diameters] builds from a table of drill names:
    a table with the same sizes, and for each size the same fits as a row of
    that size; the diameter of a fit is, for a drill named in
    [drill_sizes.csv], the number of that row times 25.4, whatever the
    units of the size, and otherwise the drill read as a number: by [float]
    for a size that starts with ["M"], by [imperial_str_to_float] for any
    other. *)
Theorem lookup_drill_diameters_spec (rows : list (string * string))
    (drill_hole_sizes : dict (dict string)) (table : dict (dict value)) :
  Tables.lookup_drill_diameters rows drill_hole_sizes = Ok table →
  (∀ size, size ∈ Dict.keys table ↔ size ∈ Dict.keys drill_hole_sizes)
  ∧ ∀ size hole_data,
      Dict.get table size = Some hole_data →
      ∃ drill_data,
        (size, drill_data) ∈ drill_hole_sizes
        ∧ (∀ fit, fit ∈ Dict.keys hole_data ↔ fit ∈ Dict.keys drill_data)
        ∧ ∀ fit v,
            Dict.get hole_data fit = Some v →
            ∃ drill,
              (fit, drill) ∈ drill_data
              ∧ ((∃ inches y, (drill, inches) ∈ rows ∧ py_float inches = Ok y
                              ∧ v = VFloat (y * IN))
                 ∨ ((∀ inches, (drill, inches) ∉ rows)
                    ∧ ((PyStr.first size = Ok "M"%char
                        ∧ ∃ x, py_float drill = Ok x ∧ v = VFloat x)
                       ∨ (∃ c, PyStr.first size = Ok c ∧ c ≠ "M"%char
                               ∧ imperial_str_to_float drill = Ok v)))).
Proof.
  unfold Tables.lookup_drill_diameters.
  destruct (Tables.read_drill_sizes rows []) as [ds|] eqn:Hds; [|done].
  cbn [mbind result_bind bind]. intros Htable.
  destruct (read_drill_sizes_spec _ _ _ Hds) as [Hnone Hsome].
  destruct (lookup_drill_sizes_spec _ _ _ _ Htable) as [Hkeys Hvals]. split.
  - intros size. rewrite Hkeys. unfold Dict.keys at 2. cbn [fmap list_fmap].
    rewrite elem_of_nil. tauto.
  - intros size hd Hget. destruct (Hvals size hd Hget) as [[=] | (dd & Hin & Hfits)].
    exists dd. split; [exact Hin|].
    destruct (lookup_drill_fits_spec _ _ _ _ _ Hfits) as [Hfk Hfv]. split.
    + intros fit. rewrite Hfk. unfold Dict.keys at 2. cbn [fmap list_fmap].
      rewrite elem_of_nil. tauto.
    + intros fit v Hv. destruct (Hfv fit v Hv) as [[=] | (drill & Hd & Hres)].
      exists drill. split; [exact Hd|].
      destruct (Dict.get ds drill) as [x|] eqn:Hx.
      * left. destruct (Hsome drill x Hx) as [[=] | (inches & y & Hr & Hy & ->)].
        exists inches, y. done.
      * right. split; [apply (Hnone drill Hx)|].
        destruct (PyStr.first size) as [c|] eqn:Hc; [|done].
        cbn [mbind result_bind bind] in Hres.
        destruct (Ascii.eqb_spec c "M") as [-> | Hne].
        -- left. split; [done|]. destruct (py_float drill) as [x|]; [|done].
           cbn in Hres. injection Hres as <-. eauto.
        -- right. exists c. done.
Qed.

End DrillTables.

(** ** Selection by size *)

Section Selection.
Context `{External}.
Variable type_iteration : gset string → list string.

Lemma type_dict_get_add (d : Select.type_dict) (c : fastener_class)
    (t : string) (c' : fastener_class) :
  Select.type_dict_get (Select.type_dict_add d c t) c'
  = if decide (c = c')
    then Some (default [] (Select.type_dict_get d c) ++ [t])
    else Select.type_dict_get d c'.
Proof.
  induction d as [|[c0 ts0] d IH];
    cbn [Select.type_dict_add Select.type_dict_get].
  - case_decide; reflexivity.
  - destruct (decide (c0 = c)) as [->|Hne]; cbn [Select.type_dict_get].
    + cbn [default]. case_decide; reflexivity.
    + rewrite IH. repeat case_decide; congruence.
Qed.

Lemma select_types_spec (c : fastener_class) (size : string)
    (fastener_types : list string) :
  ∀ d d',
    Select.select_types c size fastener_types d = Ok d' →
    (∀ c', c' ≠ c → Select.type_dict_get d' c' = Select.type_dict_get d c')
    ∧ (∀ t, t ∈ default [] (Select.type_dict_get d' c)
            ↔ t ∈ default [] (Select.type_dict_get d c)
              ∨ (t ∈ fastener_types
                 ∧ ∃ ss, sizes c t = Ok ss ∧ size ∈ ss))
    ∧ ((∀ c' ts, Select.type_dict_get d c' = Some ts → ts ≠ []) →
       ∀ c' ts, Select.type_dict_get d' c' = Some ts → ts ≠ []).
Proof.
  induction fastener_types as [|t0 rest IH]; intros d d';
    cbn [Select.select_types].
  - intros [= <-]. split; [done|]. split; [|done]. intros t.
    rewrite elem_of_nil. tauto.
  - destruct (sizes c t0) as [ss0|] eqn:Hss0; [|done].
    cbn [mbind result_bind bind]. intros Hrec.
    destruct (IH _ _ Hrec) as (Hother & Hthis & Hne). split; [|split].
    + intros c' Hc'. rewrite (Hother c' Hc'). case_bool_decide; [|reflexivity].
      rewrite type_dict_get_add, decide_False by congruence. reflexivity.
    + intros t. rewrite Hthis, elem_of_cons. case_bool_decide as Hin.
      * rewrite type_dict_get_add, decide_True by done. cbn [default]. unfold Datatypes.id.
        rewrite elem_of_app, list_elem_of_singleton. split.
        -- intros [[Hd | ->] | [Hr Hok]]; [tauto | | tauto].
           right. split; [left; done|]. eauto.
        -- intros [Hd | [[-> | Hr] Hok]]; tauto.
      * split; [tauto|]. intros [Hd | [[-> | Hr] Hok]]; [tauto | | tauto].
        destruct Hok as (ss & Hss & Hsz). congruence.
    + intros Hd. apply Hne. case_bool_decide; [|exact Hd].
      intros c' ts. rewrite type_dict_get_add. case_decide.
      * intros [= <-]. intros Happ. by apply app_nil in Happ as [_ [=]].
      * apply Hd.
Qed.

Lemma select_classes_spec (classes : list fastener_class) (size : string) :
  ∀ d d',
    Select.select_classes type_iteration classes size d = Ok d' →
    (∀ c t, t ∈ default [] (Select.type_dict_get d' c)
            ↔ t ∈ default [] (Select.type_dict_get d c)
              ∨ (c ∈ classes
                 ∧ ∃ known ss, types c = Ok known ∧ t ∈ type_iteration known
                               ∧ sizes c t = Ok ss ∧ size ∈ ss))
    ∧ ((∀ c' ts, Select.type_dict_get d c' = Some ts → ts ≠ []) →
       ∀ c' ts, Select.type_dict_get d' c' = Some ts → ts ≠ []).
Proof.
  induction classes as [|c0 rest IH]; intros d d'; cbn [Select.select_classes].
  - intros [= <-]. split; [|done]. intros c t. rewrite elem_of_nil. tauto.
  - destruct (types c0) as [known0|] eqn:Hknown0; [|done].
    cbn [mbind result_bind bind].
    destruct (Select.select_types c0 size (type_iteration known0) d) as [d1|]
      eqn:Hd1; [|done].
    cbn [mbind result_bind bind]. intros Hrec.
    destruct (IH _ _ Hrec) as [Hmem Hne].
    destruct (select_types_spec _ _ _ _ _ Hd1) as (Hother & Hthis & Hne1).
    split; [|intros Hd0; apply Hne, Hne1, Hd0].
    intros c t. rewrite Hmem, elem_of_cons.
    destruct (decide (c = c0)) as [->|Hc].
    + rewrite Hthis. split.
      * intros [[Hd | [Hin Hok]] | [Hin Hok]]; [tauto | | tauto].
        right. split; [left; done|]. destruct Hok as (ss & Hss & Hsz).
        exists known0, ss. done.
      * intros [Hd | [[_ | Hin] Hok]]; [tauto | | tauto].
        destruct Hok as (known & ss & Hk & Hit & Hss & Hsz).
        left. right. rewrite Hknown0 in Hk. injection Hk as ->.
        split; [exact Hit|]. eauto.
    + rewrite (Hother c Hc). split.
      * intros [Hd | [Hin Hok]]; tauto.
      * intros [Hd | [[-> | Hin] Hok]]; [tauto | done | tauto].
Qed.

(** X26. What [select_by_size] returns, when it returns: a class is a key
    exactly when it is a subclass of the base class and one of its types
    offers the size, and its list holds exactly those of its types that do;
    no class is listed with an empty list. *)
Theorem select_by_size_spec (cls : Select.base_class) (size : string)
    (d : Select.type_dict) :
  (∀ known t, t ∈ type_iteration known ↔ t ∈ known) →
  Select.select_by_size_fn type_iteration cls size = Ok d →
  (∀ c t,
     (∃ ts, Select.type_dict_get d c = Some ts ∧ t ∈ ts)
     ↔ c ∈ Select.subclasses cls
       ∧ ∃ known ss, types c = Ok known ∧ t ∈ known
                     ∧ sizes c t = Ok ss ∧ size ∈ ss)
  ∧ ∀ c ts, Select.type_dict_get d c = Some ts → ts ≠ [].
Proof.
  intros Hiter Hd. unfold Select.select_by_size_fn in Hd.
  destruct (select_classes_spec _ _ _ _ Hd) as [Hmem Hne]. split.
  - intros c t.
    assert ((∃ ts, Select.type_dict_get d c = Some ts ∧ t ∈ ts)
            ↔ t ∈ default [] (Select.type_dict_get d c)) as ->.
    { destruct (Select.type_dict_get d c) as [ts|]; cbn [default].
      - split; [intros (ts' & [= <-] & Hin); exact Hin | eauto].
      - rewrite elem_of_nil. split; [intros (ts' & [=] & _) | done]. }
    rewrite Hmem. cbn [Select.type_dict_get default]. rewrite elem_of_nil.
    split.
    + intros [[] | [Hc (known & ss & Hk & Hit & Hok)]].
      split; [exact Hc|]. exists known, ss. rewrite <- Hiter. done.
    + intros [Hc (known & ss & Hk & Hit & Hok)]. right.
      split; [exact Hc|]. exists known, ss. rewrite Hiter. done.
  - apply Hne. intros c ts [=].
Qed.

End Selection.

(** ** Nominal lengths and clearance data *)

Section NominalAndClearance.
Context `{External}.

Lemma nominal_sizes_spec (unit_factor : R) (fields : list string) :
  ∀ sizes,
    Tables.nominal_sizes unit_factor fields = Ok sizes →
    Forall2 (λ field x, ∃ y, py_float field = Ok y ∧ x = unit_factor * y)
      fields sizes.
Proof.
  induction fields as [|f fields IH]; intros sizes; cbn [Tables.nominal_sizes].
  - intros [= <-]. constructor.
  - destruct (py_float f) as [y|] eqn:Hy; [|done]. cbn [mbind result_bind bind].
    destruct (Tables.nominal_sizes unit_factor fields) as [xs|]; [|done].
    cbn [mbind result_bind bind]. intros [= <-].
    constructor; [eauto | apply IH; reflexivity].
Qed.

Lemma lookup_nominal_screw_rows_spec (rows : list (dict string)) :
  ∀ acc table,
    Tables.lookup_nominal_screw_rows rows acc = Ok table →
    ∀ screw_type sizes,
      Dict.get table screw_type = Some sizes →
      Dict.get acc screw_type = Some sizes
      ∨ ∃ row unit cell,
          row ∈ rows
          ∧ Dict.get row "Screw_Type" = Some screw_type
          ∧ Dict.get row "Unit" = Some unit
          ∧ Dict.get row "Nominal_Sizes" = Some cell
          ∧ Forall2
              (λ field x,
                 ∃ y, py_float field = Ok y
                      ∧ x = (if bool_decide (unit = "mm"%string) then 1 else 25.4)
                            * y)
              (PyStr.split ","%char cell) sizes.
Proof.
  induction rows as [|row rows IH]; intros acc table;
    cbn [Tables.lookup_nominal_screw_rows].
  - intros [= <-]. auto.
  - unfold Dict.item.
    destruct (Dict.get row "Unit") as [unit|] eqn:Hunit; [|done].
    cbn [mbind result_bind bind].
    destruct (Dict.get row "Nominal_Sizes") as [cell|] eqn:Hcell; [|done].
    cbn [mbind result_bind bind].
    destruct (Tables.nominal_sizes _ _) as [sizes0|] eqn:Hsizes; [|done].
    cbn [mbind result_bind bind].
    destruct (Dict.get row "Screw_Type") as [type0|] eqn:Htype; [|done].
    cbn [mbind result_bind bind]. intros Hrec screw_type sizes Hget.
    destruct (IH _ _ Hrec _ _ Hget)
      as [Hacc | (row' & unit' & cell' & Hin & Hrest)].
    + rewrite dict_get_set in Hacc. case_decide as Hk; [|left; exact Hacc].
      injection Hacc as <-. subst. right. exists row, unit, cell.
      split; [apply list_elem_of_here|]. split_and!; try done.
      apply nominal_sizes_spec in Hsizes.
      eapply Forall2_impl; [exact Hsizes|]. intros f x (y & Hy & ->).
      exists y. split; [exact Hy|]. case_bool_decide; unfold MM, IN, MM; lra.
    + right. exists row', unit', cell'.
      split; [apply list_elem_of_further, Hin | exact Hrest].
Qed.

(** X27. The nominal lengths [lookup_nominal_screw_lengths] lists for a
    screw type come from a row of that type: one length for each field of
    the row's [Nominal_Sizes], separated by commas, in the order of the
    fields; each is the field read as a number, taken in millimetres when
    the row's [Unit] is ["mm"] and multiplied by 25.4 for any other unit. *)
Theorem nominal_screw_lengths_spec (rows : list (dict string))
    (table : dict (list R)) (screw_type : string) (sizes : list R) :
  Tables.lookup_nominal_screw_lengths rows = Ok table →
  Dict.get table screw_type = Some sizes →
  ∃ row unit cell,
    row ∈ rows
    ∧ Dict.get row "Screw_Type" = Some screw_type
    ∧ Dict.get row "Unit" = Some unit
    ∧ Dict.get row "Nominal_Sizes" = Some cell
    ∧ Forall2
        (λ field x,
           ∃ y, py_float field = Ok y
                ∧ x = (if bool_decide (unit = "mm"%string) then 1 else 25.4) * y)
        (PyStr.split ","%char cell) sizes.
Proof.
  intros Htable Hget.
  destruct (lookup_nominal_screw_rows_spec _ _ _ Htable _ _ Hget)
    as [[=] | Hrow].
  exact Hrow.
Qed.

(** X28. Clearance data are keyed by the diameter part of a size, the part
    before the first ["-"]: two sizes with the same diameter part, such as a
    coarse and a fine pitch of one diameter, have the same clearance-hole
    diameters and the same clearance drill sizes, and lack them together. *)
Theorem clearance_by_diameter (size1 size2 diameter : string) :
  PyStr.split "-"%char size1 !! 0%nat = Some diameter →
  PyStr.split "-"%char size2 !! 0%nat = Some diameter →
  (∀ table, clearance_hole_diameters size1 = Ok table
            ↔ clearance_hole_diameters size2 = Ok table)
  ∧ (∀ drills, Tables.clearance_drill_sizes size1 = Ok drills
               ↔ Tables.clearance_drill_sizes size2 = Ok drills)
  ∧ (clearance_hole_diameters size1
     = Raise (ValueError (MsgNoClearanceData size1))
     ↔ clearance_hole_diameters size2
       = Raise (ValueError (MsgNoClearanceData size2))).
Proof.
  intros H1 H2. unfold clearance_hole_diameters, Tables.clearance_drill_sizes,
    PyStr.index, Dict.item.
  rewrite H1, H2. cbn [mbind result_bind bind].
  split; [|split].
  - intros table. destruct (Dict.get clearance_hole_data diameter);
      cbn [except_KeyError]; [tauto | split; intros [=]].
  - intros drills. destruct (Dict.get _ diameter);
      cbn [except_KeyError]; [tauto | split; intros [=]].
  - destruct (Dict.get clearance_hole_data diameter);
      cbn [except_KeyError]; [split; intros [=] | split; intros _; reflexivity].
Qed.

End NominalAndClearance.

(** ** Hole methods and washers *)

Section WasherAsFastener.
Context `{External}.

(** X29. The hole methods take a screw or a nut as their fastener.  Given a
    washer instead, whose classes have a [washer_countersink_profile] but no
    [countersink_profile] and no tap-hole data, [clearanceHole] and
    [threadedHole] raise [AttributeError] at the countersink profile once
    the washer's clearance data are found, and [tapHole] raises it at the
    tap-hole data; no hole is cut and no record is made. *)
Theorem washer_is_no_fastener (h : heap) (self : Workplane) (fastener : ref)
    (w : Washer) (table : dict value) :
  h !! fastener = Some (OWasher w) →
  clearance_hole_diameters (w_size w) = Ok table →
  (∀ washers fit depth counterSunk baseAssembly uuids clean,
     _clearanceHole h self fastener washers fit depth counterSunk baseAssembly
       uuids clean
     = Raise (AttributeError "countersink_profile"))
  ∧ (∀ depth washers hand simple counterSunk fit baseAssembly uuids clean,
       _threadedHole h self fastener depth washers hand simple counterSunk fit
         baseAssembly uuids clean
       = Raise (AttributeError "countersink_profile"))
  ∧ (∀ washers material depth counterSunk fit baseAssembly uuids clean,
       _tapHole h self fastener washers material depth counterSunk fit
         baseAssembly uuids clean
       = Raise (AttributeError "tap_hole_diameters")).
Proof.
  intros Hw Htable. split; [|split]; intros;
    unfold _clearanceHole, _threadedHole, _tapHole, _fastenerHole;
    rewrite (deref_Some _ _ _ Hw);
    cbn [object_clearance_hole_diameters object_tap_hole_diameters];
    rewrite ?Htable; reflexivity.
Qed.

End WasherAsFastener.

(** * Instances of the theorems in the sample environment *)

#[local] Existing Instance Sample.external.

Example set_screw_built :
  Screw__init__ SetScrew "M6-1" 10 "iso4026" (Some "right"%string) true 6
  = Ok Sample.set_screw.
Proof.
  vm_compute. destruct (Rge_dec _ _) as [Hge|_]; [lra | reflexivity].
Qed.

Example hex_nut_built :
  Nut__init__ HexNut "M6-1" "iso4032" (Some "right"%string) true
  = Ok Sample.hex_nut.
Proof. reflexivity. Qed.

Example cross_recess_PH5 :
  cross_recess "PH5" = Raise (ValueError (MsgInvalidCross "PH5" widths)).
Proof. reflexivity. Qed.

Example hex_nut_type_unknown :
  Nut__init__ HexNut "M6-1" "iso9999" (Some "right"%string) true
  = Raise (ValueError (MsgInvalidType "iso9999" {["iso4032"%string]})).
Proof. reflexivity. Qed.

Example clearance_hole_unknown_fit :
  _clearanceHole {[1%positive := OScrew Sample.set_screw]} Sample.host
    1%positive None (Some "Tight"%string) (Some 10) true None 0 true
  = Raise (ValueError (MsgInvalidKey (Some "Tight"%string)
                         ["Close"; "Normal"; "Loose"]%string)).
Proof. reflexivity. Qed.

Example hex_nut_hand_unknown :
  Nut__init__ HexNut "M6-1" "iso4032" (Some "up"%string) true
  = Raise (ValueError (MsgInvalidHand (Some "up"%string))).
Proof. reflexivity. Qed.

Lemma polygon_diagonal_spec_witness :
  0 < 10 ∧ (0 < 6)%Z
  ∧ polygon_diagonal 10 6 = 10 / cos (PI / IZR 6)
  ∧ ((3 <= 6)%Z → 10 <= polygon_diagonal 10 6)
  ∧ polygon_diagonal 10 6 = 10 / cos (radians 30)
  ∧ 11.547 < polygon_diagonal 10 6 < 11.5471.
Proof.
  split; [lra|]. split; [lia|]. apply (polygon_diagonal_spec 10 6); [lra | lia].
Defined.

Lemma cross_recess_spec_witness :
  Dict.get widths "PH2" = Some 5.3
  ∧ ∃ depth,
    Dict.get depths "PH2" = Some depth
    ∧ cross_recess "PH2" =
        Ok (cq_fillet2D (5.3 / 3) (cross_fillet_vertices 5.3)
              (cq_Workplane "XY"
                 [moveTo (5.3 / 2) 0; vLineTo (5.3 / 12); hLineTo (5.3 / 12);
                  vLineTo (5.3 / 2); hLineTo 0; mirrorX; mirrorY]),
            depth)
    ∧ (∀ v, v ∈ chain_vertices (cross_chain 5.3) →
            mkVector (vX v) (- vY v) (vZ v) ∈ chain_vertices (cross_chain 5.3)
            ∧ mkVector (- vX v) (vY v) (vZ v) ∈ chain_vertices (cross_chain 5.3))
    ∧ (∀ v, v ∈ cross_fillet_vertices 5.3
            ↔ v ∈ chain_vertices (cross_chain 5.3)
              ∧ Rabs (vX v) <= 5.3 / 6 ∧ Rabs (vY v) <= 5.3 / 6)
    ∧ (∀ v, v ∈ cross_fillet_vertices 5.3
            ↔ vZ v = 0 ∧ Rabs (vX v) = 5.3 / 12 ∧ Rabs (vY v) = 5.3 / 12)
    ∧ (∀ v, v ∈ chain_vertices (cross_chain 5.3) →
            Rabs (vX v) = 5.3 / 2 ∨ Rabs (vY v) = 5.3 / 2 →
            v ∉ cross_fillet_vertices 5.3).
Proof.
  split; [reflexivity|]. apply (cross_recess_spec "PH2" 5.3). reflexivity.
Defined.

Lemma hexalobular_recess_spec_witness :
  let table :=
    [("T6", [("A", VFloat 1.75); ("B", VFloat 1.27); ("Re", VFloat 0.14)]);
     ("T8", [("A", VFloat 2.4); ("B", VFloat 1.75); ("Re", VFloat 0.2)])]%string in
  evaluate_parameter_dict_of_dict
    (read_fastener_parameters_from_csv "iso10664def.csv") true = Ok table
  ∧ (∀ row A B Re,
     Dict.get table "T6" = Some row →
     Dict.get row "A" = Some (VFloat A) →
     Dict.get row "B" = Some (VFloat B) →
     Dict.get row "Re" = Some (VFloat Re) →
     let Ri :=
       (A * A - sqrt 3 * A * B - 4 * A * Re + B * B + 2 * sqrt 3 * B * Re)
       / (2 * (sqrt 3 * A - 2 * B - 2 * sqrt 3 * Re + 4 * Re)) in
     hexalobular_recess "T6" = Ok (hexalobular_plan A B Re Ri, 0.6 * A))
  ∧ (Dict.get table "T6" = None →
     hexalobular_recess "T6" = Raise (ValueError (MsgInvalidHexalobular "T6"))).
Proof.
  intros table. split; [reflexivity|].
  apply (hexalobular_recess_spec "T6" table). reflexivity.
Defined.

Example hexalobular_recess_T6 :
  ∃ plan, @hexalobular_recess Sample.external "T6" = Ok (plan, 0.6 * 1.75).
Proof. eexists. reflexivity. Qed.

Example hexalobular_recess_T7 :
  @hexalobular_recess Sample.external "T7"
  = Raise (ValueError (MsgInvalidHexalobular "T7")).
Proof. reflexivity. Qed.

Lemma fastener_quantities_None_witness :
  let a := {| children := []; metadata := IsNone |} in
  metadata a = IsNone
  ∧ _fastener_quantities ∅ a true = Ok QNone
  ∧ _fastener_quantities ∅ a false = Ok QNone.
Proof.
  intros a. split; [reflexivity|]. split.
  - exact (proj1 (fastener_quantities_None ∅ a true eq_refl)).
  - exact (proj1 (fastener_quantities_None ∅ a false eq_refl)).
Defined.

Lemma hole_radius_resolution_witness :
  let h : heap := {[1%positive := ONut Sample.hex_nut]} in
  let table : dict value := [("Soft", VFloat 5); ("Hard", VFloat 5.1)]%string in
  countersink_profile (deref h 1%positive) (Some "Normal"%string)
  = Ok (rect_profile (polygon_diagonal 10 6 + 6 * MM) 5)
  ∧ _fastenerHole h Sample.host table 1%positive 10 None (Some "Normal"%string)
      (Some "Medium"%string) true None 0 None false true
    = Raise (ValueError (MsgInvalidKey (Some "Medium"%string)
                           ["Soft"; "Hard"]%string)).
Proof.
  intros h table. split; [reflexivity|].
  destruct (hole_radius_resolution h Sample.host table 1%positive 10 None
              (Some "Normal"%string) (Some "Medium"%string) true None 0%nat
              None false true _ eq_refl) as [_ Hnone].
  destruct (Hnone eq_refl) as [_ Habsent].
  apply Habsent. intros k [= <-]. reflexivity.
Defined.


Lemma countersunk_length_check_witness :
  (CounterSunkScrew = CounterSunkScrew
   ∨ CounterSunkScrew = RaisedCounterSunkOvalHeadScrew)
  ∧ Screw__init__ CounterSunkScrew "M6-1" 3.3 "iso10642" (Some "right"%string)
      true 6
    = Raise (ValueError (MsgScrewLength 3.3 3.3))
  ∧ new_Screw ∅ CounterSunkScrew "M6-1" 3.3 "iso10642" (Some "right"%string)
      true 6
    = Raise (ValueError (MsgScrewLength 3.3 3.3)).
Proof.
  split; [left; reflexivity|].
  destruct (countersunk_length_check CounterSunkScrew "M6-1" 3.3 "iso10642"
              (Some "right"%string) true 6 (or_introl eq_refl))
    as (_ & _ & Hinit).
  destruct (Hinit "M"%char (VFloat 6) 1
              (list_to_set ["iso10642"; "iso10642"; "iso10642"; "iso10642"]%string)
              "right"%string
              [("a", VFloat 90); ("dk", VFloat 12); ("k", VFloat 3.3);
               ("s", VFloat 3)]%string 3.3)
    as [Hraise Hnew]; try reflexivity.
  split; [exact Hraise | apply Hnew].
Defined.

Lemma constructor_checks_witness :
  List.length (PyStr.split "-"%char (PyStr.strip "M6")) ≠ 2%nat
  ∧ Screw__init__ HexHeadScrew "M6" 40 "iso4014" (Some "right"%string) true 6
    = Raise (ValueError (MsgSizeFormat ["M6"]%string))
  ∧ Nut__init__ HexNut "M6" "iso4032" (Some "right"%string) true
    = Raise (ValueError (MsgSizeFormat ["M6"]%string)).
Proof.
  assert (List.length (PyStr.split "-"%char (PyStr.strip "M6")) ≠ 2%nat)
    as Hparts by (vm_compute; lia).
  split; [exact Hparts|].
  destruct (proj1 (constructor_checks "M6" "iso4014" (Some "right"%string))
              Hparts) as [Hscrew _].
  destruct (proj1 (constructor_checks "M6" "iso4032" (Some "right"%string))
              Hparts) as [_ Hnut].
  split; [apply Hscrew | apply Hnut].
Defined.

(** The washer constructor accepts a size that does not split into a
    diameter and a pitch. *)
Lemma washer_size_without_pitch :
  List.length (PyStr.split "-"%char (PyStr.strip "M6")) ≠ 2%nat
  ∧ Washer__init__ PlainWasher "M6" "iso7089" = Ok Sample.plain_washer.
Proof. split; [vm_compute; lia | reflexivity]. Qed.

Lemma bom_lines_by_identity_witness :
  let h : heap :=
    {[1%positive := ONut Sample.hex_nut; 2%positive := ONut Sample.hex_nut]} in
  let md : gmap string ref :=
    {["a" := 1%positive; "b" := 2%positive; "c" := 1%positive]} in
  let a := {| children := []; metadata := Bound md |} in
  metadata a = Bound md
  ∧ ∃ q, _fastener_quantities h a false = Ok (QObject q)
         ∧ q !! 1%positive = Some 2%nat ∧ q !! 2%positive = Some 1%nat.
Proof.
  intros h md a. split; [reflexivity|].
  destruct (bom_lines_by_identity h a md eq_refl)
    as [(q & Hq & Hline & _) _].
  exists q. split; [exact Hq|]. split.
  - apply (Hline 1%positive); [reflexivity|].
    apply recorded_elem. exists "a"%string. reflexivity.
  - apply (Hline 2%positive); [reflexivity|].
    apply recorded_elem. exists "b"%string. reflexivity.
Defined.

(** Two nuts constructed from the same arguments have equal attributes, yet
    the bill of materials puts them on two lines with [bom=False]; with
    [bom=True] their common description counts one record, not two. *)
Lemma equal_instances_on_separate_lines :
  ∃ r1 h1 r2 h2,
    new_Nut ∅ HexNut "M6-1" "iso4032" (Some "right"%string) true = Ok (r1, h1)
    ∧ new_Nut h1 HexNut "M6-1" "iso4032" (Some "right"%string) true
      = Ok (r2, h2)
    ∧ h2 !! r1 = h2 !! r2
    ∧ r1 ≠ r2
    ∧ _fastener_quantities h2
        {| children := [];
           metadata := Bound {["a" := r1; "b" := r2]} |} false
      = Ok (QObject {[r1 := 1%nat; r2 := 1%nat]})
    ∧ _fastener_quantities h2
        {| children := [];
           metadata := Bound {["a" := r1; "b" := r2]} |} true
      = Ok (QInfo {["HexNut(iso4032): M6-1"%string := 1%nat]}).
Proof.
  exists 1%positive, {[1%positive := ONut Sample.hex_nut]}, 2%positive,
    {[1%positive := ONut Sample.hex_nut; 2%positive := ONut Sample.hex_nut]}.
  split; [reflexivity|]. split; [reflexivity|]. split; [reflexivity|].
  split; [discriminate|]. split; reflexivity.
Qed.



(** Two nut objects with the same description on one assembly: the first is
    recorded at three holes, then the second at one.  By object the lines
    are 3 and 1; the one line of their common description carries 3, the
    count of the object the sample iteration order reaches last, and
    neither the second nut's 1 nor the sum 4. *)
Example shared_description_line :
  let h : heap :=
    {[1%positive := ONut Sample.hex_nut; 2%positive := ONut Sample.hex_nut]} in
  let a := {| children := []; metadata := Absent |} in
  let table : dict value :=
    [("Close", VFloat 6.4); ("Normal", VFloat 6.6); ("Loose", VFloat 7)]%string in
  let one_hole : Workplane :=
    {| wp_solid := cq_built "host";
       wp_stack := [Location_of (mkVector 60 0 0)] |} in
  ∃ part1 a1 part2 a2,
    _fastenerHole h Sample.host table 1%positive 10 None
      (Some "Normal"%string) None true (Some a) 0 None false true
    = Ok (part1, Some a1, 3%nat)
    ∧ _fastenerHole h one_hole table 2%positive 10 None
        (Some "Normal"%string) None true (Some a1) 3 None false true
      = Ok (part2, Some a2, 4%nat)
    ∧ _fastener_quantities h a2 false
      = Ok (QObject {[1%positive := 3%nat; 2%positive := 1%nat]})
    ∧ _fastener_quantities h a2 true
      = Ok (QInfo {["HexNut(iso4032): M6-1"%string := 3%nat]}).
Proof.
  intros h a table one_hole.
  eexists _, _, _, _. split; [reflexivity|]. split; [reflexivity|].
  split; reflexivity.
Qed.

(** ** Instances of the further properties *)

Example countersunk_screw_built :
  Screw__init__ CounterSunkScrew "M6-1" 20 "iso10642" (Some "right"%string)
    true 6
  = Ok Catalogue.countersunk_screw.
Proof.
  vm_compute. destruct (Rge_dec _ _) as [Hge|_]; [lra | reflexivity].
Qed.

Example plain_washer_built :
  Washer__init__ PlainWasher "M6" "iso7089" = Ok Sample.plain_washer.
Proof. reflexivity. Qed.

Lemma hexalobular_T6 :
  sqrt 3 * 1.75 - 2 * 1.27 - 2 * sqrt 3 * 0.14 + 4 * 0.14 ≠ 0
  ∧ 0 < hexalobular_Ri 1.75 1.27 0.14.
Proof.
  pose proof sqrt_3_bounds as [Hlo Hhi]. split; [lra|].
  unfold hexalobular_Ri. cbv zeta. apply Rdiv_lt_0_compat; cbn [pow]; lra.
Qed.

Lemma hexalobular_arcs_tangent_witness :
  sqrt 3 * 1.75 - 2 * 1.27 - 2 * sqrt 3 * 0.14 + 4 * 0.14 ≠ 0
  ∧ 0 <= 0.14 + hexalobular_Ri 1.75 1.27 0.14
  ∧ Hexalobular.distance
      (Hexalobular.center_internal_arc 1.27 (hexalobular_Ri 1.75 1.27 0.14))
      (Hexalobular.center_external_arc 1.75 0.14 1)
    = 0.14 + hexalobular_Ri 1.75 1.27 0.14.
Proof.
  destruct hexalobular_T6 as [Hden HRi].
  assert (0 <= 0.14 + hexalobular_Ri 1.75 1.27 0.14) as Hpos by lra.
  split; [exact Hden|]. split; [exact Hpos|].
  exact (hexalobular_arcs_tangent 1.75 1.27 0.14 1 Hden Hpos).
Defined.

Lemma hexalobular_tangent_points_witness :
  sqrt 3 * 1.75 - 2 * 1.27 - 2 * sqrt 3 * 0.14 + 4 * 0.14 ≠ 0
  ∧ 0 <= 0.14 ∧ 0 <= hexalobular_Ri 1.75 1.27 0.14
  ∧ 0 < 0.14 + hexalobular_Ri 1.75 1.27 0.14
  ∧ Hexalobular.distance
      (Hexalobular.tangent_points 1.75 1.27 0.14
         (hexalobular_Ri 1.75 1.27 0.14) 0)
      (Hexalobular.center_external_arc 1.75 0.14 0) = 0.14
  ∧ Hexalobular.distance
      (Hexalobular.center_internal_arc 1.27 (hexalobular_Ri 1.75 1.27 0.14))
      (Hexalobular.tangent_points 1.75 1.27 0.14
         (hexalobular_Ri 1.75 1.27 0.14) 0)
    = hexalobular_Ri 1.75 1.27 0.14.
Proof.
  destruct hexalobular_T6 as [Hden HRi].
  assert (0 <= 0.14) as HRe by lra.
  assert (0 <= hexalobular_Ri 1.75 1.27 0.14) as HRi' by lra.
  assert (0 < 0.14 + hexalobular_Ri 1.75 1.27 0.14) as Hpos by lra.
  split; [exact Hden|]. split; [exact HRe|]. split; [exact HRi'|].
  split; [exact Hpos|].
  exact (hexalobular_tangent_points 1.75 1.27 0.14 0 Hden HRe HRi' Hpos).
Defined.

Lemma isolate_fastener_type_sizes_witness :
  let data := read_fastener_parameters_from_csv "hex_nut_parameters.csv" in
  let table := [("M6-1", [("m", "5"); ("s", "10")])]%string in
  isolate_fastener_type "iso4032" data = Ok table
  ∧ ("M6-1"%string ∈ Dict.keys table
     ↔ ∃ parameters column dimension,
         ("M6-1"%string, parameters) ∈ data ∧ column ∈ parameters
         ∧ column_of "iso4032" dimension column).
Proof.
  intros data table. split; [reflexivity|].
  apply (isolate_fastener_type_sizes "iso4032" data table "M6-1").
  reflexivity.
Defined.

Lemma isolate_fastener_type_dimensions_witness :
  let data := read_fastener_parameters_from_csv "hex_nut_parameters.csv" in
  let table := [("M6-1", [("m", "5"); ("s", "10")])]%string in
  let dd := [("m", "5"); ("s", "10")]%string in
  isolate_fastener_type "iso4032" data = Ok table
  ∧ Dict.get table "M6-1" = Some dd
  ∧ dd ≠ []
  ∧ ∃ parameters,
      ("M6-1"%string, parameters) ∈ data
      ∧ ∀ dimension v,
          Dict.get dd dimension = Some v →
          v ≠ EmptyString
          ∧ ∃ td, (td, v) ∈ parameters
                  ∧ PyStr.split ":"%char (PyStr.strip td)
                    = ["iso4032"%string; dimension].
Proof.
  intros data table dd. split; [reflexivity|]. split; [reflexivity|].
  apply (isolate_fastener_type_dimensions "iso4032" data table "M6-1" dd);
    reflexivity.
Defined.

Lemma dimension_set_sound_witness :
  let data := [("m", VFloat 5); ("s", VFloat 10)]%string in
  dimension_set (NutClass HexNut) "M6-1" "iso4032" true = Ok data
  ∧ Dict.get data "s" = Some (VFloat 10)
  ∧ ∃ parameters td raw,
      ("M6-1"%string, parameters) ∈ fastener_data (NutClass HexNut)
      ∧ (td, raw) ∈ parameters
      ∧ PyStr.split ":"%char (PyStr.strip td) = ["iso4032"; "s"]%string
      ∧ raw ≠ EmptyString
      ∧ metric_str_to_float raw = Ok (VFloat 10).
Proof.
  intros data. split; [reflexivity|]. split; [reflexivity|].
  apply (dimension_set_sound (NutClass HexNut) "M6-1" "iso4032" true data "s"
           (VFloat 10)); reflexivity.
Defined.

Lemma dimension_set_unknown_size_witness :
  let table := [("M6-1", [("m", "5"); ("s", "10")])]%string in
  isolate_fastener_type "iso4032" (fastener_data (NutClass HexNut)) = Ok table
  ∧ (∀ parameters column dimension,
       ("M8-1.25"%string, parameters) ∈ fastener_data (NutClass HexNut) →
       column ∈ parameters → ¬ column_of "iso4032" dimension column)
  ∧ sizes (NutClass HexNut) "iso4032" = Ok ["M6-1"%string]
  ∧ dimension_set (NutClass HexNut) "M8-1.25" "iso4032" true
    = Raise (ValueError (MsgInvalidSize "M8-1.25" ["M6-1"%string])).
Proof.
  intros table.
  assert (∀ parameters column dimension,
            ("M8-1.25"%string, parameters) ∈ fastener_data (NutClass HexNut) →
            column ∈ parameters → ¬ column_of "iso4032" dimension column)
    as Hnone.
  { intros parameters column dimension Hin.
    apply list_elem_of_singleton in Hin. discriminate Hin. }
  assert (isolate_fastener_type "iso4032" (fastener_data (NutClass HexNut))
          = Ok table) as Htable by reflexivity.
  split; [exact Htable|]. split; [exact Hnone|].
  destruct (dimension_set_unknown_size (NutClass HexNut) "M8-1.25" "iso4032"
              true table Htable Hnone) as (Hsizes & _ & Hraise).
  split; [exact Hsizes | exact Hraise].
Defined.

Lemma screw_constructed_witness :
  Screw__init__ SetScrew "M6-1" 10 "iso4026" (Some "right"%string) true 6
  = Ok Sample.set_screw
  ∧ (∃ ss, sizes (ScrewClass SetScrew) "iso4026" = Ok ss ∧ "M6-1"%string ∈ ss)
  ∧ 0 < s_thread_length Sample.set_screw
  ∧ s__cq_object Sample.set_screw = None
  ∧ cq_object (OScrew Sample.set_screw) = Ok (Some (cq_built "make_setscrew")).
Proof.
  split; [exact set_screw_built|].
  destruct (screw_constructed SetScrew "M6-1" 10 "iso4026"
              (Some "right"%string) true 6 Sample.set_screw set_screw_built)
    as (_ & _ & _ & _ & Hsize & _ & (offset & _ & _ & _ & Hpos) & Hobj & _
        & _ & Hset).
  split; [exact Hsize|]. split; [exact Hpos|].
  split; [apply Hobj; reflexivity|]. exact (Hset eq_refl).
Defined.

Lemma nut_constructed_witness :
  Nut__init__ HexNut "M6-1" "iso4032" (Some "right"%string) true
  = Ok Sample.hex_nut
  ∧ (∃ ss, sizes (NutClass HexNut) "iso4032" = Ok ss ∧ "M6-1"%string ∈ ss)
  ∧ n_socket_clearance Sample.hex_nut = 6.
Proof.
  split; [exact hex_nut_built|].
  destruct (nut_constructed HexNut "M6-1" "iso4032" (Some "right"%string) true
              Sample.hex_nut hex_nut_built)
    as ((_ & _ & _ & _ & Hsc) & _ & _ & _ & Hsize & _).
  split; [exact Hsize | exact Hsc].
Defined.

Lemma washer_constructed_witness :
  Washer__init__ PlainWasher "M6" "iso7089" = Ok Sample.plain_washer
  ∧ (∃ ss, sizes (WasherClass PlainWasher) "iso7089" = Ok ss
           ∧ "M6"%string ∈ ss)
  ∧ ∃ d1 d2 h profile,
      get3 (w_washer_data Sample.plain_washer) "d1" "d2" "h" = Ok (d1, d2, h)
      ∧ washer_profile PlainWasher (w_washer_data Sample.plain_washer)
        = Ok profile
      ∧ w__cq_object Sample.plain_washer = cq_revolve profile.
Proof.
  split; [exact plain_washer_built|].
  destruct (washer_constructed PlainWasher "M6" "iso7089" Sample.plain_washer
              plain_washer_built) as (_ & _ & Hsize & _ & Hprofile).
  split; [exact Hsize | exact Hprofile].
Defined.

Lemma numbered_size_unknown_witness :
  PyStr.first "#7-32" = Ok "#"%char
  ∧ PyStr.split "-"%char "#7-32" = ["#7"; "32"]%string
  ∧ Dict.get imperial_numbered_sizes "#7" = None
  ∧ decode_imperial_size "#7-32" = Raise (KeyError (Some "#7"%string))
  ∧ Nut__init__ HexNut "#7-32" "iso4032" (Some "right"%string) true
    = Raise (KeyError (Some "#7"%string)).
Proof.
  split; [reflexivity|]. split; [reflexivity|]. split; [reflexivity|].
  destruct (numbered_size_unknown "#7-32" "#7" ["32"%string] eq_refl eq_refl
              eq_refl) as [Hdec Hinit].
  split; [exact Hdec|]. apply (Hinit eq_refl).
Defined.

Lemma min_hole_depth_constructed_witness :
  Screw__init__ SetScrew "M6-1" 10 "iso4026" (Some "right"%string) true 6
  = Ok Sample.set_screw
  ∧ MoreMethods.min_hole_depth Sample.set_screw true
    = Raise (AttributeError "vertices")
  ∧ MoreMethods.min_hole_depth Sample.set_screw false
    = Raise (AttributeError "vertices").
Proof.
  split; [exact set_screw_built|].
  destruct (min_hole_depth_constructed SetScrew "M6-1" 10 "iso4026"
              (Some "right"%string) true 6 Sample.set_screw set_screw_built)
    as [Hset _].
  split; apply (Hset eq_refl).
Defined.

Lemma default_head_recess_missing_witness :
  let screw_data : dict value := [("dk", VFloat 12); ("n", VFloat 1.6)]%string in
  Dict.get screw_data "t" = None
  ∧ Dict.get screw_data "recess" = None
  ∧ MoreMethods.default_head_recess screw_data
    = Raise (ValueError (MsgRecessDataMissing screw_data)).
Proof.
  intros screw_data. split; [reflexivity|]. split; [reflexivity|].
  apply (default_head_recess_missing screw_data eq_refl). reflexivity.
Defined.

Lemma default_head_recess_preference_witness :
  let screw_data : dict value :=
    [("dk", VFloat 12); ("n", VFloat 1.6); ("s", VFloat 3); ("t", VFloat 2);
     ("recess", VStr "ph2")]%string in
  returns (MoreMethods.try_recess None (MoreMethods.slot_step screw_data))
  ∧ Dict.get screw_data "s" = Some (VFloat 3)
  ∧ Dict.get screw_data "t" = Some (VFloat 2)
  ∧ Dict.get screw_data "recess" = Some (VStr "ph2")
  ∧ ∃ vertices,
      MoreMethods.default_head_recess screw_data
      = Ok (MoreMethods.RecessFound
              (cq_fillet2D (5.3 / 3) vertices (cq_Workplane "XY" (cross_chain 5.3)))
              (VFloat 3.27) 30).
Proof.
  intros screw_data.
  assert (returns (MoreMethods.try_recess None (MoreMethods.slot_step screw_data)))
    as Hslot by exact I.
  split; [exact Hslot|]. split; [reflexivity|]. split; [reflexivity|].
  split; [reflexivity|].
  destruct (default_head_recess_preference screw_data 3 (VFloat 2) Hslot
              eq_refl eq_refl) as [_ Hcode].
  destruct (Hcode (VStr "ph2") eq_refl eq_refl) as [Hvalid _].
  eexists. apply Hvalid. reflexivity.
Defined.

Lemma cos_45_pos : cos (radians (90 / 2)) ≠ 0.
Proof.
  replace (radians (90 / 2)) with (PI / 4) by (unfold radians; field).
  rewrite cos_PI4. pose proof (sqrt_lt_R0 2). 
  apply Rgt_not_eq, Rdiv_lt_0_compat; lra.
Qed.

Lemma countersunk_profile_closes_witness :
  (s_class Catalogue.countersunk_screw = CounterSunkScrew
   ∨ s_class Catalogue.countersunk_screw = RaisedCounterSunkOvalHeadScrew)
  ∧ get3 (s_screw_data Catalogue.countersunk_screw) "a" "dk" "k"
    = Ok (90, 12, 3.3)
  ∧ cos (radians (90 / 2)) ≠ 0
  ∧ ∃ steps,
      screw_countersink_profile Catalogue.countersunk_screw None
      = Ok (Some (cq_Workplane "XZ" steps))
      ∧ last (chain_vertices steps)
        = Some (Vector2 (12 / 2 - 3.3 * tan (radians (90 / 2))) 0).
Proof.
  split; [left; reflexivity|]. split; [reflexivity|].
  split; [exact cos_45_pos|].
  destruct (countersunk_profile_closes Catalogue.countersunk_screw None
              90 12 3.3 (or_introl eq_refl) eq_refl cos_45_pos)
    as (steps & Hprofile & Hlast & _).
  exists steps. split; [exact Hprofile | exact Hlast].
Defined.

Lemma washer_profile_enclosed_witness :
  get3 (w_washer_data Sample.plain_washer) "d1" "d2" "h" = Ok (6.4, 12, 1.6)
  ∧ clearance_hole_diameter (w_size Sample.plain_washer) (Some "Normal"%string)
    = Ok (VFloat 6.6)
  ∧ w_thread_diameter Sample.plain_washer = VFloat 6
  ∧ 0 <= 6.4 ∧ 6.4 / 2 + 1.6 / 4 <= 12 / 2 ∧ 0 <= 1.6 ∧ 6 <= 6.6
  ∧ ∃ steps width,
      washer_profile (w_class Sample.plain_washer)
        (w_washer_data Sample.plain_washer)
      = Ok (cq_Workplane "XZ" steps)
      ∧ MoreMethods.washer_countersink_profile Sample.plain_washer
          (Some "Normal"%string)
        = Ok (cq_Workplane "XZ" [rect width 1.6 false])
      ∧ width = 12 / 2 + (6.6 - 6)
      ∧ Forall (λ v, 6.4 / 2 <= vX v <= 12 / 2 ∧ 0 <= vX v <= width
                     ∧ 0 <= vY v <= 1.6)
          (chain_vertices steps).
Proof.
  assert (0 <= 6.4) as H1 by lra.
  assert (6.4 / 2 + 1.6 / 4 <= 12 / 2) as H2 by lra.
  assert (0 <= 1.6) as H3 by lra.
  assert (6 <= 6.6) as H4 by lra.
  split; [reflexivity|]. split; [reflexivity|]. split; [reflexivity|].
  split; [exact H1|]. split; [exact H2|]. split; [exact H3|].
  split; [exact H4|].
  exact (washer_profile_enclosed Sample.plain_washer (Some "Normal"%string)
           6.4 12 1.6 6.6 6 eq_refl eq_refl eq_refl H1 H2 H3 H4).
Defined.

Lemma tan_15_le_1 : tan (radians 15) <= 1.
Proof.
  rewrite <- tan_PI4. apply Rlt_le, tan_increasing;
    unfold radians; pose proof PI_RGT_0; lra.
Qed.

Lemma hex_nut_chamfer_fits :
  (polygon_diagonal 10 (MoreMethods.nut_sides (n_class Sample.hex_nut)) - 10)
  * tan (radians 15) / 2 <= 5 / 2.
Proof.
  cbn [MoreMethods.nut_sides Sample.hex_nut n_class].
  pose proof (polygon_diagonal_ge 10 6 ltac:(lia) ltac:(lra)) as Hge.
  assert (polygon_diagonal 10 6 <= 15) as Hle.
  { unfold polygon_diagonal. replace (PI / IZR 6) with (PI / 6) by reflexivity.
    rewrite cos_PI6. pose proof sqrt_3_bounds as [Hlo Hhi].
    apply (Rmult_le_reg_r (sqrt 3 / 2)); [lra|].
    replace (10 / (sqrt 3 / 2) * (sqrt 3 / 2)) with 10 by (field; lra). lra. }
  pose proof tan_15_le_1 as Ht. pose proof tan_15_pos as Hp.
  nra.
Qed.

Lemma nut_profile_enclosed_witness :
  (n_class Sample.hex_nut = HexNut
   ∨ n_class Sample.hex_nut = UnchamferedHexagonNut
   ∨ n_class Sample.hex_nut = SquareNut)
  ∧ get2 (n_nut_data Sample.hex_nut) "m" "s" = Ok (5, 10)
  ∧ 0.002 <= 10
  ∧ (polygon_diagonal 10 (MoreMethods.nut_sides (n_class Sample.hex_nut)) - 10)
    * tan (radians 15) / 2 <= 5 / 2
  ∧ ∃ steps,
      MoreMethods.nut_profile (n_class Sample.hex_nut)
        (n_nut_data Sample.hex_nut)
      = Ok (cq_Workplane "XZ" steps)
      ∧ Forall (λ v, 0 <= vX v <= polygon_diagonal 10 6 / 2 ∧ 0 <= vY v <= 5)
          (chain_vertices steps).
Proof.
  assert (0.002 <= 10) as Hs by lra.
  split; [left; reflexivity|]. split; [reflexivity|]. split; [exact Hs|].
  split; [exact hex_nut_chamfer_fits|].
  destruct (nut_profile_enclosed Sample.hex_nut None 5 10
              (or_introl eq_refl) eq_refl Hs hex_nut_chamfer_fits)
    as (steps & Hprofile & _ & Hall).
  exists steps. split; [exact Hprofile | exact Hall].
Defined.

Lemma washer_stack_placement_witness :
  let h : heap :=
    {[1%positive := ONut Sample.hex_nut;
      2%positive := OWasher Sample.plain_washer]} in
  let a := {| children := []; metadata := Absent |} in
  let hole := Location_of (mkVector 0 0 0) in
  metadata a ≠ IsNone
  ∧ cq_object (deref h 1%positive) = Ok (Some (cq_built "make_nut"))
  ∧ length_offset (deref h 1%positive) = Ok (VFloat 0)
  ∧ Forall2 (λ r w, h !! r = Some (OWasher w)) [2%positive; 2%positive]
      [Sample.plain_washer; Sample.plain_washer]
  ∧ ∃ a',
      place_at h 1%positive (Some [2%positive; 2%positive]) 5 (a, 0%nat) hole
      = Ok (a', 3%nat)
      ∧ children a'
        = [(uuid 0, Some (w__cq_object Sample.plain_washer),
            stacked hole (5 - 0 - 0));
           (uuid 1, Some (w__cq_object Sample.plain_washer),
            stacked hole
              (5 - 0 - (washer_height Sample.plain_washer + 0)));
           (uuid 2, Some (cq_built "make_nut"),
            stacked hole
              (5 - 0
               - (washer_height Sample.plain_washer
                  + (washer_height Sample.plain_washer + 0))))].
Proof.
  intros h a hole.
  assert (metadata a ≠ IsNone) as Ha by discriminate.
  assert (Forall2 (λ r w, h !! r = Some (OWasher w)) [2%positive; 2%positive]
            [Sample.plain_washer; Sample.plain_washer]) as Hws.
  { repeat constructor. }
  split; [exact Ha|]. split; [reflexivity|]. split; [reflexivity|].
  split; [exact Hws|].
  destruct (washer_stack_placement h 1%positive [2%positive; 2%positive]
              [Sample.plain_washer; Sample.plain_washer] 5 hole a 0%nat
              (Some (cq_built "make_nut")) 0 Ha eq_refl eq_refl Hws)
    as (a' & Hplace & Hkids).
  exists a'. split; [exact Hplace | exact Hkids].
Defined.

Lemma part_without_assembly_witness :
  let h : heap :=
    {[1%positive := ONut Sample.hex_nut;
      2%positive := OWasher Sample.plain_washer]} in
  let a := {| children := []; metadata := Absent |} in
  let table : dict value :=
    [("Close", VFloat 6.4); ("Normal", VFloat 6.6); ("Loose", VFloat 7)]%string in
  ∃ part a',
    _fastenerHole h Sample.host table 1%positive 10 (Some [2%positive])
      (Some "Normal"%string) None true (Some a) 0 None false true
    = Ok (part, Some a', 6%nat)
    ∧ _fastenerHole h Sample.host table 1%positive 10 None
        (Some "Normal"%string) None true None 0 None false true
      = Ok (part, None, 0%nat).
Proof.
  intros h a table.
  assert (∃ part a',
            _fastenerHole h Sample.host table 1%positive 10 (Some [2%positive])
              (Some "Normal"%string) None true (Some a) 0 None false true
            = Ok (part, Some a', 6%nat)) as (part & a' & Hcall).
  { eexists _, _. reflexivity. }
  exists part, a'. split; [exact Hcall|].
  exact (part_without_assembly h Sample.host table 1%positive 10
           (Some [2%positive]) None (Some "Normal"%string) None true a
           0%nat None false true part (Some a') 6%nat Hcall).
Defined.

Lemma threaded_hole_clearance_table_witness :
  let h : heap := {[1%positive := OScrew Sample.set_screw]} in
  Some "right"%string ≠ None
  ∧ ∀ table,
      _threadedHole h Sample.host 1%positive 10 None (Some "right"%string)
        true false (Some "Normal"%string) None 0 true
      = _fastenerHole h Sample.host table 1%positive 10 None
          (Some "Normal"%string) None false None 0 (Some "right"%string)
          true true.
Proof.
  intros h.
  assert (Some "right"%string ≠ None) as Hh by discriminate.
  split; [exact Hh|].
  exact (threaded_hole_clearance_table h Sample.host 1%positive 10 None
           (Some "right"%string) true false (Some "Normal"%string) None 0%nat
           true Hh).
Defined.

Lemma quantities_total_witness :
  let h : heap :=
    {[1%positive := ONut Sample.hex_nut; 2%positive := ONut Sample.hex_nut;
      3%positive := OOther "bracket"]} in
  let md : gmap string ref :=
    {["a" := 1%positive; "b" := 2%positive; "c" := 1%positive;
      "d" := 3%positive]} in
  let a := {| children := []; metadata := Bound md |} in
  metadata a = Bound md
  ∧ List.length (filter (λ v, is_fastener h v = true) (recorded md)) = 3%nat
  ∧ ∃ q q',
      _fastener_quantities h a false = Ok (QObject q)
      ∧ total q = 3%nat
      ∧ _fastener_quantities h a true = Ok (QInfo q')
      ∧ (total q' ≤ 3)%nat.
Proof.
  intros h md a. split; [reflexivity|].
  assert (List.length (filter (λ v, is_fastener h v = true) (recorded md))
          = 3%nat) as Hlen by reflexivity.
  split; [exact Hlen|].
  destruct (quantities_total h a md eq_refl) as (q & q' & Hq & Ht & Hq' & Ht').
  exists q, q'. rewrite Hlen in Ht, Ht'. done.
Defined.

Lemma lookup_drill_diameters_spec_witness :
  let rows := [("A", "0.2")]%string in
  let drill_hole_sizes := [("M6", [("Close", "A"); ("Normal", "6.4")])]%string in
  let table :=
    [("M6", [("Close", VFloat (0.2 * IN)); ("Normal", VFloat 6.4)])]%string in
  Tables.lookup_drill_diameters rows drill_hole_sizes = Ok table
  ∧ ∀ size, size ∈ Dict.keys table ↔ size ∈ Dict.keys drill_hole_sizes.
Proof.
  intros rows drill_hole_sizes table.
  assert (Tables.lookup_drill_diameters rows drill_hole_sizes = Ok table)
    as Htable by reflexivity.
  split; [exact Htable|].
  exact (proj1 (lookup_drill_diameters_spec rows drill_hole_sizes table Htable)).
Defined.

Lemma select_by_size_spec_witness :
  let d :=
    [(WasherClass PlainWasher, ["iso7089"%string]);
     (WasherClass ChamferedWasher, ["iso7090"%string])] in
  (∀ (known : gset string) t, t ∈ elements known ↔ t ∈ known)
  ∧ @Select.select_by_size_fn Catalogue.with_washers elements Select.WasherBase "M6"
    = Ok d
  ∧ ∀ c ts, Select.type_dict_get d c = Some ts → ts ≠ [].
Proof.
  intros d.
  assert (∀ (known : gset string) t, t ∈ elements known ↔ t ∈ known) as Hiter.
  { intros known t. apply elem_of_elements. }
  assert (@Select.select_by_size_fn Catalogue.with_washers elements
            Select.WasherBase "M6" = Ok d) as Hd by (vm_compute; reflexivity).
  split; [exact Hiter|]. split; [exact Hd|].
  exact (proj2 (@select_by_size_spec Catalogue.with_washers elements
                  Select.WasherBase "M6" d Hiter Hd)).
Defined.

Lemma nominal_screw_lengths_spec_witness :
  let rows : list (dict string) :=
    [[("Screw_Type", "iso4026"); ("Unit", "mm"); ("Nominal_Sizes", "2,3")];
     [("Screw_Type", "asme"); ("Unit", "in"); ("Nominal_Sizes", "0.2")]]%string in
  let table : dict (list R) :=
    [("iso4026", [MM * 2; MM * 3]); ("asme", [IN * 0.2])]%string in
  Tables.lookup_nominal_screw_lengths rows = Ok table
  ∧ Dict.get table "asme" = Some [IN * 0.2]
  ∧ ∃ row unit cell,
      row ∈ rows
      ∧ Dict.get row "Screw_Type" = Some "asme"%string
      ∧ Dict.get row "Unit" = Some unit
      ∧ Dict.get row "Nominal_Sizes" = Some cell
      ∧ Forall2
          (λ field x,
             ∃ y, py_float field = Ok y
                  ∧ x = (if bool_decide (unit = "mm"%string) then 1 else 25.4)
                        * y)
          (PyStr.split ","%char cell) [IN * 0.2].
Proof.
  intros rows table.
  assert (Tables.lookup_nominal_screw_lengths rows = Ok table) as Htable
    by reflexivity.
  split; [exact Htable|]. split; [reflexivity|].
  exact (nominal_screw_lengths_spec rows table "asme" [IN * 0.2] Htable
           eq_refl).
Defined.

Lemma clearance_by_diameter_witness :
  PyStr.split "-"%char "M6-1" !! 0%nat = Some "M6"%string
  ∧ PyStr.split "-"%char "M6-0.75" !! 0%nat = Some "M6"%string
  ∧ ∀ table, clearance_hole_diameters "M6-1" = Ok table
             ↔ clearance_hole_diameters "M6-0.75" = Ok table.
Proof.
  split; [reflexivity|]. split; [reflexivity|].
  exact (proj1 (clearance_by_diameter "M6-1" "M6-0.75" "M6" eq_refl eq_refl)).
Defined.

Lemma washer_is_no_fastener_witness :
  let h : heap := {[1%positive := OWasher Sample.plain_washer]} in
  h !! 1%positive = Some (OWasher Sample.plain_washer)
  ∧ clearance_hole_diameters (w_size Sample.plain_washer)
    = Ok [("Close", VFloat 6.4); ("Normal", VFloat 6.6); ("Loose", VFloat 7)]%string
  ∧ _clearanceHole h Sample.host 1%positive None (Some "Normal"%string)
      (Some 10) true None 0 true
    = Raise (AttributeError "countersink_profile")
  ∧ _tapHole h Sample.host 1%positive None (Some "Soft"%string) (Some 10) true
      (Some "Normal"%string) None 0 true
    = Raise (AttributeError "tap_hole_diameters").
Proof.
  intros h.
  assert (clearance_hole_diameters (w_size Sample.plain_washer)
          = Ok [("Close", VFloat 6.4); ("Normal", VFloat 6.6);
                ("Loose", VFloat 7)]%string) as Htable by reflexivity.
  split; [reflexivity|]. split; [exact Htable|].
  destruct (washer_is_no_fastener h Sample.host 1%positive Sample.plain_washer
              _ eq_refl Htable) as (Hclear & _ & Htap).
  split; [apply Hclear | apply Htap].
Defined.
